(** * RiskRadarAI: feature engineering, rule-based risk labels, temporal split

    A shallow embedding of
      - [src/feature_engineering.py]   (batch transform, risk score, risk zone),
      - [backend/services/feature_builder.py] (single-day transform),
      - [src/train_model.py]           (per-athlete 80/20 temporal split),
    and the properties of the specification that can be stated over it.

    Numbers are binary64 floats ([PrimFloat.float]), so that NaN, infinities and
    the epsilon guards of the source behave as they do under numpy.  pandas
    reductions (mean, std, rolling windows) are written by their defining
    formulas with left-to-right summation; pandas may associate sums in another
    order, so the statements below are phrased on inputs whose arithmetic is
    exact, or as order comparisons that do not depend on the last bit.

    [numpy.exp] and [numpy.log1p] are not code of the repository: they are an
    interface ([Numpy]) the transforms are parameterised by. *)

From Stdlib Require Import ZArith List Floats Uint63 Lia Bool Sorted Permutation.
From stdpp Require Import gmap strings list.

#[local] Set Warnings "-inexact-float".
#[local] Open Scope float_scope.

(** ** Floats as numpy sees them *)

Module F64.

Definition nan : float := PrimFloat.nan.

(** [pd.isna] on a float. *)
Definition isna (x : float) : bool := PrimFloat.is_nan x.

(** An [int64] cell used in float arithmetic (the conversion a cell below 2^63
    in absolute value gets). *)
Definition of_Z (z : Z) : float :=
  match z with
  | Z0 => 0
  | Zpos _ => PrimFloat.of_uint63 (Uint63.of_Z z)
  | Zneg p => - PrimFloat.of_uint63 (Uint63.of_Z (Zpos p))
  end.

Definition of_nat (n : nat) : float := of_Z (Z.of_nat n).

(** Python's [int(x)] on a float: truncation toward zero; it raises on NaN
    and on the infinities ([None] here). *)
Definition trunc (x : float) : option Z :=
  match Prim2SF x with
  | S754_zero _ => Some 0%Z
  | S754_finite s m e =>
      let a := (if (0 <=? e)%Z then Z.shiftl (Zpos m) e else Z.shiftr (Zpos m) (- e))%Z in
      Some (if s then (- a)%Z else a)
  | S754_infinity _ | S754_nan => None
  end.

Definition sum (xs : list float) : float := fold_left PrimFloat.add xs 0.

(** The non-missing observations of a series: every pandas reduction used by
    the source runs with [skipna=True]. *)
Definition dropna (xs : list float) : list float :=
  List.filter (fun x => negb (isna x)) xs.

(** [Series.mean()]. *)
Definition mean (xs : list float) : float :=
  let obs := dropna xs in
  match obs with
  | [] => nan
  | _ => sum obs / of_nat (length obs)
  end.

(** [Series.std()]: sample standard deviation ([ddof=1]); NaN with fewer than
    two observations. *)
Definition std (xs : list float) : float :=
  let obs := dropna xs in
  if (length obs <? 2)%nat then nan
  else
    let m := sum obs / of_nat (length obs) in
    PrimFloat.sqrt
      (sum (List.map (fun x => (x - m) * (x - m)) obs) / of_nat (length obs - 1)).

Definition fmin (a b : float) : float := if b <? a then b else a.
Definition fmax (a b : float) : float := if a <? b then b else a.

(** [Series.min()] and [Series.max()]: NaN on a series without observations. *)
Definition min (xs : list float) : float :=
  match dropna xs with
  | [] => nan
  | x :: r => fold_left fmin r x
  end.

Definition max (xs : list float) : float :=
  match dropna xs with
  | [] => nan
  | x :: r => fold_left fmax r x
  end.

End F64.

(** ** The numpy interface *)

(** [numpy.exp] and [numpy.log1p] on binary64. *)
Class Numpy := {
  np_exp : float -> float;
  np_log1p : float -> float
}.

(** ** Data model *)

(** One athlete-day, with the columns [train_model.py] requires and the request
    schema [AthleteInput] of [backend/app.py] carries.  [date] is the calendar
    day as a day number. *)
Record TelemetryRecord := {
  athlete_id : Z;
  date : Z;
  daily_load : float;
  resting_hr : float;
  hrv : float;
  sleep_quality : float;
  past_injury : Z;
  days_since_injury : Z
}.

(** A column added by the transforms: numeric, or the string labels of
    [risk_zone]. *)
Inductive column :=
| FloatCol (xs : list float)
| StrCol (xs : list string).

(** A dataframe: the telemetry columns row by row, and the derived columns by
    name. *)
Record DataFrame := {
  rows : list TelemetryRecord;
  derived : gmap string column
}.

Definition len (df : DataFrame) : nat := length (rows df).

(** The five columns handed to the classifier ([MODEL_FEATURES]). *)
Record FeatureVector := {
  load_7d : float;
  hrv_drop : float;
  training_monotony_log : float;
  recovery_score : float;
  history_risk : float
}.

Inductive exn :=
| ValueError (msg : string)
| KeyError (key : string)
| TypeError (key : string)
| IndexError
| NameError.

Inductive result (A : Type) :=
| Ok (a : A)
| Raise (e : exn).
Arguments Ok {A} a.
Arguments Raise {A} e.

#[global] Instance result_ret : MRet result := fun A a => Ok a.
#[global] Instance result_bind : MBind result := fun A B f m =>
  match m with
  | Ok a => f a
  | Raise e => Raise e
  end.

(** [pd.to_datetime]: dates are already day numbers here. *)
Definition to_datetime (d : Z) : Z := d.

(** [df[name]] for a derived numeric column. *)
Definition getitem (df : DataFrame) (name : string) : result (list float) :=
  match derived df !! name with
  | Some (FloatCol xs) => Ok xs
  | Some (StrCol _) => Raise (TypeError name)
  | None => Raise (KeyError name)
  end.

(** [df[name] = c]. *)
Definition setitem (df : DataFrame) (name : string) (c : column) : DataFrame :=
  {| rows := rows df; derived := <[name := c]> (derived df) |}.

Definition set_date (df : DataFrame) (f : Z -> Z) : DataFrame :=
  {| rows :=
       List.map (fun r =>
         {| athlete_id := athlete_id r; date := f (date r);
            daily_load := daily_load r; resting_hr := resting_hr r;
            hrv := hrv r; sleep_quality := sleep_quality r;
            past_injury := past_injury r;
            days_since_injury := days_since_injury r |}) (rows df);
     derived := derived df |}.

(** ** Series arithmetic *)

(** Elementwise operation of two series over the same index. *)
Definition zipf (op : float -> float -> float) (xs ys : list float) : list float :=
  zip_with op xs ys.

(** ** Group-wise and rolling transforms *)

(** The values of the rows whose key is [k], in frame order. *)
Definition group_values (keys : list Z) (vals : list float) (k : Z) : list float :=
  List.map snd (List.filter (fun p => Z.eqb (fst p) k) (combine keys vals)).

(** Position of row [i] inside its group. *)
Definition rank_in_group (keys : list Z) (i : nat) (k : Z) : nat :=
  length (List.filter (Z.eqb k) (firstn i keys)).

(** [df.groupby(key)[col].transform(f)], and the grouped rolling reductions
    after [reset_index(level=0, drop=True)]: the result of [f] on each group is
    written back at the rows of that group. *)
Definition groupby_transform (f : list float -> list float)
    (keys : list Z) (vals : list float) : list float :=
  imap (fun i k => nth (rank_in_group keys i k) (f (group_values keys vals k)) F64.nan)
       keys.

(** The trailing window of [w] rows that ends at row [i]. *)
Definition window (w : nat) (xs : list float) (i : nat) : list float :=
  skipn (S i - w) (firstn (S i) xs).

(** [Series.rolling(w, min_periods=mp).agg()]: NaN until the window holds [mp]
    observations. *)
Definition rolling (w mp : nat) (agg : list float -> float) (xs : list float)
    : list float :=
  imap (fun i _ =>
          let obs := F64.dropna (window w xs i) in
          if (length obs <? mp)%nat then F64.nan else agg obs) xs.

Definition rolling_mean (w mp : nat) : list float -> list float :=
  rolling w mp F64.mean.

Definition rolling_std (w mp : nat) : list float -> list float :=
  rolling w mp F64.std.

Fixpoint ffill_from (last : float) (xs : list float) : list float :=
  match xs with
  | [] => []
  | x :: r =>
      let v := if F64.isna x then last else x in
      v :: ffill_from v r
  end.

(** [Series.ffill()] and [Series.bfill()]. *)
Definition ffill (xs : list float) : list float := ffill_from F64.nan xs.
Definition bfill (xs : list float) : list float := rev (ffill (rev xs)).

(** ** Sorting *)

Fixpoint insert_by {A : Type} (le : A -> A -> bool) (x : A) (l : list A) : list A :=
  match l with
  | [] => [x]
  | y :: r => if le x y then x :: y :: r else y :: insert_by le x r
  end.

(** A stable sort: equal keys keep their input order. *)
Definition sort_by {A : Type} (le : A -> A -> bool) (l : list A) : list A :=
  foldr (insert_by le) [] l.

(** The row positions of a frame in ascending order of their keys. *)
Definition argsort {K : Type} (le : K -> K -> bool) (keys : list K) : list nat :=
  List.map snd
    (sort_by (fun a b => le (fst a) (fst b)) (combine keys (seq 0 (length keys)))).

(** The rows of [xs] at the positions [perm], in that order. *)
Definition reindex {A : Type} (perm : list nat) (xs : list A) : list A :=
  omap (fun i => xs !! i) perm.

Definition reindex_col (perm : list nat) (c : column) : column :=
  match c with
  | FloatCol xs => FloatCol (reindex perm xs)
  | StrCol xs => StrCol (reindex perm xs)
  end.

Definition slice_col (f : forall A : Type, list A -> list A) (c : column) : column :=
  match c with
  | FloatCol xs => FloatCol (f _ xs)
  | StrCol xs => StrCol (f _ xs)
  end.

(** Order of [(athlete_id, date)] pairs, as [sort_values(["athlete_id", "date"])]
    compares rows. *)
Definition key_le (a b : Z * Z) : bool :=
  (fst a <? fst b)%Z || ((fst a =? fst b)%Z && (snd a <=? snd b)%Z).

Definition row_key (r : TelemetryRecord) : Z * Z := (athlete_id r, date r).

(** Rows in ascending [(athlete_id, date)] order. *)
Definition rows_sorted (df : list TelemetryRecord) : Prop :=
  StronglySorted (fun a b => key_le (row_key a) (row_key b) = true) df.

(** ** The store of dataframe objects *)

(** Python passes dataframes by reference: a variable holds a location, and
    [df[name] = ...] updates the object at that location in place. *)
Abbreviation loc := positive.
Abbreviation store := (gmap positive DataFrame).

Definition M (A : Type) : Type := store -> result A * store.

#[global] Instance M_ret : MRet M := fun A a σ => (Ok a, σ).
#[global] Instance M_bind : MBind M := fun A B f m σ =>
  match m σ with
  | (Ok a, σ') => f a σ'
  | (Raise e, σ') => (Raise e, σ')
  end.

Definition lift {A : Type} (r : result A) : M A := fun σ => (r, σ).

(** [df.copy()]: a new object with the same content. *)
Definition df_copy (r : loc) : M loc := fun σ =>
  match σ !! r with
  | Some df => let l := fresh (dom σ) in (Ok l, <[l := df]> σ)
  | None => (Raise NameError, σ)
  end.

Definition df_read (r : loc) : M DataFrame := fun σ =>
  match σ !! r with
  | Some df => (Ok df, σ)
  | None => (Raise NameError, σ)
  end.

(** An in-place update of the object at [r]. *)
Definition df_modify (r : loc) (f : DataFrame -> DataFrame) : M unit := fun σ =>
  match σ !! r with
  | Some df => (Ok tt, <[r := f df]> σ)
  | None => (Raise NameError, σ)
  end.

(** [df[name] = FloatCol xs] on the object at [r]. *)
Definition df_setitem (r : loc) (name : string) (xs : list float) : M unit :=
  df_modify r (fun df => setitem df name (FloatCol xs)).

(** [df[name]] read from the object at [r]. *)
Definition df_getitem (r : loc) (name : string) : M (list float) :=
  df ← df_read r; lift (getitem df name).

(** A telemetry column of the object at [r]. *)
Definition df_col {A : Type} (r : loc) (proj : TelemetryRecord -> A) : M (list A) :=
  df ← df_read r; mret (List.map proj (rows df)).

(** ** src/feature_engineering.py *)

Section FeatureEngineering.
Context {np : Numpy}.

(** [minmax(series)]. *)
Definition minmax (series : list float) : list float :=
  List.map (fun x => (x - F64.min series) / (F64.max series - F64.min series + 1e-6))
           series.

(** [lambda x: (x - x.mean()) / (x.std() + 1e-6)] of the batch transform. *)
Definition zscore_eps (x : list float) : list float :=
  List.map (fun v => (v - F64.mean x) / (F64.std x + 1e-6)) x.

(** [past_injury * np.exp(-days_since_injury / 60)] on one row. *)
Definition history_risk_of (r : TelemetryRecord) : float :=
  F64.of_Z (past_injury r) * np_exp (F64.of_Z (- days_since_injury r) / 60).

(** The recovery score of the batch transform: both normalising maxima are
    reductions of a whole column of the frame. *)
Definition recovery_score_batch (sleep hrv_z rhr : list float) : list float :=
  zipf PrimFloat.sub
    (zipf PrimFloat.add
       (List.map (fun s => 0.5 * s) sleep)
       (List.map (fun z => 0.3 * (z / (F64.max (List.map PrimFloat.abs hrv_z) + 1e-6)))
                 hrv_z))
    (List.map (fun h => 0.2 * (h / (F64.max rhr + 1e-6))) rhr).

Definition rolling_features : list string :=
  ["load_7d"; "load_14d"; "hrv_7d_mean"; "hrv_drop";
   "training_monotony"; "training_strain";
   "training_monotony_log"; "training_strain_log"].

(** [df[rolling_features] = df.groupby("athlete_id")[rolling_features]
      .apply(lambda grp: grp.ffill().bfill())]: every listed column is read
    from the frame as it stands, filled inside each athlete's group, and
    written back. *)
Definition fill_rolling (df : DataFrame) : result DataFrame :=
  let keys := List.map athlete_id (rows df) in
  foldr (fun name acc =>
           out ← acc;
           xs ← getitem df name;
           mret (setitem out name
                   (FloatCol (groupby_transform (fun g => bfill (ffill g)) keys xs))))
        (Ok df) rolling_features.

Definition engineer_features (df0 : loc) : M loc :=
  df ← df_copy df0;
  df_modify df (fun d => set_date d to_datetime);;
  athlete ← df_col df athlete_id;
  (* log transform of daily load *)
  load ← df_col df daily_load;
  df_setitem df "daily_load_log" (List.map np_log1p load);;
  (* HRV z-score *)
  hrv_col ← df_col df hrv;
  df_setitem df "hrv_z" (groupby_transform zscore_eps athlete hrv_col);;
  (* recovery score *)
  sleep ← df_col df sleep_quality;
  hrv_z ← df_getitem df "hrv_z";
  rhr ← df_col df resting_hr;
  df_setitem df "recovery_score" (recovery_score_batch sleep hrv_z rhr);;
  (* rolling features *)
  load_log ← df_getitem df "daily_load_log";
  df_setitem df "load_7d" (groupby_transform (rolling_mean 7 3) athlete load_log);;
  load_log ← df_getitem df "daily_load_log";
  df_setitem df "load_14d" (groupby_transform (rolling_mean 14 5) athlete load_log);;
  hrv_z ← df_getitem df "hrv_z";
  df_setitem df "hrv_7d_mean" (groupby_transform (rolling_mean 7 3) athlete hrv_z);;
  hrv_z ← df_getitem df "hrv_z";
  hrv_7d_mean ← df_getitem df "hrv_7d_mean";
  df_setitem df "hrv_drop" (zipf PrimFloat.sub hrv_z hrv_7d_mean);;
  (* training monotony and strain *)
  l7 ← df_getitem df "load_7d";
  let load_7d_std := groupby_transform (rolling_std 7 3) athlete l7 in
  df_setitem df "training_monotony"
    (zipf PrimFloat.div l7 (List.map (fun s => s + 1e-6) load_7d_std));;
  l7 ← df_getitem df "load_7d";
  mono ← df_getitem df "training_monotony";
  df_setitem df "training_strain" (zipf PrimFloat.mul l7 mono);;
  mono ← df_getitem df "training_monotony";
  df_setitem df "training_monotony_log" (List.map np_log1p mono);;
  strain ← df_getitem df "training_strain";
  df_setitem df "training_strain_log" (List.map np_log1p strain);;
  (* history risk *)
  d ← df_read df;
  df_setitem df "history_risk" (List.map history_risk_of (rows d));;
  (* forward fill / backward fill after rolling *)
  d ← df_read df;
  filled ← lift (fill_rolling d);
  df_modify df (fun _ => filled);;
  mret df.

(** The weighted sum of [compute_risk_score], row by row. *)
Definition weighted_sum (load_risk fatigue_risk monotony_risk recovery_risk hist
    : list float) : list float :=
  zipf PrimFloat.add
    (zipf PrimFloat.add
       (zipf PrimFloat.add
          (zipf PrimFloat.add
             (List.map (fun x => 0.25 * x) load_risk)
             (List.map (fun x => 0.25 * x) fatigue_risk))
          (List.map (fun x => 0.15 * x) monotony_risk))
       (List.map (fun x => 0.20 * x) recovery_risk))
    (List.map (fun x => 0.15 * x) hist).

Definition compute_risk_score (df0 : loc) : M loc :=
  df ← df_copy df0;
  l7 ← df_getitem df "load_7d";
  let load_risk := minmax l7 in
  drop ← df_getitem df "hrv_drop";
  let fatigue_risk := minmax (List.map PrimFloat.opp drop) in
  mono ← df_getitem df "training_monotony_log";
  let monotony_risk := minmax mono in
  rec ← df_getitem df "recovery_score";
  let recovery_risk := List.map (fun x => 1 - x) (minmax rec) in
  hist ← df_getitem df "history_risk";
  df_setitem df "risk_score"
    (weighted_sum load_risk fatigue_risk monotony_risk recovery_risk hist);;
  mret df.

Definition classify_risk (score : float) : string :=
  if F64.isna score then "Unknown"
  else if score <? 0.4 then "Safe"
  else if score <? 0.9 then "Moderate"
  else "High".

Definition assign_risk_zone (df0 : loc) : M loc :=
  df ← df_copy df0;
  score ← df_getitem df "risk_score";
  df_modify df (fun d => setitem d "risk_zone" (StrCol (List.map classify_risk score)));;
  mret df.

End FeatureEngineering.

(** ** backend/services/feature_builder.py *)

Section FeatureBuilder.
Context {np : Numpy}.

(** [lambda x: (x - x.mean()) / x.std()] of the single-day transform. *)
Definition zscore (x : list float) : list float :=
  List.map (fun v => (v - F64.mean x) / F64.std x) x.

(** The recovery score of the single-day transform. *)
Definition recovery_score_incremental (sleep hrv_z rhr : list float) : list float :=
  zipf PrimFloat.sub
    (zipf PrimFloat.add
       (List.map (fun s => 0.5 * s) sleep)
       (List.map (fun z => 0.3 * (z / F64.max hrv_z)) hrv_z))
    (List.map (fun h => 0.2 * (h / F64.max rhr)) rhr).

Definition insufficient_history : exn :=
  ValueError "Athlete must have at least 60 days of history.".

(** The frame the features are computed on: the athlete's stored rows and
    today's row, sorted by [(athlete_id, date)].  [history_df] is the content of
    the CSV file at [history_path]. *)
Definition prepare (today_data : TelemetryRecord) (history_df : list TelemetryRecord)
    : result (list TelemetryRecord) :=
  let athlete_df :=
    List.filter (fun r => Z.eqb (athlete_id r) (athlete_id today_data)) history_df in
  if (length athlete_df <? 60)%nat then Raise insufficient_history
  else
    let df := athlete_df ++ [today_data] in
    let df := rows (set_date {| rows := df; derived := ∅ |} to_datetime) in
    Ok (sort_by (fun a b => key_le (row_key a) (row_key b)) df).

(** The columns computed on the prepared frame, and its last row. *)
Definition latest_features (df : list TelemetryRecord) : result FeatureVector :=
  let athlete := List.map athlete_id df in
  let hrv_z := groupby_transform zscore athlete (List.map hrv df) in
  let daily_load_log := List.map np_log1p (List.map daily_load df) in
  let load_7d := groupby_transform (rolling_mean 7 1) athlete daily_load_log in
  let hrv_7d_mean := groupby_transform (rolling_mean 7 1) athlete hrv_z in
  let hrv_drop := zipf PrimFloat.sub hrv_z hrv_7d_mean in
  let load_7d_std := groupby_transform (rolling_std 7 1) athlete daily_load_log in
  let training_monotony :=
    zipf PrimFloat.div load_7d (List.map (fun s => s + 1e-6) load_7d_std) in
  let training_monotony_log := List.map np_log1p training_monotony in
  let recovery_score :=
    recovery_score_incremental (List.map sleep_quality df) hrv_z
                               (List.map resting_hr df) in
  let history_risk := List.map history_risk_of df in
  match last load_7d, last hrv_drop, last training_monotony_log,
        last recovery_score, last history_risk with
  | Some a, Some b, Some c, Some d, Some e =>
      Ok {| load_7d := a; hrv_drop := b; training_monotony_log := c;
            recovery_score := d; history_risk := e |}
  | _, _, _, _, _ => Raise IndexError
  end.

Definition build_features (today_data : TelemetryRecord)
    (history_df : list TelemetryRecord) : result FeatureVector :=
  df ← prepare today_data history_df;
  latest_features df.

End FeatureBuilder.

(** ** src/train_model.py: the time-based train/test split *)

(** [int(n * 0.8)]; [None] where Python would raise. *)
Definition split_idx (n : nat) : option nat :=
  Z.to_nat <$> F64.trunc (F64.of_nat n * 0.8).

(** [g.sort_values("date").reset_index(drop=True)]; rows with the same date,
    which the default quicksort may reorder, keep their order here. *)
Definition sort_values_date (g : DataFrame) : DataFrame :=
  let perm := argsort Z.leb (List.map date (rows g)) in
  {| rows := reindex perm (rows g);
     derived := reindex_col perm <$> derived g |}.

(** [g.iloc[:k]] and [g.iloc[k:]]. *)
Definition iloc_to (k : nat) (g : DataFrame) : DataFrame :=
  {| rows := firstn k (rows g); derived := slice_col (fun A => firstn k) <$> derived g |}.

Definition iloc_from (k : nat) (g : DataFrame) : DataFrame :=
  {| rows := skipn k (rows g); derived := slice_col (fun A => skipn k) <$> derived g |}.

(** One turn of the loop over [df.groupby("athlete_id")]: the train part and the
    test part of one athlete's frame. *)
Definition athlete_split (g : DataFrame) : option (DataFrame * DataFrame) :=
  let g := sort_values_date g in
  k ← split_idx (len g);
  Some (iloc_to k g, iloc_from k g).

(** ** A reference instance of the numpy interface

    Range reduction and a truncated series, in binary64 arithmetic.  It serves
    to run the transforms on concrete inputs; every general statement below is
    proved for an arbitrary instance. *)

Module Reference.

Fixpoint horner_exp (n : nat) (k : float) (r : float) : float :=
  match n with
  | O => 1
  | S n' => 1 + r / k * horner_exp n' (k + 1) r
  end.

Definition exp (x : float) : float :=
  if PrimFloat.is_nan x then F64.nan
  else if 709.782712893384 <? x then infinity
  else if x <? -745.1332191019412 then 0
  else
    let q := x * 1.4426950408889634 in
    match F64.trunc (if q <? 0 then q - 0.5 else q + 0.5) with
    | Some k =>
        let kf := F64.of_Z k in
        let r := x - kf * 0.6931471803691238 - kf * 1.9082149292705877e-10 in
        Z.ldexp (horner_exp 22 1 r) k
    | None => F64.nan
    end.

Fixpoint atanh_series (n : nat) (k : float) (t2 : float) : float :=
  match n with
  | O => 1 / k
  | S n' => 1 / k + t2 * atanh_series n' (k + 2) t2
  end.

Definition log (y : float) : float :=
  let (m, e) := Z.frexp y in
  let (m, e) := if m <? 0.7071067811865476 then (2 * m, (e - 1)%Z) else (m, e) in
  let t := (m - 1) / (m + 1) in
  F64.of_Z e * 0.6931471805599453 + 2 * t * atanh_series 30 1 (t * t).

Definition log1p (x : float) : float :=
  if PrimFloat.is_nan x then F64.nan
  else if x <? -1 then F64.nan
  else if x =? -1 then neg_infinity
  else if x =? infinity then infinity
  else
    let y := 1 + x in
    log y + (x - (y - 1)) / y.

Definition numpy : Numpy := {| np_exp := exp; np_log1p := log1p |}.

End Reference.

(** ** The risk score as the specification writes it *)

(** [minmax(x) = (x - min(scope)) / (max(scope) - min(scope) + epsilon)]. *)
Definition minmax_spec (scope : list float) (x : float) : float :=
  (x - F64.min scope) / (F64.max scope - F64.min scope + 1e-6).

Definition risk_score_spec (load_7d_scope fatigue_scope monotony_scope recovery_scope
    : list float) (load_7d hrv_drop training_monotony_log recovery_score history_risk
    : float) : float :=
  0.25 * minmax_spec load_7d_scope load_7d
  + 0.25 * minmax_spec fatigue_scope (- hrv_drop)
  + 0.15 * minmax_spec monotony_scope training_monotony_log
  + 0.20 * (1 - minmax_spec recovery_scope recovery_score)
  + 0.15 * history_risk.

(** ** Frame conditions of the store monad *)

(** [m] leaves every object of [σ0] as it is. *)
Definition keeps {A : Type} (σ0 : store) (m : M A) : Prop :=
  forall σ : store, σ0 ⊆ σ -> σ0 ⊆ (m σ).2.

(** [m], when it returns, returns [a]. *)
Definition returns {A : Type} (m : M A) (a : A) : Prop :=
  forall σ : store, match (m σ).1 with Ok a' => a' = a | Raise _ => True end.

(** ** The order of binary64 numbers *)

(** A spec float that is not NaN, as a point of Z^3 in lexicographic order. *)
Definition sf_key (x : spec_float) : option (Z * Z * Z) :=
  match x with
  | S754_nan => None
  | S754_infinity true => Some (-2, 0, 0)%Z
  | S754_finite true m e => Some (-1, - e, Zneg m)%Z
  | S754_zero _ => Some (0, 0, 0)%Z
  | S754_finite false m e => Some (1, e, Zpos m)%Z
  | S754_infinity false => Some (2, 0, 0)%Z
  end.

Definition key_compare (a b : Z * Z * Z) : comparison :=
  let '(a1, a2, a3) := a in
  let '(b1, b2, b3) := b in
  match (a1 ?= b1)%Z with
  | Eq => match (a2 ?= b2)%Z with Eq => (a3 ?= b3)%Z | c => c end
  | c => c
  end.

(** ** The size of a frame *)

(** The number of rows of an athlete's frame below which [split_idx] is proved
    to be the floor of [0.8 n]. *)
Definition max_rows : Z := 2 ^ 48.

(** ** Running the functions on concrete frames *)

(** A frame as it comes out of [pd.read_csv]: telemetry only. *)
Definition raw (rs : list TelemetryRecord) : DataFrame :=
  {| rows := rs; derived := ∅ |}.

(** Calls [f] on a frame that is the only object of the store, and reads the
    frame it returns. *)
Definition call_on (f : loc -> M loc) (d : DataFrame) : result DataFrame :=
  match f 1%positive {[ 1%positive := d ]} with
  | (Ok l, σ) =>
      match σ !! l with
      | Some d' => Ok d'
      | None => Raise NameError
      end
  | (Raise e, _) => Raise e
  end.

(** Row [i] of a derived numeric column. *)
Definition cell (d : DataFrame) (name : string) (i : nat) : option float :=
  match getitem d name with
  | Ok xs => xs !! i
  | Raise _ => None
  end.

Definition is_ok {A : Type} (r : result A) : bool :=
  match r with
  | Ok _ => true
  | Raise _ => false
  end.

Definition day (a d : Z) (load rhr h sleep : float) : TelemetryRecord :=
  {| athlete_id := a; date := d; daily_load := load; resting_hr := rhr;
     hrv := h; sleep_quality := sleep; past_injury := 0;
     days_since_injury := 999 |}.

(** A day of athlete 1 with a recorded injury [d] days ago. *)
Definition injured (d : Z) : TelemetryRecord :=
  {| athlete_id := 1; date := 0; daily_load := 300; resting_hr := 55; hrv := 70;
     sleep_quality := 0.7; past_injury := 1; days_since_injury := d |}.

(** [n] identical days of athlete 1, as in the end-to-end scenario of the
    specification. *)
Definition steady (n : nat) : list TelemetryRecord :=
  List.map (fun i => day 1 (Z.of_nat i) 300 55 70 0.7) (seq 0 n).

Definition today_same : TelemetryRecord := day 1 60 300 55 70 0.7.
Definition today_hard : TelemetryRecord := day 1 60 1200 65 50 0.3.

(** Sixty stored days of athlete 1 in descending date order, the last date
    twice. *)
Definition unordered_history : list TelemetryRecord :=
  rev (steady 59) ++ [day 1 0 300 55 70 0.7].

(** Two athletes with two days each; the frames differ only in the resting
    heart rate of athlete 2. *)
Definition two_athletes (rhr2 : float) : list TelemetryRecord :=
  [day 1 0 300 50 70 0.5; day 1 1 300 50 70 0.5;
   day 2 0 300 rhr2 70 0.5; day 2 1 300 rhr2 70 0.5].

(** A small engineered frame, ready to be scored. *)
Definition engineered_example : DataFrame :=
  {| rows := two_athletes 50;
     derived :=
       list_to_map
         [("load_7d", FloatCol [5.5; 5.75; 6; 5.25]);
          ("hrv_drop", FloatCol [0; -0.5; 0.25; 0.5]);
          ("training_monotony_log", FloatCol [2; 3; 2.5; 4]);
          ("recovery_score", FloatCol [0.25; 0.5; 0.125; 0]);
          ("history_risk", FloatCol [0; 0; 1; 0.5])] |}.

(** The two transforms at work: the single-day transform on sixty steady days
    and one more, the batch transform on given rows. *)
Definition incremental_on {np : Numpy} (today_data : TelemetryRecord)
    : result FeatureVector :=
  build_features today_data (steady 60).

Definition batch_on {np : Numpy} (rs : list TelemetryRecord) : result DataFrame :=
  call_on engineer_features (raw rs).

(** ** src/train_model.py: from telemetry to labelled rows *)

(** [df = engineer_features(df); df = compute_risk_score(df);
    df = assign_risk_zone(df)]. *)
Definition label_rows {np : Numpy} (df : loc) : M loc :=
  df ← engineer_features df;
  df ← compute_risk_score df;
  assign_risk_zone df.

(** The completed feature columns [compute_risk_score] reads, in the order it
    reads them. *)
Definition scored_columns : list string :=
  ["load_7d"; "hrv_drop"; "training_monotony_log"; "recovery_score"; "history_risk"].

(** Row [i] of the [risk_zone] column. *)
Definition zone (d : DataFrame) (i : nat) : option string :=
  match derived d !! "risk_zone" with
  | Some (StrCol xs) => xs !! i
  | _ => None
  end.

(** [df[df["athlete_id"] == a]]: the rows of one athlete, and their cells in a
    derived column. *)
Definition athlete_rows (d : DataFrame) (a : Z) : list TelemetryRecord :=
  List.filter (fun r => Z.eqb (athlete_id r) a) (rows d).

Definition athlete_cells (d : DataFrame) (name : string) (a : Z) : result (list float) :=
  xs ← getitem d name;
  mret (group_values (List.map athlete_id (rows d)) xs a).
(** ** backend/app.py *)

(** The body of a successful answer of [/predict-risk]. *)
Record RiskResponse := {
  response_athlete_id : Z;
  next_7_days_predicted_risk : string;
  confidence : float;
  status : string
}.

(** The endpoint returns a body or raises [HTTPException]. *)
Inductive http_result :=
| Success (body : RiskResponse)
| HTTPException (status_code : Z) (detail : string).

Section App.
Context {np : Numpy}.

(** [services.predictor.predict] (the pickled classifier and its label
    encoder), Python's [round] and [str] of an exception. *)
Variable predict : FeatureVector -> result (string * float).
Variable round : float -> Z -> float.
Variable str : exn -> string.

(** [predict_risk(data)]; [history_df] is the content of the file at
    [HISTORY_PATH] when the request arrives. *)
Definition predict_risk (data : TelemetryRecord) (history_df : list TelemetryRecord)
    : http_result :=
  match
    features ← build_features data history_df;
    '(label, conf) ← predict features;
    mret {| response_athlete_id := athlete_id data;
            next_7_days_predicted_risk := label;
            confidence := round conf 2;
            status := "success" |}
  with
  | Ok body => Success body
  | Raise e => HTTPException 500 (str e)
  end.

End App.

(** The columns [engineer_features] computes. *)
Definition engineered_columns : list string :=
  ["daily_load_log"; "hrv_z"; "recovery_score"; "load_7d"; "load_14d"; "hrv_7d_mean";
   "hrv_drop"; "training_monotony"; "training_strain"; "training_monotony_log";
   "training_strain_log"; "history_risk"].

(** Four rows of athlete 1 out of date order, one date twice. *)
Definition shuffled : DataFrame :=
  raw [day 1 3 300 55 70 0.7; day 1 1 320 55 70 0.7;
       day 1 2 310 55 70 0.7; day 1 1 330 55 70 0.7].

(** Two rows whose four normalised features do not vary. *)
Definition flat_example : DataFrame :=
  {| rows := [day 1 0 300 50 70 0.5; day 1 1 300 50 70 0.5];
     derived :=
       list_to_map
         [("load_7d", FloatCol [5.5; 5.5]);
          ("hrv_drop", FloatCol [0.25; 0.25]);
          ("training_monotony_log", FloatCol [2; 2]);
          ("recovery_score", FloatCol [0.5; 0.5]);
          ("history_risk", FloatCol [0; 1])] |}.

(** An engineered frame with a missing monotony in its second row. *)
Definition gappy_example : DataFrame :=
  {| rows := [day 1 0 300 50 70 0.5; day 1 1 300 50 70 0.5];
     derived :=
       list_to_map
         [("load_7d", FloatCol [5.5; 5.75]);
          ("hrv_drop", FloatCol [0; -0.5]);
          ("training_monotony_log", FloatCol [2; F64.nan]);
          ("recovery_score", FloatCol [0.25; 0.5]);
          ("history_risk", FloatCol [0; 0])] |}.

(** A scored frame. *)
Definition scored_example : DataFrame :=
  {| rows := [day 1 0 300 50 70 0.5; day 1 1 300 50 70 0.5];
     derived := list_to_map [("risk_score", FloatCol [0.25; 0.95])] |}.

(** A submitted row dated before the end of the stored history. *)
Definition today_backdated : TelemetryRecord := day 1 30 300 55 70 0.7.

(** ** src/train_model.py: the loop over the athletes *)

(** The cells of a column at the rows where [mask] holds. *)
Definition select {A : Type} (mask : list bool) (xs : list A) : list A :=
  List.map snd (List.filter fst (combine mask xs)).

Definition select_col (mask : list bool) (c : column) : column :=
  match c with
  | FloatCol xs => FloatCol (select mask xs)
  | StrCol xs => StrCol (select mask xs)
  end.

(** The group of [df.groupby("athlete_id")] with key [k]: the rows of that
    athlete, in frame order, with all their columns. *)
Definition get_group (df : DataFrame) (k : Z) : DataFrame :=
  let mask := List.map (fun r => Z.eqb (athlete_id r) k) (rows df) in
  {| rows := select mask (rows df); derived := select_col mask <$> derived df |}.

(** The keys of [df.groupby("athlete_id")], in ascending order. *)
Definition group_keys (df : DataFrame) : list Z :=
  sort_by Z.leb (remove_dups (List.map athlete_id (rows df))).

(** [for athlete_id, g in df.groupby("athlete_id"): ...]: the lists
    [train_parts] and [test_parts] when the loop ends. *)
Definition split_parts (df : DataFrame) : option (list DataFrame * list DataFrame) :=
  foldl (fun acc k =>
           '(train_parts, test_parts) ← acc;
           '(train, test) ← athlete_split (get_group df k);
           Some (train_parts ++ [train], test_parts ++ [test]))
        (Some ([], [])) (group_keys df).

(** * Properties *)

(** ** Risk zones *)

(** C2, as the code has it: [classify_risk] is a total function of the score
    alone; it answers "Unknown" exactly on a missing (NaN) score, and a negative
    score such as -0.1 is "Safe" like every other score below 0.4; 0.0 and
    0.39999 are "Safe", 0.4 and 0.89999 "Moderate", 0.9 and 1.2 "High". *)
Theorem classify_risk_zones :
  (forall s : float, classify_risk s = "Unknown" <-> F64.isna s = true) /\
  (forall s : float, F64.isna s = false ->
     classify_risk s =
       if s <? 0.4 then "Safe" else if s <? 0.9 then "Moderate" else "High") /\
  classify_risk F64.nan = "Unknown" /\
  classify_risk (-0.1) = "Safe" /\
  classify_risk 0.0 = "Safe" /\
  classify_risk 0.39999 = "Safe" /\
  classify_risk 0.4 = "Moderate" /\
  classify_risk 0.89999 = "Moderate" /\
  classify_risk 0.9 = "High" /\
  classify_risk 1.2 = "High".
Proof.
  split; [|split; [|repeat split; reflexivity]].
  - intros s. unfold classify_risk.
    destruct (F64.isna s); [tauto|].
    destruct (s <? 0.4); [split; discriminate|].
    destruct (s <? 0.9); split; discriminate.
  - intros s Hs. unfold classify_risk. rewrite Hs. reflexivity.
Qed.

(** C2, as the specification words it, fails at -0.1: the score is not missing
    and the code answers "Safe", not "Unknown". *)
Lemma classify_risk_negative_is_safe :
  F64.isna (-0.1) = false /\ classify_risk (-0.1) = "Safe".
Proof. split; reflexivity. Qed.

(** ** Sorting *)

Section SortBy.
Context {A : Type} (le : A -> A -> bool).
Hypothesis le_total : forall a b, le a b = true \/ le b a = true.

Lemma insert_by_perm (x : A) (l : list A) : Permutation (insert_by le x l) (x :: l).
Proof.
  induction l as [|y r IH]; simpl; [reflexivity|].
  destruct (le x y); [reflexivity|].
  rewrite IH. apply perm_swap.
Qed.

Lemma sort_by_perm (l : list A) : Permutation (sort_by le l) l.
Proof.
  induction l as [|x r IH]; simpl; [reflexivity|].
  rewrite insert_by_perm. now constructor.
Qed.

Lemma insert_by_sorted (x : A) (l : list A) :
  Sorted (fun a b => le a b = true) l ->
  Sorted (fun a b => le a b = true) (insert_by le x l).
Proof.
  induction 1 as [|y r Hr IH Hy]; simpl.
  - repeat constructor.
  - destruct (le x y) eqn:E.
    + constructor; [constructor; assumption|constructor; assumption].
    + constructor; [assumption|].
      destruct (le_total x y) as [F|F]; [congruence|].
      destruct Hy as [|z r' Hz]; simpl.
      * constructor; assumption.
      * destruct (le x z); constructor; assumption.
Qed.

Lemma sort_by_sorted (l : list A) : Sorted (fun a b => le a b = true) (sort_by le l).
Proof.
  induction l as [|x r IH]; simpl; [constructor|].
  now apply insert_by_sorted.
Qed.

(** Sorting a list that is already in order leaves it as it is. *)
Lemma sort_by_id (l : list A) :
  Sorted (fun a b => le a b = true) l -> sort_by le l = l.
Proof.
  induction 1 as [|x r Hr IH Hx]; simpl; [reflexivity|].
  rewrite IH. destruct Hx as [|y r' Hy]; simpl; [reflexivity|].
  now rewrite Hy.
Qed.

End SortBy.

(** Two sorted lists with the same elements are the same list, when the order
    is antisymmetric on these elements. *)
Lemma sorted_perm_unique {A : Type} (R : A -> A -> Prop) (l1 l2 : list A) :
  (forall a b, In a l1 -> In b l1 -> R a b -> R b a -> a = b) ->
  StronglySorted R l1 -> StronglySorted R l2 -> Permutation l1 l2 -> l1 = l2.
Proof.
  intros Hanti H1. revert l2. induction H1 as [|x r Hr IH Hx]; intros l2 H2 Hp.
  - apply Permutation_nil in Hp. now subst.
  - destruct H2 as [|y r2 Hr2 Hy].
    + apply Permutation_sym, Permutation_nil in Hp. discriminate.
    + rewrite List.Forall_forall in Hx, Hy.
      assert (x = y) as <-.
      { assert (In y (x :: r)) as Hyin
          by (eapply Permutation_in; [apply Permutation_sym; exact Hp|now left]).
        assert (In x (y :: r2)) as Hxin
          by (eapply Permutation_in; [exact Hp|now left]).
        destruct Hyin as [->|Hyin]; [reflexivity|].
        destruct Hxin as [->|Hxin]; [reflexivity|].
        apply Hanti; [now left|now right|now apply Hx|now apply Hy]. }
      f_equal. apply IH.
      * intros a b Ha Hb. apply Hanti; now right.
      * assumption.
      * eapply Permutation_cons_inv. exact Hp.
Qed.

Lemma filter_perm {A : Type} (f : A -> bool) (l1 l2 : list A) :
  Permutation l1 l2 -> Permutation (List.filter f l1) (List.filter f l2).
Proof.
  induction 1 as [|x l1 l2 H IH|x y l|l1 l2 l3 H1 IH1 H2 IH2]; simpl.
  - constructor.
  - destruct (f x); [now constructor|assumption].
  - destruct (f x), (f y); try reflexivity. apply perm_swap.
  - now transitivity (List.filter f l2).
Qed.

Lemma key_le_total (a b : Z * Z) : key_le a b = true \/ key_le b a = true.
Proof.
  unfold key_le. destruct a as [a1 a2], b as [b1 b2]; simpl.
  destruct (Z.ltb_spec a1 b1); [now left|].
  destruct (Z.ltb_spec b1 a1); [now right|].
  assert (a1 = b1) as -> by lia. rewrite Z.eqb_refl. simpl.
  destruct (Z.leb_spec a2 b2); [now left|right]. apply Z.leb_le. lia.
Qed.

Lemma key_le_trans (a b c : Z * Z) :
  key_le a b = true -> key_le b c = true -> key_le a c = true.
Proof.
  unfold key_le. destruct a as [a1 a2], b as [b1 b2], c as [c1 c2]; simpl.
  rewrite !orb_true_iff, !andb_true_iff, !Z.ltb_lt, !Z.eqb_eq, !Z.leb_le. lia.
Qed.

Lemma set_date_to_datetime (df : list TelemetryRecord) :
  rows (set_date {| rows := df; derived := ∅ |} to_datetime) = df.
Proof.
  simpl. induction df as [|r l IH]; simpl; [reflexivity|].
  rewrite IH. now destruct r.
Qed.

(** ** The order of binary64 numbers *)

Lemma SFcompare_key (a b : spec_float) :
  SFcompare a b =
    match sf_key a, sf_key b with
    | Some ka, Some kb => Some (key_compare ka kb)
    | _, _ => None
    end.
Proof.
  destruct a as [sa|sa| |sa ma ea], b as [sb|sb| |sb mb eb];
    try destruct sa; try destruct sb; try reflexivity; simpl.
  - rewrite Z.compare_opp, (Z.compare_antisym ea eb), Pos.compare_cont_spec.
    destruct (ea ?= eb)%Z; simpl; try reflexivity.
    now destruct (ma ?= mb)%positive.
Qed.

Lemma key_compare_le (a b : Z * Z * Z) :
  key_compare a b <> Gt <->
  let '(a1, a2, a3) := a in
  let '(b1, b2, b3) := b in
  (a1 < b1 \/ (a1 = b1 /\ (a2 < b2 \/ (a2 = b2 /\ a3 <= b3))))%Z.
Proof.
  destruct a as [[a1 a2] a3], b as [[b1 b2] b3]. simpl.
  destruct (Z.compare_spec a1 b1), (Z.compare_spec a2 b2), (Z.compare_spec a3 b3);
    split; intros Hc; try congruence; try lia.
Qed.

Lemma key_compare_le_trans (a b c : Z * Z * Z) :
  key_compare a b <> Gt -> key_compare b c <> Gt -> key_compare a c <> Gt.
Proof.
  rewrite !key_compare_le.
  destruct a as [[a1 a2] a3], b as [[b1 b2] b3], c as [[c1 c2] c3]. lia.
Qed.

Lemma key_compare_refl (a : Z * Z * Z) : key_compare a a = Eq.
Proof. destruct a as [[a1 a2] a3]. simpl. now rewrite !Z.compare_refl. Qed.

Lemma key_compare_antisym (a b : Z * Z * Z) :
  key_compare b a = CompOpp (key_compare a b).
Proof.
  destruct a as [[a1 a2] a3], b as [[b1 b2] b3]. simpl.
  rewrite (Z.compare_antisym a1 b1), (Z.compare_antisym a2 b2),
    (Z.compare_antisym a3 b3).
  destruct (a1 ?= b1)%Z, (a2 ?= b2)%Z, (a3 ?= b3)%Z; reflexivity.
Qed.

Lemma isna_key (x : float) :
  F64.isna x = false -> exists k, sf_key (Prim2SF x) = Some k.
Proof.
  unfold F64.isna, PrimFloat.is_nan. rewrite FloatAxioms.eqb_spec. unfold SFeqb.
  rewrite SFcompare_key.
  destruct (sf_key (Prim2SF x)) as [k|]; [eauto|discriminate].
Qed.

Lemma float_leb_key (x y : float) (kx ky : Z * Z * Z) :
  sf_key (Prim2SF x) = Some kx -> sf_key (Prim2SF y) = Some ky ->
  (x <=? y) = true <-> key_compare kx ky <> Gt.
Proof.
  intros Hx Hy. rewrite FloatAxioms.leb_spec. unfold SFleb.
  rewrite SFcompare_key, Hx, Hy.
  destruct (key_compare kx ky); split; congruence.
Qed.

Lemma float_ltb_key (x y : float) (kx ky : Z * Z * Z) :
  sf_key (Prim2SF x) = Some kx -> sf_key (Prim2SF y) = Some ky ->
  (x <? y) = true <-> key_compare kx ky = Lt.
Proof.
  intros Hx Hy. rewrite FloatAxioms.ltb_spec. unfold SFltb.
  rewrite SFcompare_key, Hx, Hy.
  destruct (key_compare kx ky); split; congruence.
Qed.

Lemma float_leb_refl (x : float) : F64.isna x = false -> (x <=? x) = true.
Proof.
  intros Hx. destruct (isna_key x Hx) as [k Hk].
  apply (float_leb_key x x k k Hk Hk). rewrite key_compare_refl. discriminate.
Qed.

Lemma float_leb_trans (x y z : float) :
  (x <=? y) = true -> (y <=? z) = true -> (x <=? z) = true.
Proof.
  rewrite !FloatAxioms.leb_spec. unfold SFleb. rewrite !SFcompare_key.
  destruct (sf_key (Prim2SF x)) as [kx|]; [|discriminate].
  destruct (sf_key (Prim2SF y)) as [ky|]; [|discriminate].
  destruct (sf_key (Prim2SF z)) as [kz|]; [|discriminate].
  intros H1 H2.
  assert (key_compare kx kz <> Gt) as H.
  { apply (key_compare_le_trans kx ky kz).
    - destruct (key_compare kx ky); congruence.
    - destruct (key_compare ky kz); congruence. }
  destruct (key_compare kx kz); congruence.
Qed.

(** Of two numbers, one is at most the other. *)
Lemma float_ltb_or_leb (x y : float) :
  F64.isna x = false -> F64.isna y = false ->
  if y <? x then (y <=? x) = true else (x <=? y) = true.
Proof.
  intros Hx Hy.
  destruct (isna_key x Hx) as [kx Hkx], (isna_key y Hy) as [ky Hky].
  destruct (y <? x) eqn:E.
  - apply (float_leb_key y x ky kx Hky Hkx).
    apply (float_ltb_key y x ky kx Hky Hkx) in E. congruence.
  - apply (float_leb_key x y kx ky Hkx Hky). intros Hgt.
    assert (key_compare ky kx = Lt) as Hlt
      by (rewrite key_compare_antisym, Hgt; reflexivity).
    apply (float_ltb_key y x ky kx Hky Hkx) in Hlt. congruence.
Qed.

Lemma fmin_spec (a b : float) :
  F64.isna a = false -> F64.isna b = false ->
  (F64.fmin a b = a \/ F64.fmin a b = b) /\
  (F64.fmin a b <=? a) = true /\ (F64.fmin a b <=? b) = true.
Proof.
  intros Ha Hb. unfold F64.fmin.
  pose proof (float_ltb_or_leb a b Ha Hb) as H.
  destruct (b <? a).
  - repeat split; [now right|assumption|now apply float_leb_refl].
  - repeat split; [now left|now apply float_leb_refl|assumption].
Qed.

Lemma fmax_spec (a b : float) :
  F64.isna a = false -> F64.isna b = false ->
  (F64.fmax a b = a \/ F64.fmax a b = b) /\
  (a <=? F64.fmax a b) = true /\ (b <=? F64.fmax a b) = true.
Proof.
  intros Ha Hb. unfold F64.fmax.
  pose proof (float_ltb_or_leb b a Hb Ha) as H.
  destruct (a <? b).
  - repeat split; [now right|assumption|now apply float_leb_refl].
  - repeat split; [now left|now apply float_leb_refl|assumption].
Qed.

Lemma fold_fmin_spec (r : list float) (x : float) :
  (forall y, In y (x :: r) -> F64.isna y = false) ->
  In (fold_left F64.fmin r x) (x :: r) /\
  forall y, In y (x :: r) -> (fold_left F64.fmin r x <=? y) = true.
Proof.
  revert x. induction r as [|z r IH]; intros x Hnan.
  - simpl. split; [now left|]. intros y [<-|[]]. apply float_leb_refl, Hnan. now left.
  - assert (F64.isna x = false) as Hx by (apply Hnan; now left).
    assert (F64.isna z = false) as Hz by (apply Hnan; right; now left).
    destruct (fmin_spec x z Hx Hz) as (Hcase & Hlx & Hlz).
    destruct (IH (F64.fmin x z)) as [Hin Hle].
    { intros y [<-|Hy]; [destruct Hcase as [->| ->]; assumption|].
      apply Hnan. right. now right. }
    simpl fold_left. split.
    + destruct Hin as [Heq|Hin]; [|right; now right].
      rewrite <- Heq. destruct Hcase as [->| ->]; [now left|right; now left].
    + intros y [<-|[<-|Hy]].
      * eapply float_leb_trans; [apply Hle; now left|assumption].
      * eapply float_leb_trans; [apply Hle; now left|assumption].
      * apply Hle. now right.
Qed.

Lemma fold_fmax_spec (r : list float) (x : float) :
  (forall y, In y (x :: r) -> F64.isna y = false) ->
  In (fold_left F64.fmax r x) (x :: r) /\
  forall y, In y (x :: r) -> (y <=? fold_left F64.fmax r x) = true.
Proof.
  revert x. induction r as [|z r IH]; intros x Hnan.
  - simpl. split; [now left|]. intros y [<-|[]]. apply float_leb_refl, Hnan. now left.
  - assert (F64.isna x = false) as Hx by (apply Hnan; now left).
    assert (F64.isna z = false) as Hz by (apply Hnan; right; now left).
    destruct (fmax_spec x z Hx Hz) as (Hcase & Hlx & Hlz).
    destruct (IH (F64.fmax x z)) as [Hin Hle].
    { intros y [<-|Hy]; [destruct Hcase as [->| ->]; assumption|].
      apply Hnan. right. now right. }
    simpl fold_left. split.
    + destruct Hin as [Heq|Hin]; [|right; now right].
      rewrite <- Heq. destruct Hcase as [->| ->]; [now left|right; now left].
    + intros y [<-|[<-|Hy]].
      * eapply float_leb_trans; [eassumption|apply Hle; now left].
      * eapply float_leb_trans; [eassumption|apply Hle; now left].
      * apply Hle. now right.
Qed.

Lemma dropna_notna (xs : list float) (y : float) :
  In y (F64.dropna xs) -> F64.isna y = false.
Proof.
  unfold F64.dropna. intros H. apply filter_In in H as [_ H].
  now apply negb_true_iff in H.
Qed.

(** [Series.min()] is an observation of the series and a lower bound of all its
    observations; [Series.max()] likewise from above. *)
Lemma series_min_spec (xs : list float) (x : float) :
  In x (F64.dropna xs) ->
  In (F64.min xs) (F64.dropna xs) /\ (F64.min xs <=? x) = true.
Proof.
  intros Hx. unfold F64.min.
  destruct (F64.dropna xs) as [|y r] eqn:E; [destruct Hx|].
  destruct (fold_fmin_spec r y) as [Hin Hle].
  - intros z Hz. apply (dropna_notna xs). now rewrite E.
  - split; [assumption|now apply Hle].
Qed.

Lemma series_max_spec (xs : list float) (x : float) :
  In x (F64.dropna xs) ->
  In (F64.max xs) (F64.dropna xs) /\ (x <=? F64.max xs) = true.
Proof.
  intros Hx. unfold F64.max.
  destruct (F64.dropna xs) as [|y r] eqn:E; [destruct Hx|].
  destruct (fold_fmax_spec r y) as [Hin Hle].
  - intros z Hz. apply (dropna_notna xs). now rewrite E.
  - split; [assumption|now apply Hle].
Qed.

(** ** Binary64 facts *)

Lemma bounded_canonical (m : positive) (e : Z) :
  bounded prec emax m e = true ->
  fexp prec emax (Zpos (digits2_pos m) + e) = e /\ (e <= emax - prec)%Z.
Proof.
  unfold bounded, canonical_mantissa. intros H.
  apply andb_true_iff in H as [H1 H2].
  apply Z.eqb_eq in H1. apply Z.leb_le in H2. now split.
Qed.

Lemma shr_fexp_exact (m : positive) (e : Z) :
  fexp prec emax (Zpos (digits2_pos m) + e) = e ->
  shr_fexp prec emax (Zpos m) e loc_Exact =
    ({| shr_m := Zpos m; shr_r := false; shr_s := false |}, e).
Proof.
  intros H. unfold shr_fexp. simpl Zdigits2. rewrite H, Z.sub_diag. reflexivity.
Qed.

Lemma shr_fexp_shifted (m : positive) (e : Z) :
  fexp prec emax (Zpos (digits2_pos m) + e) = e ->
  shr_fexp prec emax (Zpos (Pos.iter xO m 52)) (-52 + e) loc_Exact =
    ({| shr_m := Zpos m; shr_r := false; shr_s := false |}, e).
Proof.
  intros H. unfold shr_fexp.
  assert (Zdigits2 (Zpos (Pos.iter xO m 52)) = Zpos (digits2_pos m) + 52)%Z as ->
    by (cbn; lia).
  replace (Zpos (digits2_pos m) + 52 + (-52 + e))%Z with (Zpos (digits2_pos m) + e)%Z
    by lia.
  rewrite H. replace (e - (-52 + e))%Z with 52%Z by lia.
  unfold shr. cbv [SpecFloat.iter_pos shr_1 shr_record_of_loc orb]. f_equal. lia.
Qed.

(** Multiplying by 1.0 is exact. *)
Lemma float_mul_1_l (y : float) : 1 * y = y.
Proof.
  apply Prim2SF_inj. rewrite FloatAxioms.mul_spec.
  pose proof (Prim2SF_valid y) as Hv.
  change (Prim2SF 1) with (S754_finite false 4503599627370496 (-52)).
  destruct (Prim2SF y) as [s|s| |s m e]; try reflexivity.
  simpl in Hv. apply bounded_canonical in Hv as [H1 H2].
  unfold SF64mul, SFmul.
  change (xorb false s) with s.
  change (Pos.mul 4503599627370496 m) with (Pos.iter xO m 52).
  unfold binary_round_aux.
  rewrite (shr_fexp_shifted m e H1). cbv [round_nearest_even shr_m loc_of_shr_record].
  rewrite (shr_fexp_exact m e H1). cbv [shr_m].
  apply Z.leb_le in H2. now rewrite H2.
Qed.

(** Zero times a finite number compares equal to zero. *)
Lemma float_mul_0_finite (y : float) :
  PrimFloat.is_finite y = true -> (0 * y =? 0) = true.
Proof.
  unfold PrimFloat.is_finite, PrimFloat.is_nan, PrimFloat.is_infinity.
  rewrite !FloatAxioms.eqb_spec, FloatAxioms.abs_spec, FloatAxioms.mul_spec.
  change (Prim2SF 0) with (S754_zero false).
  change (Prim2SF infinity) with (S754_infinity false).
  destruct (Prim2SF y) as [s|s| |s m e]; intros H.
  - reflexivity.
  - destruct s; discriminate H.
  - discriminate H.
  - reflexivity.
Qed.

(** ** Binary64 rounding of [n * 0.8] *)

Section RoundingFacts.
#[local] Open Scope Z_scope.

Lemma digits2_pos_log2 (p : positive) : Zpos (digits2_pos p) = Z.log2 (Zpos p) + 1.
Proof.
  induction p as [p IH|p IH|]; simpl digits2_pos.
  - rewrite Pos2Z.inj_succ, IH. 
    change (Z.log2 (Zpos p~1)) with (Zpos (Pos.size p)).
    destruct p; simpl in *; lia.
  - rewrite Pos2Z.inj_succ, IH.
    change (Z.log2 (Zpos p~0)) with (Zpos (Pos.size p)).
    destruct p; simpl in *; lia.
  - reflexivity.
Qed.

Lemma digits2_pos_bounds (p : positive) :
  2 ^ (Zpos (digits2_pos p) - 1) <= Zpos p < 2 ^ Zpos (digits2_pos p).
Proof.
  rewrite digits2_pos_log2.
  pose proof (Z.log2_spec (Zpos p) ltac:(lia)) as H.
  replace (Z.log2 (Zpos p) + 1 - 1) with (Z.log2 (Zpos p)) by lia.
  replace (Z.log2 (Zpos p) + 1) with (Z.succ (Z.log2 (Zpos p))) by lia.
  exact H.
Qed.

(** The digits of a number between two powers of two. *)
Lemma digits2_pos_unique (p : positive) (d : Z) :
  2 ^ (d - 1) <= Zpos p < 2 ^ d -> Zpos (digits2_pos p) = d.
Proof.
  intros H. rewrite digits2_pos_log2.
  assert (0 < d) as Hd.
  { destruct (Z.ltb_spec 0 d); [assumption|].
    assert (2 ^ d <= 2 ^ 0) by (apply Z.pow_le_mono_r; lia).
    simpl in *. lia. }
  rewrite (Z.log2_unique (Zpos p) (d - 1)); [lia|lia|].
  replace (Z.succ (d - 1)) with d by lia. exact H.
Qed.

Lemma iter_xO_value (p k : positive) : Zpos (Pos.iter xO p k) = Zpos p * 2 ^ Zpos k.
Proof.
  induction k as [|k IH] using Pos.peano_ind.
  - simpl. lia.
  - rewrite Pos.iter_succ, Pos2Z.inj_xO, IH, Pos2Z.inj_succ, Z.pow_succ_r by lia. lia.
Qed.

Lemma shr_1_m (mrs : shr_record) :
  0 <= shr_m mrs -> shr_m (shr_1 mrs) = shr_m mrs / 2.
Proof.
  destruct mrs as [m r s]. simpl. intros Hm.
  destruct m as [|p|p]; [reflexivity| |lia].
  destruct p as [p|p|]; simpl shr_m.
  - rewrite Pos2Z.inj_xI. apply Z.div_unique with (r := 1); lia.
  - rewrite Pos2Z.inj_xO. apply Z.div_unique with (r := 0); lia.
  - reflexivity.
Qed.

Lemma iter_shr_1_m (n : positive) (mrs : shr_record) :
  0 <= shr_m mrs ->
  shr_m (SpecFloat.iter_pos shr_1 n mrs) = shr_m mrs / 2 ^ Zpos n.
Proof.
  revert mrs. induction n as [n IH|n IH|]; intros mrs Hm; simpl SpecFloat.iter_pos.
  - assert (0 <= shr_m (shr_1 mrs)) as H1
      by (rewrite shr_1_m by assumption; apply Z.div_pos; lia).
    assert (0 <= shr_m (SpecFloat.iter_pos shr_1 n (shr_1 mrs))) as H2
      by (rewrite IH by assumption; apply Z.div_pos; lia).
    rewrite IH, IH, shr_1_m by assumption.
    rewrite !Z.div_div by lia. f_equal.
    replace (Zpos n~1) with (1 + Zpos n + Zpos n) by lia.
    rewrite !Z.pow_add_r by lia. change (2 ^ 1) with 2. ring.
  - assert (0 <= shr_m (SpecFloat.iter_pos shr_1 n mrs)) as H2
      by (rewrite IH by assumption; apply Z.div_pos; lia).
    rewrite IH, IH by assumption.
    rewrite !Z.div_div by lia. f_equal.
    replace (Zpos n~0) with (Zpos n + Zpos n) by lia.
    rewrite !Z.pow_add_r by lia. ring.
  - rewrite shr_1_m by assumption. reflexivity.
Qed.

Lemma round_nearest_even_cases (m : Z) (l : location) :
  round_nearest_even m l = m \/ round_nearest_even m l = m + 1.
Proof.
  unfold round_nearest_even. destruct l as [|[| |]]; auto.
  destruct (Z.even m); auto.
Qed.

Lemma digits_iter_xO (p k : positive) :
  Zpos (digits2_pos (Pos.iter xO p k)) = Zpos (digits2_pos p) + Zpos k.
Proof.
  apply digits2_pos_unique. rewrite iter_xO_value.
  pose proof (digits2_pos_bounds p) as [H1 H2].
  replace (Zpos (digits2_pos p) + Zpos k - 1) with (Zpos (digits2_pos p) - 1 + Zpos k)
    by lia.
  rewrite !Z.pow_add_r by lia.
  assert (0 < 2 ^ Zpos k) by (apply Z.pow_pos_nonneg; lia).
  split; nia.
Qed.

Lemma fexp_normal (x : Z) : -1021 <= x -> fexp prec emax x = x - 53.
Proof. intros H. unfold fexp, emin, prec, emax. lia. Qed.

(** A positive integer below 2^52 as a float: the mantissa is shifted to 53
    digits. *)
Lemma Prim2SF_of_Z_pos (p : positive) :
  Zpos p < 2 ^ 52 ->
  exists k : positive,
    Zpos k = 53 - Zpos (digits2_pos p) /\
    Prim2SF (F64.of_Z (Zpos p)) =
      S754_finite false (Pos.iter xO p k) (Zpos (digits2_pos p) - 53).
Proof.
  intros Hp. pose proof (digits2_pos_bounds p) as [Hd1 Hd2].
  assert (Zpos (digits2_pos p) <= 52) as Hd.
  { destruct (Z.leb_spec (Zpos (digits2_pos p)) 52); [assumption|].
    assert (2 ^ 52 <= 2 ^ (Zpos (digits2_pos p) - 1))
      by (apply Z.pow_le_mono_r; lia). lia. }
  unfold F64.of_Z. rewrite of_uint63_spec, Uint63.of_Z_spec.
  rewrite Z.mod_small by (change wB with (2 ^ 63); split; [lia|];
    apply Z.lt_trans with (2 ^ 52); [assumption|reflexivity]).
  unfold binary_normalize, binary_round.
  rewrite Z.add_0_r, fexp_normal by lia.
  unfold shl_align.
  destruct (Zpos (digits2_pos p) - 53 - 0) as [|k|k] eqn:Ek; try lia.
  exists k. split; [lia|].
  unfold binary_round_aux.
  assert (fexp prec emax (Zpos (digits2_pos (Pos.iter xO p k)) + (Zpos (digits2_pos p) - 53))
          = Zpos (digits2_pos p) - 53) as Hf.
  { rewrite digits_iter_xO, fexp_normal by lia. lia. }
  rewrite (shr_fexp_exact _ _ Hf). cbv [round_nearest_even shr_m loc_of_shr_record].
  rewrite (shr_fexp_exact _ _ Hf). cbv [shr_m].
  replace (Zpos (digits2_pos p) - 53 <=? emax - prec) with true; [reflexivity|].
  symmetry. apply Z.leb_le. unfold emax, prec. lia.
Qed.

(** Rounding a mantissa of more than 53 digits: the mantissa is cut to 53
    digits and possibly incremented; when the increment reaches 2^53 the
    exponent moves up by one. *)
Lemma binary_round_aux_long (P : positive) (e : Z) :
  let D := Zpos (digits2_pos P) in
  53 < D -> -1021 <= D + e -> D + e <= 53 ->
  exists (m : positive) (e' m1 : Z),
    binary_round_aux prec emax false (Zpos P) e loc_Exact = S754_finite false m e' /\
    Zpos P / 2 ^ (D - 53) <= m1 <= Zpos P / 2 ^ (D - 53) + 1 /\
    ((Zpos m = m1 /\ e' = e + D - 53) \/
     (m1 = 2 ^ 53 /\ Zpos m = 2 ^ 52 /\ e' = e + D - 52)).
Proof.
  intros D HD Hlo Hhi. pose proof (digits2_pos_bounds P) as [HP1 HP2]. fold D in HP1, HP2.
  unfold binary_round_aux.
  unfold shr_fexp at 1. simpl Zdigits2. fold D. rewrite fexp_normal by lia.
  destruct (D + e - 53 - e) as [|s|s] eqn:Es; try lia.
  assert (Zpos s = D - 53) as Hs by lia.
  unfold shr. cbv [shr_record_of_loc].
  set (mrs := SpecFloat.iter_pos shr_1 s {| shr_m := Zpos P; shr_r := false; shr_s := false |}).
  assert (shr_m mrs = Zpos P / 2 ^ (D - 53)) as Hq.
  { unfold mrs. rewrite iter_shr_1_m by (simpl; lia). simpl shr_m. now rewrite Hs. }
  assert (2 ^ 52 <= shr_m mrs < 2 ^ 53) as Hqb.
  { rewrite Hq. assert (0 < 2 ^ (D - 53)) as Hpos by (apply Z.pow_pos_nonneg; lia).
    split.
    - apply Z.div_le_lower_bound; [assumption|].
      rewrite <- Z.pow_add_r by lia. replace (D - 53 + 52) with (D - 1) by lia.
      assumption.
    - apply Z.div_lt_upper_bound; [assumption|].
      rewrite <- Z.pow_add_r by lia. replace (D - 53 + 53) with D by lia.
      assumption. }
  set (m1 := round_nearest_even (shr_m mrs) (loc_of_shr_record mrs)).
  assert (m1 = shr_m mrs \/ m1 = shr_m mrs + 1) as Hm1
    by apply round_nearest_even_cases.
  assert (2 ^ 52 <= m1 <= 2 ^ 53) as Hm1b by lia.
  destruct (Z.eq_dec m1 (2 ^ 53)) as [Heq|Hne].
  - rewrite Heq. unfold shr_fexp.
    change (Zdigits2 (2 ^ 53)) with 54.
    rewrite fexp_normal by lia.
    replace (54 + (e + Zpos s) - 53 - (e + Zpos s)) with 1 by lia.
    simpl. 
    replace (e + Zpos s + 1 <=? emax - prec) with true
      by (symmetry; apply Z.leb_le; unfold emax, prec; lia).
    exists 4503599627370496%positive, (e + Zpos s + 1), m1.
    split; [reflexivity|]. split; [lia|]. right. repeat split; [assumption|lia].
  - destruct m1 as [|pm|pm] eqn:Em1; try lia.
    assert (Zpos (digits2_pos pm) = 53) as Hdig
      by (apply digits2_pos_unique; change (53 - 1) with 52; lia).
    assert (fexp prec emax (Zpos (digits2_pos pm) + (e + Zpos s)) = e + Zpos s) as Hf
      by (rewrite Hdig, fexp_normal by lia; lia).
    rewrite (shr_fexp_exact _ _ Hf). cbv [shr_m].
    replace (e + Zpos s <=? emax - prec) with true
      by (symmetry; apply Z.leb_le; unfold emax, prec; lia).
    exists pm, (e + Zpos s), (Zpos pm).
    split; [reflexivity|]. split; [lia|]. left. split; [reflexivity|lia].
Qed.

Lemma pow2_split (a b : Z) : 0 <= a -> 0 <= b -> 2 ^ (a + b) = 2 ^ a * 2 ^ b.
Proof. intros. now apply Z.pow_add_r. Qed.

(** [int(n * 0.8)] is the integer quotient of [4 n] by 5, for every [n] below
    2^48. *)
Lemma trunc_mul_08 (n : Z) :
  0 <= n < 2 ^ 48 -> F64.trunc (F64.of_Z n * 0.8) = Some (4 * n / 5).
Proof.
  intros [Hn0 Hn]. destruct n as [|p|p]; [reflexivity| |lia].
  assert (Zpos p < 2 ^ 52) as Hp52 by (eapply Z.lt_trans; [exact Hn|reflexivity]).
  destruct (Prim2SF_of_Z_pos p Hp52) as (k & Hk & Hx).
  pose proof (digits2_pos_bounds p) as [Hd1 Hd2].
  set (d := Zpos (digits2_pos p)) in *.
  assert (1 <= d) as Hd by (unfold d; lia).
  (* the shifted mantissa *)
  pose proof (iter_xO_value p k) as HA.
  set (A := Pos.iter xO p k) in *.
  assert (2 ^ (d - 1) * 2 ^ Zpos k = 2 ^ 52) as Hdk1
    by (rewrite <- pow2_split by lia; f_equal; lia).
  assert (2 ^ d * 2 ^ Zpos k = 2 ^ 53) as Hdk
    by (rewrite <- pow2_split by lia; f_equal; lia).
  assert (0 < 2 ^ Zpos k) as Hk0 by (apply Z.pow_pos_nonneg; lia).
  assert (2 ^ 52 <= Zpos A < 2 ^ 53) as HAb by (rewrite HA; nia).
  (* the product *)
  unfold F64.trunc. rewrite FloatAxioms.mul_spec, Hx.
  change (Prim2SF 0.8) with (S754_finite false 7205759403792794 (-53)).
  unfold SF64mul, SFmul. change (xorb false false) with false.
  set (P := Pos.mul A 7205759403792794).
  assert (Zpos P = Zpos A * 7205759403792794) as HP by (unfold P; lia).
  pose proof (digits2_pos_bounds P) as [HD1 HD2].
  set (D := Zpos (digits2_pos P)) in *.
  change (2 ^ 52) with 4503599627370496 in *.
  change (2 ^ 53) with 9007199254740992 in *.
  assert (105 <= D <= 106) as HD.
  { split.
    - destruct (Z.leb_spec 105 D); [assumption|].
      assert (2 ^ D <= 2 ^ 104) by (apply Z.pow_le_mono_r; lia).
      change (2 ^ 104) with 20282409603651670423947251286016 in *. nia.
    - destruct (Z.leb_spec D 106); [assumption|].
      assert (2 ^ 106 <= 2 ^ (D - 1)) by (apply Z.pow_le_mono_r; lia).
      change (2 ^ 106) with 81129638414606681695789005144064 in *. nia. }
  destruct (binary_round_aux_long P (d - 53 + -53)) as (m & e' & m1 & Hr & Hm1 & Hcase);
    fold D; try lia.
  fold D in Hm1, Hcase. rewrite Hr. f_equal.
  (* the powers of two in play *)
  set (g := 159 - d - D).
  assert (1 <= g) as Hg by (unfold g; lia).
  assert (0 < 2 ^ g) as Hg0 by (apply Z.pow_pos_nonneg; lia).
  assert (0 < 2 ^ (D - 53)) as Hs0 by (apply Z.pow_pos_nonneg; lia).
  assert (2 ^ (D - 53) * 2 ^ g = 2 ^ Zpos k * 9007199254740992) as Hsg.
  { rewrite <- pow2_split by lia. change 9007199254740992 with (2 ^ 53).
    rewrite <- pow2_split by lia. f_equal. unfold g. lia. }
  assert (2 ^ (D - 53) <= 2 ^ d * 2 ^ Zpos k) as Hsle.
  { rewrite Hdk. change 9007199254740992 with (2 ^ 53).
    apply Z.pow_le_mono_r; lia. }
  (* the value that is truncated *)
  assert ((if 0 <=? e' then Z.shiftl (Zpos m) e' else Z.shiftr (Zpos m) (- e'))
          = m1 / 2 ^ g) as ->.
  { destruct Hcase as [[Hm He]|(Hm1e & Hm & He)].
    - replace (0 <=? e') with false by (symmetry; apply Z.leb_gt; lia).
      rewrite Z.shiftr_div_pow2 by lia. rewrite Hm. f_equal. f_equal. unfold g. lia.
    - destruct (Z.eq_dec g 1) as [Hg1|Hg1].
      + replace e' with 0 by (unfold g in Hg1; lia). simpl Z.leb. cbv iota.
        rewrite Z.shiftl_0_r, Hm, Hm1e, Hg1. reflexivity.
      + replace (0 <=? e') with false by (symmetry; apply Z.leb_gt; unfold g in *; lia).
        rewrite Z.shiftr_div_pow2 by (unfold g in *; lia).
        rewrite Hm, Hm1e. replace (- e') with (g - 1) by (unfold g; lia).
        replace (2 ^ g) with (2 * 2 ^ (g - 1))
          by (rewrite <- Z.pow_succ_r by lia; f_equal; lia).
        change (2 ^ 53) with (2 * 2 ^ 52).
        rewrite Z.div_mul_cancel_l; [reflexivity| |lia].
        apply Z.pow_nonzero; lia. }
  (* the quotient *)
  set (q := Zpos P / 2 ^ (D - 53)) in *.
  assert (q * 2 ^ (D - 53) <= Zpos P) as Hq1
    by (unfold q; rewrite Z.mul_comm; apply Z.mul_div_le; assumption).
  set (K := 4 * Zpos p / 5).
  assert (5 * K <= 4 * Zpos p < 5 * K + 5) as HK.
  { unfold K. pose proof (Z.div_mod (4 * Zpos p) 5 ltac:(lia)) as E.
    pose proof (Z.mod_pos_bound (4 * Zpos p) 5 ltac:(lia)). lia. }
  symmetry. apply Z.div_unique with (r := m1 - K * 2 ^ g); [|lia].
  left. split.
  - (* K * 2^g <= q <= m1 *)
    assert (K * 2 ^ g <= q); [|lia].
    apply Z.div_le_lower_bound; [assumption|].
    rewrite Z.mul_assoc, (Z.mul_comm (2 ^ (D - 53)) K), <- Z.mul_assoc, Hsg, HP, HA.
    assert (K * 9007199254740992 <= Zpos p * 7205759403792794) by lia.
    nia.
  - (* m1 <= q + 1 < (K + 1) * 2^g *)
    assert (q + 2 <= (K + 1) * 2 ^ g); [|lia].
    apply (Z.mul_le_mono_pos_r _ _ (2 ^ (D - 53))); [assumption|].
    rewrite <- (Z.mul_assoc (K + 1)), (Z.mul_comm (2 ^ g)), Hsg.
    assert (Zpos p * 7205759403792794 + 4 * Zpos p <= (K + 1) * 9007199254740992)
      as Hmain by lia.
    assert (2 * 2 ^ (D - 53) <= 4 * Zpos p * 2 ^ Zpos k) as H2s.
    { assert (2 ^ d = 2 * 2 ^ (d - 1)) as Hdd
        by (rewrite <- Z.pow_succ_r by lia; f_equal; lia).
      nia. }
    rewrite HP, HA in Hq1. nia.
Qed.

End RoundingFacts.

(** ** The single-day transform *)

Section FeatureBuilderFacts.
Context {np : Numpy}.

Lemma length_groupby_transform f keys vals :
  length (groupby_transform f keys vals) = length keys.
Proof. unfold groupby_transform. apply length_imap. Qed.

Lemma latest_features_ok (df : list TelemetryRecord) :
  df <> [] -> exists fv, latest_features df = Ok fv.
Proof.
  intros Hdf. unfold latest_features.
  assert (0 < length df)%nat as Hlen by (destruct df; simpl; [congruence|lia]).
  assert (forall xs : list float, length xs = length df -> is_Some (last xs)) as Hlast.
  { intros xs Hxs. apply last_is_Some. intros ->. simpl in Hxs. lia. }
  repeat match goal with
  | |- context [last ?xs] =>
      let H := fresh in
      destruct (Hlast xs) as [? H];
      [ unfold zipf, recovery_score_incremental, zipf;
        repeat first [rewrite length_zip_with | rewrite length_groupby_transform
                     | rewrite length_map]; lia
      | rewrite H; clear H ]
  end.
  eexists. reflexivity.
Qed.

Lemma prepare_enough (today_data : TelemetryRecord) (history_df : list TelemetryRecord) :
  let prior :=
    List.filter (fun r => Z.eqb (athlete_id r) (athlete_id today_data)) history_df in
  (length prior <? 60)%nat = false ->
  prepare today_data history_df =
    Ok (sort_by (fun a b => key_le (row_key a) (row_key b)) (prior ++ [today_data])).
Proof.
  intros prior E. unfold prepare. fold prior. rewrite E.
  now rewrite set_date_to_datetime.
Qed.

Lemma prepare_short (today_data : TelemetryRecord) (history_df : list TelemetryRecord) :
  let prior :=
    List.filter (fun r => Z.eqb (athlete_id r) (athlete_id today_data)) history_df in
  (length prior <? 60)%nat = true ->
  prepare today_data history_df = Raise insufficient_history.
Proof. intros prior E. unfold prepare. fold prior. now rewrite E. Qed.

Lemma build_features_enough (today_data : TelemetryRecord)
    (history_df : list TelemetryRecord) :
  let prior :=
    List.filter (fun r => Z.eqb (athlete_id r) (athlete_id today_data)) history_df in
  (length prior <? 60)%nat = false ->
  exists fv, build_features today_data history_df = Ok fv.
Proof.
  intros prior E. unfold build_features.
  rewrite (prepare_enough _ _ E). fold prior.
  change (exists fv,
    latest_features
      (sort_by (fun a b => key_le (row_key a) (row_key b)) (prior ++ [today_data]))
    = Ok fv).
  apply latest_features_ok.
  intros Hnil. apply (f_equal (@length _)) in Hnil.
  rewrite (Permutation_length (sort_by_perm _ _)), length_app in Hnil.
  simpl in Hnil. lia.
Qed.

(** The single-day transform does not see the order of the stored rows: two
    histories with the same rows give the same result, as long as no two rows of
    the athlete share a date. *)
Lemma build_features_order_blind (today_data : TelemetryRecord)
    (h1 h2 : list TelemetryRecord) :
  let prior :=
    List.filter (fun r => Z.eqb (athlete_id r) (athlete_id today_data)) h1 in
  Permutation h1 h2 ->
  List.NoDup (List.map row_key (prior ++ [today_data])) ->
  build_features today_data h1 = build_features today_data h2.
Proof.
  intros prior Hp Hnd.
  set (prior2 := List.filter (fun r => Z.eqb (athlete_id r) (athlete_id today_data)) h2).
  assert (Permutation prior prior2) as Hpp by now apply filter_perm.
  unfold build_features.
  destruct (length prior <? 60)%nat eqn:E.
  - rewrite (prepare_short today_data h1 E).
    rewrite (prepare_short today_data h2); [reflexivity|].
    fold prior2. now rewrite <- (Permutation_length Hpp).
  - rewrite (prepare_enough today_data h1 E).
    rewrite (prepare_enough today_data h2)
      by (fold prior2; now rewrite <- (Permutation_length Hpp)).
    fold prior prior2.
    set (le := fun a b => key_le (row_key a) (row_key b)).
    enough (sort_by le (prior ++ [today_data]) = sort_by le (prior2 ++ [today_data]))
      as -> by reflexivity.
    assert (forall l, StronglySorted (fun a b => le a b = true) (sort_by le l)) as Hs.
    { intros l. apply Sorted_StronglySorted.
      - intros a b c. apply key_le_trans.
      - apply sort_by_sorted. intros a b. apply key_le_total. }
    apply (sorted_perm_unique (fun a b => le a b = true)); try apply Hs.
    + intros a b Ha Hb Hab Hba.
      assert (row_key a = row_key b) as Hk.
      { unfold le, key_le in Hab, Hba.
        destruct (row_key a) as [a1 a2], (row_key b) as [b1 b2]. simpl in *.
        rewrite orb_true_iff, andb_true_iff, Z.ltb_lt, Z.eqb_eq, Z.leb_le in Hab, Hba.
        f_equal; lia. }
      assert (Permutation (sort_by le (prior ++ [today_data])) (prior ++ [today_data]))
        as Hperm by apply sort_by_perm.
      apply (Permutation_in _ Hperm) in Ha, Hb.
      clear - Hnd Ha Hb Hk.
      induction (prior ++ [today_data]) as [|x l IH]; [destruct Ha|].
      simpl in Hnd. inversion Hnd as [|? ? Hx Hl]; subst.
      destruct Ha as [<-|Ha], Hb as [<-|Hb]; auto.
      * exfalso. apply Hx. rewrite Hk. now apply in_map.
      * exfalso. apply Hx. rewrite <- Hk. now apply in_map.
    + rewrite !sort_by_perm. now apply Permutation_app_tail.
Qed.

(** C8: with fewer than 60 stored rows of the athlete, [build_features] raises
    the "at least 60 days of history" error and returns no features; with 60 or
    more it does not raise, and returns a feature vector. *)
Theorem build_features_history_gate
    (today_data : TelemetryRecord) (history_df : list TelemetryRecord) :
  let prior :=
    List.filter (fun r => Z.eqb (athlete_id r) (athlete_id today_data)) history_df in
  if (length prior <? 60)%nat
  then build_features today_data history_df =
         Raise (ValueError "Athlete must have at least 60 days of history.")
  else exists fv, build_features today_data history_df = Ok fv.
Proof.
  intros prior.
  destruct (length prior <? 60)%nat eqn:E.
  - unfold build_features. now rewrite (prepare_short _ _ E).
  - now apply build_features_enough.
Qed.

(** C9, as the code has it: [build_features] does not reject an input that is
    out of date order or repeats a date.  Whatever the order of the stored rows,
    the frame the features are computed on is the athlete's rows and today's
    row sorted by [(athlete_id, date)], features are returned for the row that
    is last in that order, and the only error raised is the one for a history of
    fewer than 60 rows.  With pairwise distinct dates, reordering the stored rows
    does not change the result. *)
Theorem build_features_sorts_silently
    (today_data : TelemetryRecord) (history_df : list TelemetryRecord) :
  let prior :=
    List.filter (fun r => Z.eqb (athlete_id r) (athlete_id today_data)) history_df in
  match prepare today_data history_df with
  | Ok df =>
      rows_sorted df /\
      Permutation df (prior ++ [today_data]) /\
      build_features today_data history_df = latest_features df /\
      exists fv, latest_features df = Ok fv
  | Raise e =>
      e = insufficient_history /\ (length prior < 60)%nat /\
      build_features today_data history_df = Raise e
  end /\
  (forall reordered,
     Permutation history_df reordered ->
     List.NoDup (List.map row_key (prior ++ [today_data])) ->
     build_features today_data reordered = build_features today_data history_df).
Proof.
  intros prior. split.
  - destruct (length prior <? 60)%nat eqn:E.
    + unfold build_features. rewrite (prepare_short _ _ E).
      apply Nat.ltb_lt in E. auto.
    + pose proof (build_features_enough _ _ E) as Hok.
      unfold build_features in *. rewrite (prepare_enough _ _ E) in *.
      fold prior in Hok |- *.
      split; [|split; [|split]].
      * apply Sorted_StronglySorted.
        -- intros a b c. apply key_le_trans.
        -- apply (sort_by_sorted (fun a b => key_le (row_key a) (row_key b))).
           intros a b. apply key_le_total.
      * apply sort_by_perm.
      * reflexivity.
      * exact Hok.
  - intros reordered Hp Hnd. symmetry.
    now apply build_features_order_blind.
Qed.

End FeatureBuilderFacts.

(** ** The temporal split *)

(** Below [max_rows] rows, [int(n * 0.8)] is the floor of [0.8 n]. *)
Lemma split_idx_floor (n : nat) :
  (Z.of_nat n < max_rows)%Z -> split_idx n = Some (8 * n / 10)%nat.
Proof.
  intros Hn. unfold split_idx, F64.of_nat.
  rewrite trunc_mul_08 by (unfold max_rows in Hn; lia).
  cbn [fmap option_fmap option_map]. f_equal. apply Nat2Z.inj.
  rewrite Z2Nat.id by (apply Z.div_pos; lia).
  rewrite Nat2Z.inj_div, Nat2Z.inj_mul.
  change (Z.of_nat 8) with (2 * 4)%Z. change (Z.of_nat 10) with (2 * 5)%Z.
  rewrite <- Z.mul_assoc. now rewrite Z.div_mul_cancel_l by lia.
Qed.

Lemma combine_seq_sorted (keys : list Z) (start : nat) :
  StronglySorted Z.lt keys ->
  Sorted (fun a b : Z * nat => Z.leb (fst a) (fst b) = true)
         (combine keys (seq start (length keys))).
Proof.
  intros H. revert start. induction H as [|k r Hr IH Hk]; intros start; simpl.
  - constructor.
  - constructor; [apply IH|].
    destruct r as [|k' r']; simpl; constructor.
    simpl. apply Z.leb_le. inversion Hk; subst. lia.
Qed.

Lemma map_snd_combine_seq (keys : list Z) (start : nat) :
  List.map snd (combine keys (seq start (length keys))) = seq start (length keys).
Proof.
  revert start. induction keys as [|k r IH]; intros start; simpl; [reflexivity|].
  now rewrite IH.
Qed.

(** On keys in strictly ascending order, the sorting permutation is the
    identity. *)
Lemma argsort_sorted (keys : list Z) :
  StronglySorted Z.lt keys -> argsort Z.leb keys = seq 0 (length keys).
Proof.
  intros H. unfold argsort.
  rewrite sort_by_id by now apply combine_seq_sorted.
  apply map_snd_combine_seq.
Qed.

Lemma reindex_seq_app {A : Type} (pre xs : list A) :
  reindex (seq (length pre) (length xs)) (pre ++ xs) = xs.
Proof.
  unfold reindex. revert pre. induction xs as [|x r IH]; intros pre; simpl.
  - reflexivity.
  - rewrite list_lookup_middle by reflexivity. simpl. f_equal.
    specialize (IH (pre ++ [x])).
    rewrite length_app, <- app_assoc in IH. simpl in IH.
    now rewrite Nat.add_1_r in IH.
Qed.

Lemma reindex_seq {A : Type} (xs : list A) : reindex (seq 0 (length xs)) xs = xs.
Proof. exact (reindex_seq_app [] xs). Qed.

Lemma strongly_sorted_map {A B : Type} (f : A -> B) (R : B -> B -> Prop) (l : list A) :
  StronglySorted (fun a b => R (f a) (f b)) l -> StronglySorted R (List.map f l).
Proof.
  induction 1 as [|x r Hr IH Hx]; simpl; constructor; [assumption|].
  rewrite List.Forall_forall in *. intros y Hy.
  apply in_map_iff in Hy as (a & <- & Ha). now apply Hx.
Qed.

Lemma strongly_sorted_split {A : Type} (R : A -> A -> Prop) (l : list A) (k : nat) :
  StronglySorted R l ->
  forall a b, In a (firstn k l) -> In b (skipn k l) -> R a b.
Proof.
  intros H. revert k. induction H as [|x r Hr IH Hx]; intros k a b Ha Hb.
  - rewrite firstn_nil in Ha. destruct Ha.
  - destruct k as [|k]; simpl in *; [destruct Ha|].
    destruct Ha as [<-|Ha].
    + rewrite List.Forall_forall in Hx. apply Hx.
      rewrite <- (firstn_skipn k r). apply in_or_app. now right.
    + eapply IH; eassumption.
Qed.

Lemma sort_values_date_sorted (g : DataFrame) :
  StronglySorted (fun a b => (date a < date b)%Z) (rows g) ->
  rows (sort_values_date g) = rows g /\
  forall name xs, derived g !! name = Some (FloatCol xs) -> length xs = len g ->
    derived (sort_values_date g) !! name = Some (FloatCol xs).
Proof.
  intros Hs. unfold sort_values_date.
  rewrite argsort_sorted by now apply strongly_sorted_map.
  rewrite length_map. simpl. split.
  - apply reindex_seq.
  - intros name xs Hc Hl. rewrite lookup_fmap, Hc. simpl.
    unfold len in Hl. rewrite <- Hl. now rewrite reindex_seq.
Qed.

(** C6: for an athlete whose [n] records are in strict date order (and fewer
    than [max_rows]), the split takes the first [floor(0.8 n)] records as the
    train part and the other [n - floor(0.8 n)] as the test part, every column
    travelling with its row; no record is in both parts, and every train date
    is at most every test date. *)
Theorem athlete_split_temporal (g : DataFrame) :
  StronglySorted (fun a b => (date a < date b)%Z) (rows g) ->
  (Z.of_nat (len g) < max_rows)%Z ->
  let n := len g in
  let k := (8 * n / 10)%nat in
  exists train test,
    athlete_split g = Some (train, test) /\
    rows train = firstn k (rows g) /\
    rows test = skipn k (rows g) /\
    len train = k /\
    len test = (n - k)%nat /\
    (forall name xs, derived g !! name = Some (FloatCol xs) -> length xs = n ->
       derived train !! name = Some (FloatCol (firstn k xs)) /\
       derived test !! name = Some (FloatCol (skipn k xs))) /\
    (forall r, In r (rows train) -> ~ In r (rows test)) /\
    (forall a b, In a (rows train) -> In b (rows test) -> (date a <= date b)%Z).
Proof.
  intros Hs Hn n k.
  destruct (sort_values_date_sorted g Hs) as [Hrows Hcols].
  unfold athlete_split.
  assert (len (sort_values_date g) = n) as Hlen by (unfold len; now rewrite Hrows).
  rewrite Hlen, (split_idx_floor n Hn). fold k.
  exists (iloc_to k (sort_values_date g)), (iloc_from k (sort_values_date g)).
  split; [reflexivity|].
  assert (k <= n)%nat as Hk.
  { unfold k. apply Nat.Div0.div_le_upper_bound. lia. }
  unfold len, iloc_to, iloc_from; cbn [rows derived]. rewrite Hrows.
  split; [reflexivity|]. split; [reflexivity|].
  split; [rewrite length_firstn; fold (len g); lia|].
  split; [now rewrite length_skipn|].
  split; [|split].
  - intros name xs Hc Hl.
    rewrite !lookup_fmap, (Hcols name xs) by assumption. split; reflexivity.
  - intros r Htr Hte.
    pose proof (strongly_sorted_split _ _ k Hs r r Htr Hte) as H.
    cbv beta in H. lia.
  - intros a b Ha Hb.
    pose proof (strongly_sorted_split _ _ k Hs a b Ha Hb) as H.
    cbv beta in H. lia.
Qed.

(** ** The store monad *)

Lemma map_fmap {A B : Type} (f : A -> B) (l : list A) : List.map f l = f <$> l.
Proof. reflexivity. Qed.

Section StoreFacts.
Context {A B : Type}.

Lemma run_bind (m : M A) (k : A -> M B) (σ σ' : store) (a : A) :
  m σ = (Ok a, σ') -> (m ≫= k) σ = k a σ'.
Proof. intros H. unfold mbind, M_bind. now rewrite H. Qed.

Lemma keeps_bind (σ0 : store) (m : M A) (k : A -> M B) :
  keeps σ0 m -> (forall a, keeps σ0 (k a)) -> keeps σ0 (m ≫= k).
Proof.
  intros Hm Hk σ Hσ. unfold mbind, M_bind.
  specialize (Hm σ Hσ). destruct (m σ) as [[a|e] σ']; simpl in *.
  - now apply Hk.
  - assumption.
Qed.

Lemma keeps_ret (σ0 : store) (a : A) : keeps σ0 (mret a).
Proof. intros σ Hσ. exact Hσ. Qed.

Lemma keeps_lift (σ0 : store) (r : result A) : keeps σ0 (lift r).
Proof. intros σ Hσ. exact Hσ. Qed.

Lemma returns_bind (m : M A) (k : A -> M B) (b : B) :
  (forall a, returns (k a) b) -> returns (m ≫= k) b.
Proof.
  intros Hk σ. unfold mbind, M_bind.
  destruct (m σ) as [[a|e] σ']; simpl; [apply Hk|exact I].
Qed.

Lemma returns_ret (a : A) : returns (mret a : M A) a.
Proof. intros σ. reflexivity. Qed.

End StoreFacts.

Lemma keeps_read (σ0 : store) (l : loc) : keeps σ0 (df_read l).
Proof. intros σ Hσ. unfold df_read. now destruct (σ !! l). Qed.

Lemma keeps_modify (σ0 : store) (l : loc) (f : DataFrame -> DataFrame) :
  σ0 !! l = None -> keeps σ0 (df_modify l f).
Proof.
  intros Hl σ Hσ. unfold df_modify. destruct (σ !! l) eqn:E; simpl; [|assumption].
  now apply insert_subseteq_r.
Qed.

Lemma keeps_setitem (σ0 : store) (l : loc) (name : string) (xs : list float) :
  σ0 !! l = None -> keeps σ0 (df_setitem l name xs).
Proof. apply keeps_modify. Qed.

Lemma keeps_getitem (σ0 : store) (l : loc) (name : string) :
  keeps σ0 (df_getitem l name).
Proof.
  unfold df_getitem. apply keeps_bind; [apply keeps_read|intros; apply keeps_lift].
Qed.

Lemma keeps_col {A : Type} (σ0 : store) (l : loc) (proj : TelemetryRecord -> A) :
  keeps σ0 (df_col l proj).
Proof.
  unfold df_col. apply keeps_bind; [apply keeps_read|intros; apply keeps_ret].
Qed.

(** After [df = df.copy()], a body that writes to [df] alone leaves the objects
    of the caller as they were, and a body that returns [df] returns a new
    object. *)
Lemma copy_then_keeps {A : Type} (df0 : loc) (body : loc -> M A) (σ : store) :
  (forall l, σ !! l = None -> keeps σ (body l)) ->
  σ ⊆ ((df_copy df0 ≫= body) σ).2.
Proof.
  intros Hbody. unfold mbind, M_bind, df_copy.
  destruct (σ !! df0) as [d|] eqn:E; simpl; [|reflexivity].
  assert (σ !! fresh (dom σ) = None) as Hfresh
    by (apply not_elem_of_dom, is_fresh).
  apply Hbody; [assumption|]. now apply insert_subseteq.
Qed.

Lemma copy_then_returns (df0 : loc) (body : loc -> M loc) (σ : store) :
  (forall l, returns (body l) l) ->
  match ((df_copy df0 ≫= body) σ).1 with
  | Ok l => σ !! l = None
  | Raise _ => True
  end.
Proof.
  intros Hbody. unfold mbind, M_bind, df_copy.
  destruct (σ !! df0) as [d|] eqn:E; simpl; [|exact I].
  specialize (Hbody (fresh (dom σ)) (<[fresh (dom σ) := d]> σ)).
  destruct (body _ _) as [[l|e] σ']; simpl in *; [|exact I].
  subst l. apply not_elem_of_dom, is_fresh.
Qed.

Create HintDb frame.

#[local] Hint Resolve keeps_ret keeps_lift keeps_read keeps_modify keeps_setitem
  keeps_getitem keeps_col : frame.

Ltac frame_keeps :=
  repeat first
    [ apply keeps_bind; [|intros ?]
    | solve [auto with frame] ].

Ltac frame_returns :=
  repeat (apply returns_bind; intros ?); apply returns_ret.

(** C10: [engineer_features], [compute_risk_score] and [assign_risk_zone] work
    on a copy.  Whatever the store and the argument, every dataframe object
    that existed before the call, the caller's among them, holds the same rows,
    columns and values after it; the frame that is returned lives at a location
    that did not exist before, so the derived columns are on the copy alone. *)
Theorem batch_functions_do_not_mutate {np : Numpy} (σ : store) (df0 : loc) :
  (σ ⊆ (engineer_features df0 σ).2 /\
   match (engineer_features df0 σ).1 with Ok l => σ !! l = None | Raise _ => True end) /\
  (σ ⊆ (compute_risk_score df0 σ).2 /\
   match (compute_risk_score df0 σ).1 with Ok l => σ !! l = None | Raise _ => True end) /\
  (σ ⊆ (assign_risk_zone df0 σ).2 /\
   match (assign_risk_zone df0 σ).1 with Ok l => σ !! l = None | Raise _ => True end).
Proof.
  repeat split.
  - apply copy_then_keeps. intros l Hl. frame_keeps.
  - apply copy_then_returns. intros l. frame_returns.
  - apply copy_then_keeps. intros l Hl. frame_keeps.
  - apply copy_then_returns. intros l. frame_returns.
  - apply copy_then_keeps. intros l Hl. frame_keeps.
  - apply copy_then_returns. intros l. frame_returns.
Qed.

(** ** Running the batch functions *)

Lemma run_copy (σ : store) (r : loc) (d : DataFrame) :
  σ !! r = Some d ->
  df_copy r σ = (Ok (fresh (dom σ)), <[fresh (dom σ) := d]> σ).
Proof. intros H. unfold df_copy. now rewrite H. Qed.

Lemma run_read (σ : store) (l : loc) (d : DataFrame) :
  df_read l (<[l := d]> σ) = (Ok d, <[l := d]> σ).
Proof. unfold df_read. now rewrite lookup_insert_eq. Qed.

Lemma run_modify (σ : store) (l : loc) (d : DataFrame) (f : DataFrame -> DataFrame) :
  df_modify l f (<[l := d]> σ) = (Ok tt, <[l := f d]> σ).
Proof. unfold df_modify. now rewrite lookup_insert_eq, insert_insert_eq. Qed.

Lemma run_setitem (σ : store) (l : loc) (d : DataFrame) (name : string)
    (xs : list float) :
  df_setitem l name xs (<[l := d]> σ) =
    (Ok tt, <[l := setitem d name (FloatCol xs)]> σ).
Proof. apply run_modify. Qed.

Lemma run_getitem (σ : store) (l : loc) (d : DataFrame) (name : string)
    (xs : list float) :
  getitem d name = Ok xs ->
  df_getitem l name (<[l := d]> σ) = (Ok xs, <[l := d]> σ).
Proof.
  intros H. unfold df_getitem. rewrite (run_bind _ _ _ _ _ (run_read σ l d)).
  unfold lift. now rewrite H.
Qed.

Lemma run_col {A : Type} (σ : store) (l : loc) (d : DataFrame)
    (proj : TelemetryRecord -> A) :
  df_col l proj (<[l := d]> σ) = (Ok (List.map proj (rows d)), <[l := d]> σ).
Proof. unfold df_col. now rewrite (run_bind _ _ _ _ _ (run_read σ l d)). Qed.

Lemma getitem_setitem_eq (d : DataFrame) (name : string) (xs : list float) :
  getitem (setitem d name (FloatCol xs)) name = Ok xs.
Proof. unfold getitem, setitem. simpl. now rewrite lookup_insert_eq. Qed.

Lemma getitem_setitem_ne (d : DataFrame) (name name' : string) (c : column) :
  name <> name' -> getitem (setitem d name c) name' = getitem d name'.
Proof. intros H. unfold getitem, setitem. simpl. now rewrite lookup_insert_ne. Qed.

Lemma rows_set_date_to_datetime (d : DataFrame) : rows (set_date d to_datetime) = rows d.
Proof.
  destruct d as [rs dv]. simpl. induction rs as [|r l IH]; simpl; [reflexivity|].
  rewrite IH. now destruct r.
Qed.

Ltac getitem_solve :=
  repeat first [ apply getitem_setitem_eq
               | rewrite getitem_setitem_ne by discriminate ];
  try eassumption.

(** One statement of a batch function, run on the copy. *)
Ltac run_step :=
  erewrite run_bind;
  [| first [ apply run_setitem | apply run_col | apply run_read | apply run_modify
           | apply run_getitem; getitem_solve ] ].

(** ** The risk score *)

Lemma minmax_lookup (series : list float) (i : nat) (x : float) :
  series !! i = Some x -> minmax series !! i = Some (minmax_spec series x).
Proof.
  intros H. unfold minmax. rewrite map_fmap, list_lookup_fmap, H. reflexivity.
Qed.

Lemma weighted_sum_lookup (a b c d e : list float) (i : nat) (x1 x2 x3 x4 x5 : float) :
  a !! i = Some x1 -> b !! i = Some x2 -> c !! i = Some x3 ->
  d !! i = Some x4 -> e !! i = Some x5 ->
  weighted_sum a b c d e !! i =
    Some (0.25 * x1 + 0.25 * x2 + 0.15 * x3 + 0.20 * x4 + 0.15 * x5).
Proof.
  intros Ha Hb Hc Hd He. unfold weighted_sum, zipf.
  rewrite !lookup_zip_with, !map_fmap, !list_lookup_fmap, Ha, Hb, Hc, Hd, He.
  reflexivity.
Qed.

(** C5: [compute_risk_score] returns a copy whose [risk_score] column holds, in
    every row, 0.25 minmax(load_7d) + 0.25 minmax(-hrv_drop)
    + 0.15 minmax(training_monotony_log) + 0.20 (1 - minmax(recovery_score))
    + 0.15 history_risk, each minmax being (x - min) / (max - min + 1e-6) with
    the minimum and the maximum of the whole column of the frame that is
    scored (the least and the greatest of its observations). *)
Theorem compute_risk_score_formula (σ : store) (df0 : loc) (d : DataFrame)
    (l7 hd tm rs hr : list float) :
  σ !! df0 = Some d ->
  getitem d "load_7d" = Ok l7 ->
  getitem d "hrv_drop" = Ok hd ->
  getitem d "training_monotony_log" = Ok tm ->
  getitem d "recovery_score" = Ok rs ->
  getitem d "history_risk" = Ok hr ->
  exists d',
    compute_risk_score df0 σ = (Ok (fresh (dom σ)), <[fresh (dom σ) := d']> σ) /\
    rows d' = rows d /\
    (forall i x1 x2 x3 x4 x5,
       l7 !! i = Some x1 -> hd !! i = Some x2 -> tm !! i = Some x3 ->
       rs !! i = Some x4 -> hr !! i = Some x5 ->
       cell d' "risk_score" i =
         Some (risk_score_spec l7 (List.map PrimFloat.opp hd) tm rs x1 x2 x3 x4 x5)) /\
    (forall scope x, In x (F64.dropna scope) ->
       In (F64.min scope) (F64.dropna scope) /\ (F64.min scope <=? x) = true /\
       In (F64.max scope) (F64.dropna scope) /\ (x <=? F64.max scope) = true).
Proof.
  intros H0 H1 H2 H3 H4 H5. unfold compute_risk_score.
  rewrite (run_bind _ _ _ _ _ (run_copy _ _ _ H0)).
  repeat run_step.
  eexists. split; [reflexivity|]. split; [reflexivity|].
  split; [|intros scope x Hx;
           destruct (series_min_spec scope x Hx), (series_max_spec scope x Hx); auto].
  intros i x1 x2 x3 x4 x5 Hx1 Hx2 Hx3 Hx4 Hx5.
  unfold cell. rewrite getitem_setitem_eq.
  apply weighted_sum_lookup.
  - now apply minmax_lookup.
  - apply minmax_lookup. now rewrite map_fmap, list_lookup_fmap, Hx2.
  - now apply minmax_lookup.
  - rewrite map_fmap, list_lookup_fmap, (minmax_lookup _ _ _ Hx4). reflexivity.
  - assumption.
Qed.

(** ** The batch transform, column by column *)

Lemma fill_names_ok (d : DataFrame) (names : list string) :
  (forall name, In name names -> exists xs, getitem d name = Ok xs) ->
  exists d',
    foldr (fun name acc =>
             out ← acc;
             xs ← getitem d name;
             mret (setitem out name
                     (FloatCol (groupby_transform (fun g => bfill (ffill g))
                                  (List.map athlete_id (rows d)) xs))))
          (Ok d) names = Ok d' /\
    rows d' = rows d /\
    forall name, ~ In name names -> derived d' !! name = derived d !! name.
Proof.
  induction names as [|n r IH]; intros Hall; simpl.
  - exists d. auto.
  - destruct IH as (d' & -> & Hrows & Hother).
    { intros name Hin. apply Hall. now right. }
    destruct (Hall n) as [xs Hxs]; [now left|].
    simpl. rewrite Hxs. simpl. eexists. split; [reflexivity|]. split.
    + exact Hrows.
    + intros name Hname. simpl.
      rewrite lookup_insert_ne by (intros ->; apply Hname; now left).
      apply Hother. intros Hin. apply Hname. now right.
Qed.

Lemma getitem_ext (d d' : DataFrame) (name : string) :
  derived d' !! name = derived d !! name -> getitem d' name = getitem d name.
Proof. intros H. unfold getitem. now rewrite H. Qed.

Section BatchColumns.
Context {np : Numpy}.

(** What [engineer_features] returns: a new frame with the rows of the
    argument, whose z-score, recovery score and history risk columns are the
    ones below (the forward and backward fill does not touch them). *)
Lemma engineer_features_run (σ : store) (df0 : loc) (d : DataFrame) :
  σ !! df0 = Some d ->
  let athlete := List.map athlete_id (rows d) in
  let hrv_z := groupby_transform zscore_eps athlete (List.map hrv (rows d)) in
  exists d',
    engineer_features df0 σ = (Ok (fresh (dom σ)), <[fresh (dom σ) := d']> σ) /\
    rows d' = rows d /\
    getitem d' "hrv_z" = Ok hrv_z /\
    getitem d' "recovery_score" =
      Ok (recovery_score_batch (List.map sleep_quality (rows d)) hrv_z
            (List.map resting_hr (rows d))) /\
    getitem d' "history_risk" = Ok (List.map history_risk_of (rows d)).
Proof.
  intros H0 athlete hrv_z. unfold engineer_features.
  rewrite (run_bind _ _ _ _ _ (run_copy _ _ _ H0)).
  repeat run_step.
  match goal with |- context [fill_rolling ?D] => set (D0 := D) end.
  destruct (fill_names_ok D0 rolling_features) as (d' & Hfill & Hrows & Hother).
  { intros name Hin. unfold rolling_features in Hin. simpl in Hin.
    repeat (destruct Hin as [<-|Hin];
            [eexists; unfold D0; getitem_solve; reflexivity|]).
    destruct Hin. }
  unfold fill_rolling. rewrite Hfill.
  erewrite run_bind; [|reflexivity].
  run_step.
  exists d'. split; [reflexivity|].
  assert (rows D0 = rows d) as HD0 by apply rows_set_date_to_datetime.
  split; [congruence|].
  assert (forall name, ~ In name rolling_features ->
            getitem d' name = getitem D0 name) as Hget.
  { intros name Hname. apply getitem_ext. now apply Hother. }
  repeat split;
    rewrite Hget by (simpl; intuition discriminate);
    unfold D0, hrv_z, athlete;
    repeat first [ rewrite getitem_setitem_eq
                 | rewrite getitem_setitem_ne by discriminate ];
    cbn [rows setitem]; now rewrite !rows_set_date_to_datetime.
Qed.

End BatchColumns.

(** ** History risk *)

Section HistoryRisk.
Context {np : Numpy}.

Lemma latest_features_history (df : list TelemetryRecord) (fv : FeatureVector) :
  latest_features df = Ok fv ->
  exists r, last df = Some r /\ history_risk fv = history_risk_of r.
Proof.
  unfold latest_features. intros H.
  repeat match type of H with
  | context [match last ?xs with _ => _ end] =>
      destruct (last xs) eqn:?; try discriminate H
  end.
  injection H as <-. simpl.
  match goal with
  | E : last (List.map history_risk_of df) = Some _ |- _ =>
      rewrite map_fmap, fmap_last in E;
      destruct (last df) as [r|]; [|discriminate E];
      injection E as <-
  end.
  now exists r.
Qed.

(** C7: in both transforms the history risk of a record is
    [past_injury * exp(-days_since_injury / 60)].  It is 1.0 one day zero of an
    injury (numpy's exp being 1 at 0), exp(-1) at day 60, and it compares equal
    to 0.0 without a past injury, whatever the number of days, as long as the
    exponential is a finite number. *)
Theorem history_risk_decay :
  (forall (σ : store) (df0 : loc) (d : DataFrame), σ !! df0 = Some d ->
     exists d',
       engineer_features df0 σ = (Ok (fresh (dom σ)), <[fresh (dom σ) := d']> σ) /\
       forall i r, rows d !! i = Some r ->
         cell d' "history_risk" i =
           Some (F64.of_Z (past_injury r)
                 * np_exp (F64.of_Z (- days_since_injury r) / 60))) /\
  (forall today_data history_df fv,
     build_features today_data history_df = Ok fv ->
     exists df r,
       prepare today_data history_df = Ok df /\ last df = Some r /\
       history_risk fv =
         F64.of_Z (past_injury r) * np_exp (F64.of_Z (- days_since_injury r) / 60)) /\
  (forall r, past_injury r = 1%Z -> days_since_injury r = 0%Z ->
     np_exp 0 = 1 -> history_risk_of r = 1) /\
  (forall r, past_injury r = 1%Z -> days_since_injury r = 60%Z ->
     history_risk_of r = np_exp (-1)) /\
  (forall r, past_injury r = 0%Z ->
     PrimFloat.is_finite (np_exp (F64.of_Z (- days_since_injury r) / 60)) = true ->
     (history_risk_of r =? 0) = true).
Proof.
  split; [|split; [|split; [|split]]].
  - intros σ df0 d H0.
    destruct (engineer_features_run σ df0 d H0) as (d' & Hrun & _ & _ & _ & Hh).
    exists d'. split; [exact Hrun|].
    intros i r Hr. unfold cell. rewrite Hh, map_fmap, list_lookup_fmap, Hr.
    reflexivity.
  - intros today_data history_df fv H. unfold build_features in H.
    destruct (prepare today_data history_df) as [df|e] eqn:Hp; [|discriminate H].
    simpl in H. destruct (latest_features_history df fv H) as (r & Hl & Hr).
    exists df, r. auto.
  - intros r Hp Hd Hexp. unfold history_risk_of. rewrite Hp, Hd.
    change (F64.of_Z (- 0) / 60) with 0. rewrite Hexp. reflexivity.
  - intros r Hp Hd. unfold history_risk_of. rewrite Hp, Hd.
    change (F64.of_Z (- 60) / 60) with (-1). apply float_mul_1_l.
  - intros r Hp Hfin. unfold history_risk_of. rewrite Hp.
    now apply float_mul_0_finite.
Qed.

End HistoryRisk.

(** The decay at concrete records, with the reference exponential. *)
Lemma history_risk_decay_at_examples :
  @history_risk_of Reference.numpy (injured 0) = 1 /\
  @history_risk_of Reference.numpy (injured 60) = Reference.exp (-1) /\
  (@history_risk_of Reference.numpy (day 1 0 300 55 70 0.7) =? 0) = true.
Proof.
  destruct (@history_risk_decay Reference.numpy) as (_ & _ & H1 & H60 & H0).
  split; [|split].
  - apply H1; reflexivity.
  - apply H60; reflexivity.
  - apply H0; [reflexivity|]. vm_compute. reflexivity.
Defined.

(** ** Where the two transforms part *)

(** C1 at a concrete input: sixty steady days and a hard day, the same 61 rows
    for both transforms.  For the newest day the single-day transform returns a
    recovery score below -18 where the batch transform has one above -0.4,
    whatever numpy's functions are; with the reference ones, its log-monotony
    is below 3 where the batch transform has one above 4. *)
Theorem transforms_disagree_on_hard_day {np : Numpy} :
  match incremental_on today_hard, batch_on (steady 60 ++ [today_hard]) with
  | Ok fv, Ok d' =>
      match cell d' "recovery_score" 60 with
      | Some r => (recovery_score fv <? -18) && (-0.4 <? r)
      | None => false
      end
  | _, _ => false
  end = true /\
  match @incremental_on Reference.numpy today_hard,
        @batch_on Reference.numpy (steady 60 ++ [today_hard]) with
  | Ok fv, Ok d' =>
      match cell d' "training_monotony_log" 60 with
      | Some m => (training_monotony_log fv <? 3) && (4 <? m)
      | None => false
      end
  | _, _ => false
  end = true.
Proof. split; vm_compute; reflexivity. Qed.

(** C3 at a concrete input: two frames with the same records of athlete 1, and
    a resting heart rate of athlete 2 of 50 in one and 100 in the other.  The
    recovery score the batch transform gives to the first row of athlete 1 is
    not the same in both: the maxima are those of the whole frame. *)
Theorem recovery_score_mixes_athletes {np : Numpy} :
  firstn 2 (two_athletes 50) = firstn 2 (two_athletes 100) /\
  match batch_on (two_athletes 50), batch_on (two_athletes 100) with
  | Ok a, Ok b =>
      match cell a "recovery_score" 0, cell b "recovery_score" 0 with
      | Some x, Some y => (x <? 0.06) && (0.14 <? y)
      | _, _ => false
      end
  | _, _ => false
  end = true.
Proof. split; [reflexivity|vm_compute; reflexivity]. Qed.

(** C4 at a concrete input: an athlete whose HRV is 70 on each of 61 days.  The
    z-score of the single-day transform divides by a standard deviation of 0
    with nothing added: every z-score is NaN, and so are the [hrv_drop] and the
    [recovery_score] that are returned.  The batch transform, which adds 1e-6,
    has a z-score of 0 on the same rows.  (A series of one record has no sample
    standard deviation: there the z-score of the batch transform is NaN as
    well.) *)
Theorem incremental_zscore_undefined_on_constant_hrv {np : Numpy} :
  let df := steady 60 ++ [today_same] in
  forallb F64.isna
    (groupby_transform zscore (List.map athlete_id df) (List.map hrv df)) = true /\
  match incremental_on today_same, batch_on df with
  | Ok fv, Ok d' =>
      match cell d' "hrv_z" 60 with
      | Some z => F64.isna (hrv_drop fv) && F64.isna (recovery_score fv) && (z =? 0)
      | None => false
      end
  | _, _ => false
  end = true /\
  match batch_on (steady 1) with
  | Ok d' =>
      match cell d' "hrv_z" 0 with
      | Some z => F64.isna z
      | None => false
      end
  | Raise _ => false
  end = true.
Proof. repeat split; vm_compute; reflexivity. Qed.

(** ** Concrete instances *)

(** C9, as the specification words it, fails: a history in descending date
    order that repeats a date is accepted, and gives the features of the same
    history in ascending order. *)
Lemma build_features_accepts_unordered :
  List.map date (firstn 3 unordered_history) = [58; 57; 56]%Z /\
  List.map date (skipn 58 unordered_history) = [0; 0]%Z /\
  is_ok (@build_features Reference.numpy today_hard unordered_history) = true /\
  @build_features Reference.numpy today_hard unordered_history =
  @build_features Reference.numpy today_hard (rev unordered_history).
Proof. repeat split; vm_compute; reflexivity. Qed.

Lemma steady_sorted :
  StronglySorted (fun a b => (date a < date b)%Z) (rows (raw (steady 10))).
Proof.
  simpl. repeat (apply SSorted_cons; [|repeat constructor]). apply SSorted_nil.
Qed.

(** The split of ten steady days: eight for training, two for testing. *)
Lemma athlete_split_of_ten_days :
  exists train test,
    athlete_split (raw (steady 10)) = Some (train, test) /\
    len train = 8%nat /\ len test = 2%nat.
Proof.
  destruct (athlete_split_temporal (raw (steady 10)) steady_sorted)
    as (train & test & Hsplit & _ & _ & Htrain & Htest & _).
  - reflexivity.
  - exists train, test. repeat split; assumption.
Defined.

(** The score of the first row of the example frame. *)
Lemma compute_risk_score_on_example :
  let σ : store := {[ 1%positive := engineered_example ]} in
  exists d',
    compute_risk_score 1%positive σ = (Ok (fresh (dom σ)), <[fresh (dom σ) := d']> σ) /\
    cell d' "risk_score" 0 =
      Some (risk_score_spec [5.5; 5.75; 6; 5.25] [-0; 0.5; -0.25; -0.5]
              [2; 3; 2.5; 4] [0.25; 0.5; 0.125; 0] 5.5 0 2 0.25 0).
Proof.
  intros σ.
  destruct (compute_risk_score_formula σ 1%positive engineered_example
              [5.5; 5.75; 6; 5.25] [0; -0.5; 0.25; 0.5] [2; 3; 2.5; 4]
              [0.25; 0.5; 0.125; 0] [0; 0; 1; 0.5])
    as (d' & Hrun & _ & Hcell & _); try (vm_compute; reflexivity).
  exists d'. split; [exact Hrun|].
  apply (Hcell 0%nat); reflexivity.
Defined.

(** * Further properties *)

(** ** Missing values and finite values in binary64 arithmetic *)

Lemma SFeqb_refl (a : spec_float) : SFeqb a a = negb (if a is S754_nan then true else false).
Proof.
  unfold SFeqb. rewrite SFcompare_key.
  destruct (sf_key a) as [k|] eqn:E.
  - rewrite key_compare_refl. now destruct a.
  - destruct a as [s|s| |s m e]; try destruct s; try discriminate E. reflexivity.
Qed.

Lemma isna_Prim2SF (x : float) : F64.isna x = true <-> Prim2SF x = S754_nan.
Proof.
  unfold F64.isna, PrimFloat.is_nan. rewrite FloatAxioms.eqb_spec, SFeqb_refl.
  destruct (Prim2SF x); simpl; split; congruence.
Qed.

Lemma isna_add_l (x y : float) : F64.isna x = true -> F64.isna (x + y) = true.
Proof.
  rewrite !isna_Prim2SF, FloatAxioms.add_spec. intros ->. reflexivity.
Qed.

Lemma isna_add_r (x y : float) : F64.isna y = true -> F64.isna (x + y) = true.
Proof.
  rewrite !isna_Prim2SF, FloatAxioms.add_spec. intros ->.
  now destruct (Prim2SF x).
Qed.

Lemma isna_sub_l (x y : float) : F64.isna x = true -> F64.isna (x - y) = true.
Proof.
  rewrite !isna_Prim2SF, FloatAxioms.sub_spec. intros ->. reflexivity.
Qed.

Lemma isna_sub_r (x y : float) : F64.isna y = true -> F64.isna (x - y) = true.
Proof.
  rewrite !isna_Prim2SF, FloatAxioms.sub_spec. intros ->.
  now destruct (Prim2SF x).
Qed.

Lemma isna_mul_r (x y : float) : F64.isna y = true -> F64.isna (x * y) = true.
Proof.
  rewrite !isna_Prim2SF, FloatAxioms.mul_spec. intros ->.
  now destruct (Prim2SF x).
Qed.

Lemma isna_div_l (x y : float) : F64.isna x = true -> F64.isna (x / y) = true.
Proof.
  rewrite !isna_Prim2SF, FloatAxioms.div_spec. intros ->. reflexivity.
Qed.

Lemma isna_div_r (x y : float) : F64.isna y = true -> F64.isna (x / y) = true.
Proof.
  rewrite !isna_Prim2SF, FloatAxioms.div_spec. intros ->.
  now destruct (Prim2SF x).
Qed.

Lemma isna_opp (x : float) : F64.isna x = true -> F64.isna (- x) = true.
Proof.
  rewrite !isna_Prim2SF, FloatAxioms.opp_spec. intros ->. reflexivity.
Qed.

(** A finite number is a zero or has a mantissa and an exponent. *)
Lemma is_finite_Prim2SF (x : float) :
  PrimFloat.is_finite x = true <->
  match Prim2SF x with
  | S754_zero _ | S754_finite _ _ _ => True
  | S754_infinity _ | S754_nan => False
  end.
Proof.
  unfold PrimFloat.is_finite, PrimFloat.is_nan, PrimFloat.is_infinity.
  rewrite !FloatAxioms.eqb_spec, FloatAxioms.abs_spec, SFeqb_refl.
  change (Prim2SF infinity) with (S754_infinity false).
  destruct (Prim2SF x) as [s|s| |s m e]; simpl; try (split; [discriminate|tauto]);
    try (split; [auto|reflexivity]).
Qed.

Lemma is_finite_notna (x : float) : PrimFloat.is_finite x = true -> F64.isna x = false.
Proof.
  intros H. apply is_finite_Prim2SF in H.
  destruct (F64.isna x) eqn:E; [|reflexivity].
  apply isna_Prim2SF in E. rewrite E in H. destruct H.
Qed.

Lemma is_finite_opp (x : float) :
  PrimFloat.is_finite x = true -> PrimFloat.is_finite (- x) = true.
Proof.
  rewrite !is_finite_Prim2SF, FloatAxioms.opp_spec.
  now destruct (Prim2SF x).
Qed.

(** A finite number minus itself is +0. *)
Lemma float_sub_diag (x : float) : PrimFloat.is_finite x = true -> x - x = 0.
Proof.
  intros H. apply is_finite_Prim2SF in H.
  apply Prim2SF_inj. rewrite FloatAxioms.sub_spec.
  change (Prim2SF 0) with (S754_zero false).
  destruct (Prim2SF x) as [s|s| |s m e]; try destruct H.
  - now destruct s.
  - unfold SF64sub, SFsub. rewrite Z.sub_diag. reflexivity.
Qed.
(** ** [minmax] on missing values and on constant columns *)

Lemma isna_eq_nan (x : float) : F64.isna x = true -> x = F64.nan.
Proof. intros H. apply Prim2SF_inj. now apply isna_Prim2SF in H. Qed.

Lemma dropna_idem (xs : list float) : F64.dropna (F64.dropna xs) = F64.dropna xs.
Proof.
  unfold F64.dropna. induction xs as [|x r IH]; simpl; [reflexivity|].
  destruct (negb (F64.isna x)) eqn:E; simpl; rewrite ?E, IH; reflexivity.
Qed.

Lemma min_dropna (xs : list float) : F64.min (F64.dropna xs) = F64.min xs.
Proof. unfold F64.min. now rewrite dropna_idem. Qed.

Lemma max_dropna (xs : list float) : F64.max (F64.dropna xs) = F64.max xs.
Proof. unfold F64.max. now rewrite dropna_idem. Qed.

Lemma length_minmax (series : list float) : length (minmax series) = length series.
Proof. unfold minmax. apply List.length_map. Qed.

(** X1: [minmax] keeps the length of the series; its minimum and maximum are
    those of the observations alone, so a missing value changes no other cell;
    and a missing cell stays missing. *)
Theorem minmax_skips_missing (series : list float) :
  length (minmax series) = length series /\
  (forall i x, series !! i = Some x ->
     minmax series !! i = Some (minmax_spec (F64.dropna series) x)) /\
  (forall i x, series !! i = Some x -> F64.isna x = true ->
     minmax series !! i = Some F64.nan).
Proof.
  split; [apply length_minmax|]. split.
  - intros i x Hx. rewrite (minmax_lookup _ _ _ Hx). unfold minmax_spec.
    now rewrite min_dropna, max_dropna.
  - intros i x Hx Hna. rewrite (minmax_lookup _ _ _ Hx). f_equal.
    apply isna_eq_nan. unfold minmax_spec. now apply isna_div_l, isna_sub_l.
Qed.

Lemma fmin_diag (x : float) : F64.fmin x x = x.
Proof. unfold F64.fmin. now destruct (x <? x). Qed.

Lemma fmax_diag (x : float) : F64.fmax x x = x.
Proof. unfold F64.fmax. now destruct (x <? x). Qed.

Lemma fold_fmin_const (r : list float) (x : float) :
  (forall y, In y r -> y = x) -> fold_left F64.fmin r x = x.
Proof.
  induction r as [|z r IH]; intros H; simpl; [reflexivity|].
  rewrite (H z) by now left. rewrite fmin_diag. apply IH. intros y Hy. apply H. now right.
Qed.

Lemma fold_fmax_const (r : list float) (x : float) :
  (forall y, In y r -> y = x) -> fold_left F64.fmax r x = x.
Proof.
  induction r as [|z r IH]; intros H; simpl; [reflexivity|].
  rewrite (H z) by now left. rewrite fmax_diag. apply IH. intros y Hy. apply H. now right.
Qed.

(** The extrema of a series whose observations are all [x]. *)
Lemma min_max_const (series : list float) (x : float) :
  (forall y, In y series -> F64.isna y = false -> y = x) ->
  (F64.min series = F64.nan /\ F64.max series = F64.nan /\ F64.dropna series = []) \/
  (F64.min series = x /\ F64.max series = x).
Proof.
  intros H. unfold F64.min, F64.max.
  assert (forall y, In y (F64.dropna series) -> y = x) as Hobs.
  { intros y Hy. apply H; [|now apply (dropna_notna series)].
    unfold F64.dropna in Hy. now apply filter_In in Hy as [Hy _]. }
  destruct (F64.dropna series) as [|z r]; [now left|right].
  rewrite (Hobs z) by now left.
  split; [apply fold_fmin_const|apply fold_fmax_const];
    intros y Hy; apply Hobs; now right.
Qed.

Lemma minmax_const_cell (x : float) :
  PrimFloat.is_finite x = true -> minmax_spec [x] x = 0.
Proof.
  intros Hx. unfold minmax_spec, F64.min, F64.max, F64.dropna. simpl.
  rewrite (is_finite_notna x Hx). simpl. rewrite (float_sub_diag x Hx). reflexivity.
Qed.

(** X2: on a series whose observations all have the same finite value (a
    single row, or a flat column) the range is zero and the epsilon takes over:
    every observed cell becomes 0 and every missing cell stays missing. *)
Theorem minmax_constant (series : list float) (x : float) :
  PrimFloat.is_finite x = true ->
  (forall y, In y series -> F64.isna y = false -> y = x) ->
  minmax series = List.map (fun y => if F64.isna y then F64.nan else 0) series.
Proof.
  intros Hx H. unfold minmax. apply List.map_ext_in. intros y Hy.
  destruct (F64.isna y) eqn:E.
  - apply isna_eq_nan. now apply isna_div_l, isna_sub_l.
  - rewrite (H y Hy E).
    destruct (min_max_const series x H) as [(_ & _ & Hnil)|[-> ->]].
    + exfalso. assert (In y (F64.dropna series)) as Hin.
      { unfold F64.dropna. apply filter_In. split; [assumption|]. now rewrite E. }
      rewrite Hnil in Hin. destruct Hin.
    + rewrite (float_sub_diag x Hx). reflexivity.
Qed.

Lemma minmax_constant_on_example :
  PrimFloat.is_finite 5 = true /\
  (forall y, In y [5; F64.nan; 5] -> F64.isna y = false -> y = 5) /\
  minmax [5; F64.nan; 5] = [0; F64.nan; 0].
Proof.
  assert (forall y, In y [5; F64.nan; 5] -> F64.isna y = false -> y = 5) as H.
  { intros y [<-|[<-|[<-|[]]]] Hy; try reflexivity. discriminate Hy. }
  split; [reflexivity|]. split; [exact H|].
  exact (minmax_constant [5; F64.nan; 5] 5 eq_refl H).
Defined.

(** ** The zones are ordered *)

Lemma float_leb_ltb_trans (x y z : float) :
  (x <=? y) = true -> (y <? z) = true -> (x <? z) = true.
Proof.
  rewrite FloatAxioms.leb_spec, !FloatAxioms.ltb_spec. unfold SFleb, SFltb.
  rewrite !SFcompare_key.
  destruct (sf_key (Prim2SF x)) as [kx|]; [|discriminate].
  destruct (sf_key (Prim2SF y)) as [ky|]; [|discriminate].
  destruct (sf_key (Prim2SF z)) as [kz|]; [|discriminate].
  intros H1 H2.
  assert (key_compare kx ky <> Gt) as H1' by (destruct (key_compare kx ky); congruence).
  assert (key_compare ky kz = Lt) as H2' by (destruct (key_compare ky kz); congruence).
  destruct (key_compare kx kz) eqn:E; try reflexivity; exfalso.
  - assert (key_compare kz kx <> Gt) as H3
      by (rewrite key_compare_antisym, E; discriminate).
    pose proof (key_compare_le_trans kz kx ky H3 H1') as H4.
    rewrite key_compare_antisym, H2' in H4. now apply H4.
  - assert (key_compare kz kx <> Gt) as H3
      by (rewrite key_compare_antisym, E; discriminate).
    pose proof (key_compare_le_trans kz kx ky H3 H1') as H4.
    rewrite key_compare_antisym, H2' in H4. now apply H4.
Qed.

Lemma float_leb_notna (x y : float) :
  (x <=? y) = true -> F64.isna x = false /\ F64.isna y = false.
Proof.
  rewrite FloatAxioms.leb_spec. unfold SFleb.
  intros H. split.
  - destruct (F64.isna x) eqn:E; [|reflexivity].
    apply isna_Prim2SF in E. rewrite E in H. discriminate H.
  - destruct (F64.isna y) eqn:E; [|reflexivity].
    apply isna_Prim2SF in E. rewrite E in H. now destruct (Prim2SF x).
Qed.

(** X3: the zones follow the order of the scores: of two scores, the greater
    one is never in a lower zone ("Safe" below "Moderate" below "High"). *)
Theorem classify_risk_monotone (s1 s2 : float) :
  (s1 <=? s2) = true ->
  (classify_risk s2 = "Safe" -> classify_risk s1 = "Safe") /\
  (classify_risk s1 = "High" -> classify_risk s2 = "High") /\
  classify_risk s1 <> "Unknown" /\ classify_risk s2 <> "Unknown".
Proof.
  intros Hle. destruct (float_leb_notna s1 s2 Hle) as [H1 H2].
  unfold classify_risk. rewrite H1, H2.
  pose proof (float_leb_ltb_trans s1 s2 0.4 Hle) as T4.
  pose proof (float_leb_ltb_trans s1 s2 0.9 Hle) as T9.
  destruct (s2 <? 0.4) eqn:E4, (s2 <? 0.9) eqn:E9;
    rewrite ?T4, ?T9 by reflexivity;
    destruct (s1 <? 0.4), (s1 <? 0.9);
    repeat split; intros; try discriminate; try reflexivity;
    try (specialize (T4 eq_refl); discriminate);
    try (specialize (T9 eq_refl); discriminate).
Qed.

Lemma classify_risk_monotone_on_example :
  (0.25 <=? 0.95) = true /\
  (classify_risk 0.95 = "Safe" -> classify_risk 0.25 = "Safe") /\
  (classify_risk 0.25 = "High" -> classify_risk 0.95 = "High") /\
  classify_risk 0.25 <> "Unknown" /\ classify_risk 0.95 <> "Unknown".
Proof.
  split; [reflexivity|]. exact (classify_risk_monotone 0.25 0.95 eq_refl).
Defined.
(** ** The risk score, run *)

Lemma compute_risk_score_run (σ : store) (df0 : loc) (d : DataFrame)
    (l7 hd tm rs hr : list float) :
  σ !! df0 = Some d ->
  getitem d "load_7d" = Ok l7 ->
  getitem d "hrv_drop" = Ok hd ->
  getitem d "training_monotony_log" = Ok tm ->
  getitem d "recovery_score" = Ok rs ->
  getitem d "history_risk" = Ok hr ->
  compute_risk_score df0 σ =
    (Ok (fresh (dom σ)),
     <[fresh (dom σ) :=
         setitem d "risk_score"
           (FloatCol (weighted_sum (minmax l7) (minmax (List.map PrimFloat.opp hd))
                        (minmax tm) (List.map (fun x => 1 - x) (minmax rs)) hr))]> σ).
Proof.
  intros H0 H1 H2 H3 H4 H5. unfold compute_risk_score.
  rewrite (run_bind _ _ _ _ _ (run_copy _ _ _ H0)).
  repeat run_step. reflexivity.
Qed.

Lemma run_getitem_missing (σ : store) (l : loc) (d : DataFrame) (name : string) :
  derived d !! name = None ->
  df_getitem l name (<[l := d]> σ) = (Raise (KeyError name), <[l := d]> σ).
Proof.
  intros H. unfold df_getitem. rewrite (run_bind _ _ _ _ _ (run_read σ l d)).
  unfold lift, getitem. now rewrite H.
Qed.

Lemma run_raise {A B : Type} (m : M A) (k : A -> M B) (σ σ' : store) (e : exn) :
  m σ = (Raise e, σ') -> (m ≫= k) σ = (Raise e, σ').
Proof. intros H. unfold mbind, M_bind. now rewrite H. Qed.

(** X4: [compute_risk_score] needs the five completed feature columns.  When
    one of them is absent from the frame, the call ends with the [KeyError] of
    the first absent one, in the order load_7d, hrv_drop,
    training_monotony_log, recovery_score, history_risk: so does every call on
    a frame that has not been through [engineer_features]. *)
Theorem compute_risk_score_missing_column (σ : store) (df0 : loc) (d : DataFrame)
    (before after : list string) (name : string) :
  σ !! df0 = Some d ->
  scored_columns = before ++ name :: after ->
  (forall n, In n before -> exists xs, getitem d n = Ok xs) ->
  derived d !! name = None ->
  (compute_risk_score df0 σ).1 = Raise (KeyError name).
Proof.
  intros H0 Hsplit Hbefore Hname. unfold compute_risk_score.
  rewrite (run_bind _ _ _ _ _ (run_copy _ _ _ H0)).
  unfold scored_columns in Hsplit.
  repeat (destruct before as [|? before];
          [ injection Hsplit as <- _;
            erewrite run_raise; [reflexivity|];
            now apply run_getitem_missing
          | injection Hsplit as <- Hsplit;
            let xs := fresh "xs" in let Hxs := fresh "Hxs" in
            destruct (Hbefore _ (or_introl eq_refl)) as [xs Hxs];
            specialize (fun n Hn => Hbefore n (or_intror Hn));
            run_step ]).
  destruct before; discriminate Hsplit.
Qed.

Lemma compute_risk_score_on_raw_frame :
  let σ : store := {[ 1%positive := raw (two_athletes 50) ]} in
  (compute_risk_score 1%positive σ).1 = Raise (KeyError "load_7d").
Proof.
  intros σ.
  apply (compute_risk_score_missing_column σ 1%positive (raw (two_athletes 50))
           [] ["hrv_drop"; "training_monotony_log"; "recovery_score"; "history_risk"]).
  - reflexivity.
  - reflexivity.
  - intros n [].
  - reflexivity.
Defined.
(** ** The batch transform, every column *)

Lemma fill_names_columns (d : DataFrame) (names : list string) :
  List.NoDup names ->
  (forall name, In name names -> exists xs, getitem d name = Ok xs) ->
  exists d',
    foldr (fun name acc =>
             out ← acc;
             xs ← getitem d name;
             mret (setitem out name
                     (FloatCol (groupby_transform (fun g => bfill (ffill g))
                                  (List.map athlete_id (rows d)) xs))))
          (Ok d) names = Ok d' /\
    rows d' = rows d /\
    (forall name, ~ In name names -> derived d' !! name = derived d !! name) /\
    (forall name xs, In name names -> getitem d name = Ok xs ->
       getitem d' name =
         Ok (groupby_transform (fun g => bfill (ffill g))
               (List.map athlete_id (rows d)) xs)).
Proof.
  induction names as [|n r IH]; intros Hnd Hall; simpl.
  - exists d. repeat split; auto. intros name xs [].
  - inversion Hnd as [|? ? Hn Hr]; subst.
    destruct IH as (d' & -> & Hrows & Hother & Hin); [assumption| |].
    { intros name Hname. apply Hall. now right. }
    destruct (Hall n) as [xs Hxs]; [now left|].
    simpl. rewrite Hxs. simpl. eexists. split; [reflexivity|].
    split; [exact Hrows|]. split.
    + intros name Hname. simpl.
      rewrite lookup_insert_ne by (intros ->; apply Hname; now left).
      apply Hother. intros Hi. apply Hname. now right.
    + intros name ys [<-|Hname] Hys.
      * rewrite getitem_setitem_eq. congruence.
      * rewrite getitem_setitem_ne by (intros ->; contradiction).
        now apply Hin.
Qed.

Section BatchAllColumns.
Context {np : Numpy}.

(** Every column of the frame [engineer_features] returns, from the telemetry
    of its argument. *)
Lemma engineer_features_columns (σ : store) (df0 : loc) (d : DataFrame) :
  σ !! df0 = Some d ->
  let athlete := List.map athlete_id (rows d) in
  let fill := groupby_transform (fun g => bfill (ffill g)) athlete in
  let load_log := List.map np_log1p (List.map daily_load (rows d)) in
  let hrv_z := groupby_transform zscore_eps athlete (List.map hrv (rows d)) in
  let l7 := groupby_transform (rolling_mean 7 3) athlete load_log in
  let l14 := groupby_transform (rolling_mean 14 5) athlete load_log in
  let hrv_7d_mean := groupby_transform (rolling_mean 7 3) athlete hrv_z in
  let hrv_drop := zipf PrimFloat.sub hrv_z hrv_7d_mean in
  let load_7d_std := groupby_transform (rolling_std 7 3) athlete l7 in
  let mono := zipf PrimFloat.div l7 (List.map (fun s => s + 1e-6) load_7d_std) in
  let strain := zipf PrimFloat.mul l7 mono in
  exists d',
    engineer_features df0 σ = (Ok (fresh (dom σ)), <[fresh (dom σ) := d']> σ) /\
    rows d' = rows d /\
    getitem d' "daily_load_log" = Ok load_log /\
    getitem d' "hrv_z" = Ok hrv_z /\
    getitem d' "recovery_score" =
      Ok (recovery_score_batch (List.map sleep_quality (rows d)) hrv_z
            (List.map resting_hr (rows d))) /\
    getitem d' "history_risk" = Ok (List.map history_risk_of (rows d)) /\
    getitem d' "load_7d" = Ok (fill l7) /\
    getitem d' "load_14d" = Ok (fill l14) /\
    getitem d' "hrv_7d_mean" = Ok (fill hrv_7d_mean) /\
    getitem d' "hrv_drop" = Ok (fill hrv_drop) /\
    getitem d' "training_monotony" = Ok (fill mono) /\
    getitem d' "training_strain" = Ok (fill strain) /\
    getitem d' "training_monotony_log" = Ok (fill (List.map np_log1p mono)) /\
    getitem d' "training_strain_log" = Ok (fill (List.map np_log1p strain)).
Proof.
  intros H0 athlete fill load_log hrv_z l7 l14 hrv_7d_mean hrv_drop load_7d_std
    mono strain.
  unfold engineer_features.
  rewrite (run_bind _ _ _ _ _ (run_copy _ _ _ H0)).
  repeat run_step.
  match goal with |- context [fill_rolling ?D] => set (D0 := D) end.
  assert (rows D0 = rows d) as HD0 by apply rows_set_date_to_datetime.
  destruct (fill_names_columns D0 rolling_features) as (d' & Hfill & Hrows & Hother & Hin).
  { unfold rolling_features.
    repeat (constructor; [simpl; intuition discriminate|]). constructor. }
  { intros name Hname. unfold rolling_features in Hname. simpl in Hname.
    repeat (destruct Hname as [<-|Hname];
            [eexists; unfold D0; getitem_solve; reflexivity|]).
    destruct Hname. }
  unfold fill_rolling. rewrite Hfill.
  erewrite run_bind; [|reflexivity].
  run_step.
  exists d'. split; [reflexivity|]. split; [congruence|].
  assert (forall name, ~ In name rolling_features ->
            getitem d' name = getitem D0 name) as Hget.
  { intros name Hname. apply getitem_ext. now apply Hother. }
  rewrite HD0 in Hin. fold athlete in Hin. fold fill in Hin.
  repeat split;
    first [ rewrite Hget by (simpl; intuition discriminate)
          | erewrite Hin;
            [| unfold rolling_features; simpl; tauto
             | unfold D0; getitem_solve; reflexivity ] ];
    unfold D0, fill, strain, mono, load_7d_std, hrv_drop, hrv_7d_mean, l14, l7, hrv_z,
      load_log, athlete;
    repeat first [ rewrite getitem_setitem_eq
                 | rewrite getitem_setitem_ne by discriminate ];
    cbn [rows setitem]; now rewrite !rows_set_date_to_datetime.
Qed.

End BatchAllColumns.
(** ** Forward and backward fill *)

Lemma length_ffill_from (l : float) (xs : list float) :
  length (ffill_from l xs) = length xs.
Proof. revert l. induction xs as [|x r IH]; intros l; simpl; [reflexivity|]. now rewrite IH. Qed.

Lemma length_bfill_ffill (xs : list float) : length (bfill (ffill xs)) = length xs.
Proof.
  unfold bfill, ffill. now rewrite length_rev, length_ffill_from, length_rev, length_ffill_from.
Qed.

(** Filling keeps every observation where it is. *)
Lemma ffill_from_obs (l : float) (xs : list float) (i : nat) (x : float) :
  xs !! i = Some x -> F64.isna x = false -> ffill_from l xs !! i = Some x.
Proof.
  revert l i. induction xs as [|y r IH]; intros l i Hx Hna; [discriminate Hx|].
  destruct i as [|i]; simpl in *.
  - injection Hx as ->. now rewrite Hna.
  - now apply IH.
Qed.

(** Once a value is carried, no cell is left missing. *)
Lemma ffill_from_carried (l : float) (xs : list float) :
  F64.isna l = false -> Forall (fun y => F64.isna y = false) (ffill_from l xs).
Proof.
  revert l. induction xs as [|y r IH]; intros l Hl; simpl; constructor.
  - destruct (F64.isna y) eqn:E; assumption.
  - apply IH. destruct (F64.isna y) eqn:E; assumption.
Qed.

(** Without an observation and without a carried value, every cell stays
    missing. *)
Lemma ffill_from_all_missing (l : float) (xs : list float) :
  F64.isna l = true -> Forall (fun y => F64.isna y = true) xs ->
  Forall (fun y => F64.isna y = true) (ffill_from l xs).
Proof.
  intros Hl H. revert l Hl. induction H as [|y r Hy Hr IH]; intros l Hl; simpl; constructor.
  - now rewrite Hy.
  - apply IH. now rewrite Hy.
Qed.

(** A forward fill ends on an observation as soon as the series has one. *)
Lemma ffill_from_last (l : float) (xs : list float) (x : float) :
  In x xs -> F64.isna x = false ->
  exists y, last (ffill_from l xs) = Some y /\ F64.isna y = false.
Proof.
  intros Hin Hx. revert l. induction xs as [|z r IH]; intros l; [destruct Hin|].
  simpl. destruct Hin as [->|Hin].
  - rewrite Hx.
    pose proof (ffill_from_carried x r Hx) as Hall.
    destruct (ffill_from x r) as [|w t] eqn:E; [exists x; auto|].
    destruct (last_is_Some (w :: t)) as [_ [y Hy]]; [discriminate|].
    exists y. split; [now rewrite last_cons, Hy|].
    rewrite List.Forall_forall in Hall. apply Hall. rewrite last_lookup in Hy.
    apply list_elem_of_lookup_2 in Hy. now apply list_elem_of_In.
  - destruct (IH Hin (if F64.isna z then l else z)) as (y & Hy & Hna).
    exists y. split; [|assumption]. now rewrite last_cons, Hy.
Qed.

Lemma rev_lookup_obs (xs : list float) (i : nat) (x : float) :
  xs !! i = Some x -> rev xs !! (length xs - S i)%nat = Some x.
Proof.
  intros H. pose proof (lookup_lt_Some _ _ _ H) as Hi.
  rewrite List.rev_alt. change (rev_append xs []) with (reverse xs).
  rewrite reverse_lookup by lia.
  replace (length xs - S (length xs - S i))%nat with i by lia. assumption.
Qed.

Lemma bfill_obs (xs : list float) (i : nat) (x : float) :
  xs !! i = Some x -> F64.isna x = false -> bfill xs !! i = Some x.
Proof.
  intros Hx Hna. unfold bfill, ffill.
  pose proof (lookup_lt_Some _ _ _ Hx) as Hi.
  pose proof (ffill_from_obs F64.nan (rev xs) _ x (rev_lookup_obs xs i x Hx) Hna) as H.
  apply rev_lookup_obs in H. rewrite length_ffill_from, length_rev in H.
  replace (length xs - S (length xs - S i))%nat with i in H by lia. assumption.
Qed.

Lemma bfill_complete (ys : list float) (y : float) :
  last ys = Some y -> F64.isna y = false ->
  Forall (fun v => F64.isna v = false) (bfill ys).
Proof.
  intros Hlast Hy. unfold bfill, ffill. apply List.Forall_rev.
  destruct (rev ys) as [|z r] eqn:E.
  - constructor.
  - assert (z = y) as ->.
    { apply (f_equal (@rev _)) in E. rewrite rev_involutive in E. subst ys.
      simpl in Hlast. rewrite last_snoc in Hlast. congruence. }
    simpl. rewrite Hy. constructor; [assumption|]. now apply ffill_from_carried.
Qed.

Lemma bfill_ffill_all_missing (xs : list float) :
  Forall (fun v => F64.isna v = true) xs ->
  Forall (fun v => F64.isna v = true) (bfill (ffill xs)).
Proof.
  intros Hall. unfold bfill. apply List.Forall_rev.
  apply ffill_from_all_missing; [reflexivity|]. apply List.Forall_rev.
  now apply ffill_from_all_missing.
Qed.

(** X5: what [grp.ffill().bfill()] does to a series: the length stays, every
    observation stays where it is, no cell is left missing as soon as the
    series has one observation, and a series without any observation stays
    missing throughout. *)
Theorem ffill_bfill_completes (xs : list float) :
  length (bfill (ffill xs)) = length xs /\
  (forall i x, xs !! i = Some x -> F64.isna x = false ->
     bfill (ffill xs) !! i = Some x) /\
  (forall x, In x xs -> F64.isna x = false ->
     Forall (fun v => F64.isna v = false) (bfill (ffill xs))) /\
  (Forall (fun v => F64.isna v = true) xs ->
     Forall (fun v => F64.isna v = true) (bfill (ffill xs))).
Proof.
  split; [apply length_bfill_ffill|]. split; [|split].
  - intros i x Hx Hna. apply bfill_obs; [|assumption]. now apply ffill_from_obs.
  - intros x Hin Hna.
    destruct (ffill_from_last F64.nan xs x Hin Hna) as (y & Hy & Hyna).
    now apply (bfill_complete _ y).
  - apply bfill_ffill_all_missing.
Qed.

(** ** Rolling windows *)

Lemma length_rolling (w mp : nat) (agg : list float -> float) (xs : list float) :
  length (rolling w mp agg xs) = length xs.
Proof. unfold rolling. apply length_imap. Qed.

Lemma length_window (w : nat) (xs : list float) (i : nat) :
  (length (window w xs i) <= Nat.min w (length xs))%nat.
Proof. unfold window. rewrite length_skipn, length_firstn. lia. Qed.

Lemma length_dropna (xs : list float) : (length (F64.dropna xs) <= length xs)%nat.
Proof. unfold F64.dropna. apply List.filter_length_le. Qed.

Lemma rolling_lookup (w mp : nat) (agg : list float -> float) (xs : list float) (i : nat) :
  (i < length xs)%nat ->
  rolling w mp agg xs !! i =
    Some (let obs := F64.dropna (window w xs i) in
          if (length obs <? mp)%nat then F64.nan else agg obs).
Proof.
  intros Hi. unfold rolling. rewrite list_lookup_imap.
  destruct (lookup_lt_is_Some_2 xs i Hi) as [x ->]. reflexivity.
Qed.

(** A series shorter than [min_periods] has no rolling value at all. *)
Lemma rolling_short (w mp : nat) (agg : list float -> float) (xs : list float) :
  (length xs < mp)%nat ->
  Forall (fun v => F64.isna v = true) (rolling w mp agg xs).
Proof.
  intros Hlen. apply List.Forall_forall. intros v Hv.
  apply list_elem_of_In, list_elem_of_lookup in Hv as [i Hi].
  unfold rolling in Hi. rewrite list_lookup_imap in Hi.
  destruct (xs !! i) as [x|]; [|discriminate Hi]. simpl in Hi.
  pose proof (length_dropna (window w xs i)). pose proof (length_window w xs i).
  destruct (Nat.ltb_spec (length (F64.dropna (window w xs i))) mp) as [_|Hge]; [|lia].
  injection Hi as <-. reflexivity.
Qed.
(** ** Groups *)

Lemma group_values_cons (k' : Z) (v : float) (keys : list Z) (vals : list float) (k : Z) :
  group_values (k' :: keys) (v :: vals) k =
    if Z.eqb k' k then v :: group_values keys vals k else group_values keys vals k.
Proof. unfold group_values. simpl. now destruct (Z.eqb k' k). Qed.

Lemma group_values_map (g : float -> float) (keys : list Z) (vals : list float) (k : Z) :
  group_values keys (List.map g vals) k = List.map g (group_values keys vals k).
Proof.
  revert vals. induction keys as [|k' keys IH]; intros [|v vals]; try reflexivity.
  simpl List.map at 1. rewrite !group_values_cons.
  destruct (Z.eqb k' k); simpl; now rewrite IH.
Qed.

Lemma group_values_rows (proj : TelemetryRecord -> float) (rs : list TelemetryRecord)
    (k : Z) :
  group_values (List.map athlete_id rs) (List.map proj rs) k =
    List.map proj (List.filter (fun r => Z.eqb (athlete_id r) k) rs).
Proof.
  induction rs as [|r rs IH]; [reflexivity|].
  simpl List.map at 1 2. rewrite group_values_cons. simpl.
  destruct (Z.eqb (athlete_id r) k); simpl; now rewrite IH.
Qed.

Lemma group_values_zip (op : float -> float -> float) (keys : list Z)
    (xs ys : list float) (k : Z) :
  length xs = length ys ->
  group_values keys (zip_with op xs ys) k =
    zip_with op (group_values keys xs k) (group_values keys ys k).
Proof.
  revert xs ys. induction keys as [|k' keys IH]; intros [|x xs] [|y ys] Hlen;
    try reflexivity; try discriminate Hlen.
  simpl zip_with at 1. rewrite !group_values_cons.
  injection Hlen as Hlen.
  destruct (Z.eqb k' k); simpl; now rewrite IH.
Qed.

Lemma length_group_values (keys : list Z) (vals : list float) (k : Z) :
  length vals = length keys ->
  length (group_values keys vals k) = length (List.filter (Z.eqb k) keys).
Proof.
  revert vals. induction keys as [|k' keys IH]; intros [|v vals] Hlen;
    try reflexivity; try discriminate Hlen.
  rewrite group_values_cons. simpl. injection Hlen as Hlen.
  rewrite (Z.eqb_sym k k'). destruct (Z.eqb k' k); simpl; now rewrite IH.
Qed.

Lemma map_nth_seq (pre l : list float) :
  List.map (fun j => nth j (pre ++ l) F64.nan) (seq (length pre) (length l)) = l.
Proof.
  revert pre. induction l as [|x l IH]; intros pre; simpl; [reflexivity|].
  rewrite app_nth2 by lia. rewrite Nat.sub_diag. simpl. f_equal.
  specialize (IH (pre ++ [x])). rewrite <- app_assoc, length_app in IH. simpl in IH.
  now rewrite Nat.add_1_r in IH.
Qed.

Lemma group_values_imap (F : Z -> list float) (k : Z) (suf pre : list Z) :
  group_values suf
    (imap (fun i k' => nth (rank_in_group (pre ++ suf) (length pre + i) k') (F k') F64.nan)
          suf) k =
  List.map (fun j => nth j (F k) F64.nan)
    (seq (length (List.filter (Z.eqb k) pre)) (length (List.filter (Z.eqb k) suf))).
Proof.
  revert pre. induction suf as [|x r IH]; intros pre; [reflexivity|].
  cbn [imap]. rewrite group_values_cons.
  assert (imap ((fun i k' =>
             nth (rank_in_group (pre ++ x :: r) (length pre + i) k') (F k') F64.nan) ∘ S) r
          = imap (fun i k' =>
             nth (rank_in_group ((pre ++ [x]) ++ r) (length (pre ++ [x]) + i) k') (F k')
                 F64.nan) r) as ->.
  { apply imap_ext. intros i k' _. simpl.
    rewrite <- app_assoc, length_app. simpl.
    now replace (length pre + 1 + i)%nat with (length pre + S i)%nat by lia. }
  rewrite IH. rewrite List.filter_app, length_app. simpl.
  rewrite (Z.eqb_sym k x).
  destruct (Z.eqb_spec x k) as [->|Hne]; simpl.
  - rewrite Nat.add_0_r. unfold rank_in_group.
    rewrite firstn_app, Nat.sub_diag, firstn_all. simpl. rewrite app_nil_r.
    now rewrite Nat.add_1_r.
  - now rewrite Nat.add_0_r.
Qed.

(** The cells a grouped transform writes at the rows of one group are the
    transform of that group's values. *)
Lemma group_values_transform (f : list float -> list float) (keys : list Z)
    (vals : list float) (k : Z) :
  (forall g, length (f g) = length g) ->
  length vals = length keys ->
  group_values keys (groupby_transform f keys vals) k = f (group_values keys vals k).
Proof.
  intros Hf Hlen. unfold groupby_transform.
  pose proof (group_values_imap (fun k' => f (group_values keys vals k')) k keys []) as H.
  simpl in H. rewrite H.
  rewrite <- (length_group_values keys vals k Hlen), <- (Hf (group_values keys vals k)).
  apply (map_nth_seq []).
Qed.

Lemma groupby_transform_lookup (f : list float -> list float) (keys : list Z)
    (vals : list float) (i : nat) (k : Z) :
  keys !! i = Some k ->
  groupby_transform f keys vals !! i =
    Some (nth (rank_in_group keys i k) (f (group_values keys vals k)) F64.nan).
Proof.
  intros H. unfold groupby_transform. now rewrite list_lookup_imap, H.
Qed.

Ltac len_solve :=
  unfold zipf, rolling_mean, rolling_std, zscore_eps;
  repeat first [ rewrite length_groupby_transform | rewrite length_map
               | rewrite length_zip_with | rewrite length_rolling
               | rewrite length_bfill_ffill ];
  try lia.

Ltac group_solve :=
  repeat first
    [ rewrite group_values_transform by (try (intros ?); len_solve)
    | rewrite group_values_map
    | rewrite group_values_zip by len_solve
    | rewrite group_values_rows ].

Section PerAthlete.
Context {np : Numpy}.

(** X6: apart from the recovery score, what [engineer_features] writes at the
    rows of an athlete is computed from that athlete's rows alone, whatever
    other athletes the frame holds: the z-score of the athlete's HRV, the
    rolling means over the athlete's days, forward and backward filled inside
    the athlete's rows, and the history risk of each row. *)
Theorem engineer_features_per_athlete (σ : store) (df0 : loc) (d : DataFrame) (a : Z) :
  σ !! df0 = Some d ->
  let g := athlete_rows d a in
  let fill := fun xs => bfill (ffill xs) in
  let hrv_z := zscore_eps (List.map hrv g) in
  let l7 := rolling_mean 7 3 (List.map np_log1p (List.map daily_load g)) in
  let mono := zipf PrimFloat.div l7 (List.map (fun s => s + 1e-6) (rolling_std 7 3 l7)) in
  exists d',
    engineer_features df0 σ = (Ok (fresh (dom σ)), <[fresh (dom σ) := d']> σ) /\
    athlete_rows d' a = g /\
    athlete_cells d' "hrv_z" a = Ok hrv_z /\
    athlete_cells d' "load_7d" a = Ok (fill l7) /\
    athlete_cells d' "hrv_drop" a =
      Ok (fill (zipf PrimFloat.sub hrv_z (rolling_mean 7 3 hrv_z))) /\
    athlete_cells d' "training_monotony_log" a = Ok (fill (List.map np_log1p mono)) /\
    athlete_cells d' "history_risk" a = Ok (List.map history_risk_of g).
Proof.
  intros H0 g fill hrv_z l7 mono.
  destruct (engineer_features_columns σ df0 d H0)
    as (d' & Hrun & Hrows & _ & Hz & _ & Hh & H7 & _ & _ & Hd & _ & _ & Hm & _).
  exists d'. split; [exact Hrun|].
  unfold athlete_rows, athlete_cells. rewrite Hrows, Hz, Hh, H7, Hd, Hm.
  split; [reflexivity|].
  unfold g, fill, hrv_z, l7, mono, athlete_rows, zipf.
  cbn [mbind result_bind mret result_ret].
  repeat split; f_equal; group_solve; try reflexivity.
Qed.

End PerAthlete.
(** ** From telemetry to zones *)

Lemma assign_risk_zone_run (σ : store) (df0 : loc) (d : DataFrame)
    (score : list float) :
  σ !! df0 = Some d ->
  getitem d "risk_score" = Ok score ->
  assign_risk_zone df0 σ =
    (Ok (fresh (dom σ)),
     <[fresh (dom σ) := setitem d "risk_zone" (StrCol (List.map classify_risk score))]> σ).
Proof.
  intros H0 H1. unfold assign_risk_zone.
  rewrite (run_bind _ _ _ _ _ (run_copy _ _ _ H0)).
  repeat run_step. reflexivity.
Qed.

Lemma insert_fresh_subseteq (σ : store) (d : DataFrame) :
  σ ⊆ <[fresh (dom σ) := d]> σ.
Proof. apply insert_subseteq, not_elem_of_dom, is_fresh. Qed.

Lemma length_weighted_sum (a b c d e : list float) (n : nat) :
  length a = n -> length b = n -> length c = n -> length d = n -> length e = n ->
  length (weighted_sum a b c d e) = n.
Proof.
  intros. unfold weighted_sum, zipf.
  rewrite !length_zip_with, !length_map. lia.
Qed.

Lemma nth_all_missing (l : list float) (j : nat) :
  Forall (fun v => F64.isna v = true) l -> F64.isna (nth j l F64.nan) = true.
Proof.
  intros H. destruct (nth_in_or_default j l F64.nan) as [Hin| ->]; [|reflexivity].
  rewrite List.Forall_forall in H. now apply H.
Qed.

Lemma weighted_sum_missing (x1 x2 x3 x4 x5 : float) :
  F64.isna x1 || F64.isna x2 || F64.isna x3 || F64.isna x4 || F64.isna x5 = true ->
  F64.isna (0.25 * x1 + 0.25 * x2 + 0.15 * x3 + 0.20 * x4 + 0.15 * x5) = true.
Proof.
  intros H. repeat (apply orb_true_iff in H as [H|H]).
  - do 4 apply isna_add_l. now apply isna_mul_r.
  - do 3 apply isna_add_l. apply isna_add_r. now apply isna_mul_r.
  - do 2 apply isna_add_l. apply isna_add_r. now apply isna_mul_r.
  - apply isna_add_l. apply isna_add_r. now apply isna_mul_r.
  - apply isna_add_r. now apply isna_mul_r.
Qed.

Lemma minmax_spec_missing (scope : list float) (x : float) :
  F64.isna x = true -> F64.isna (minmax_spec scope x) = true.
Proof. intros H. unfold minmax_spec. now apply isna_div_l, isna_sub_l. Qed.

(** The score of a row in which a feature is missing. *)
Lemma risk_score_cell_missing (l7 hd tm rs hr : list float) (i : nat)
    (x1 x2 x3 x4 x5 : float) :
  l7 !! i = Some x1 -> hd !! i = Some x2 -> tm !! i = Some x3 ->
  rs !! i = Some x4 -> hr !! i = Some x5 ->
  F64.isna x1 || F64.isna x2 || F64.isna x3 || F64.isna x4 || F64.isna x5 = true ->
  weighted_sum (minmax l7) (minmax (List.map PrimFloat.opp hd)) (minmax tm)
    (List.map (fun x => 1 - x) (minmax rs)) hr !! i = Some F64.nan.
Proof.
  intros H1 H2 H3 H4 H5 Hna.
  erewrite weighted_sum_lookup.
  - f_equal. apply isna_eq_nan. apply weighted_sum_missing.
    repeat (apply orb_true_iff in Hna as [Hna|Hna]);
      repeat rewrite orb_true_iff.
    + do 4 left. apply minmax_spec_missing, Hna.
    + do 3 left. right. apply minmax_spec_missing, isna_opp, Hna.
    + do 2 left. right. apply minmax_spec_missing, Hna.
    + left. right. apply isna_sub_r, minmax_spec_missing, Hna.
    + right. exact Hna.
  - apply (minmax_lookup _ _ _ H1).
  - apply minmax_lookup. now rewrite map_fmap, list_lookup_fmap, H2.
  - apply (minmax_lookup _ _ _ H3).
  - rewrite map_fmap, list_lookup_fmap, (minmax_lookup _ _ _ H4). reflexivity.
  - exact H5.
Qed.

(** X7: [compute_risk_score] fills nothing in: a row in which one of the five
    features is missing gets a missing risk score. *)
Theorem risk_score_needs_every_feature (σ : store) (df0 : loc) (d : DataFrame)
    (l7 hd tm rs hr : list float) (i : nat) (x1 x2 x3 x4 x5 : float) :
  σ !! df0 = Some d ->
  getitem d "load_7d" = Ok l7 ->
  getitem d "hrv_drop" = Ok hd ->
  getitem d "training_monotony_log" = Ok tm ->
  getitem d "recovery_score" = Ok rs ->
  getitem d "history_risk" = Ok hr ->
  l7 !! i = Some x1 -> hd !! i = Some x2 -> tm !! i = Some x3 ->
  rs !! i = Some x4 -> hr !! i = Some x5 ->
  F64.isna x1 || F64.isna x2 || F64.isna x3 || F64.isna x4 || F64.isna x5 = true ->
  exists d',
    compute_risk_score df0 σ = (Ok (fresh (dom σ)), <[fresh (dom σ) := d']> σ) /\
    cell d' "risk_score" i = Some F64.nan.
Proof.
  intros H0 G1 G2 G3 G4 G5 H1 H2 H3 H4 H5 Hna.
  eexists. split; [apply (compute_risk_score_run σ df0 d _ _ _ _ _ H0 G1 G2 G3 G4 G5)|].
  unfold cell. rewrite getitem_setitem_eq.
  now apply (risk_score_cell_missing l7 hd tm rs hr i x1 x2 x3 x4 x5).
Qed.

Section LabelRows.
Context {np : Numpy}.

(** The three calls of [train_model.py], run one after the other. *)
Lemma label_rows_run (σ : store) (df0 : loc) (d : DataFrame) :
  σ !! df0 = Some d ->
  exists d1 l7 hd tm rs hr l σ',
    engineer_features df0 σ = (Ok (fresh (dom σ)), <[fresh (dom σ) := d1]> σ) /\
    getitem d1 "load_7d" = Ok l7 /\
    getitem d1 "hrv_drop" = Ok hd /\
    getitem d1 "training_monotony_log" = Ok tm /\
    getitem d1 "recovery_score" = Ok rs /\
    getitem d1 "history_risk" = Ok hr /\
    length l7 = len d /\ length hd = len d /\ length tm = len d /\
    length rs = len d /\ length hr = len d /\
    let score :=
      weighted_sum (minmax l7) (minmax (List.map PrimFloat.opp hd)) (minmax tm)
        (List.map (fun x => 1 - x) (minmax rs)) hr in
    label_rows df0 σ = (Ok l, σ') /\
    σ !! l = None /\ σ ⊆ σ' /\
    σ' !! l =
      Some (setitem (setitem d1 "risk_score" (FloatCol score)) "risk_zone"
              (StrCol (List.map classify_risk score))).
Proof.
  intros H0.
  destruct (engineer_features_columns σ df0 d H0)
    as (d1 & Hrun & Hrows & _ & _ & Hr & Hh & H7 & _ & _ & Hd & _ & _ & Hm & _).
  set (σ1 := <[fresh (dom σ) := d1]> σ) in *.
  assert (σ1 !! fresh (dom σ) = Some d1) as H1 by apply lookup_insert_eq.
  pose proof (compute_risk_score_run σ1 _ d1 _ _ _ _ _ H1 H7 Hd Hm Hr Hh) as Hrun2.
  match type of Hrun2 with _ = (_, <[_ := ?D]> _) => set (d2 := D) in * end.
  set (σ2 := <[fresh (dom σ1) := d2]> σ1) in *.
  assert (σ2 !! fresh (dom σ1) = Some d2) as H2 by apply lookup_insert_eq.
  pose proof (assign_risk_zone_run σ2 _ d2 _ H2 (getitem_setitem_eq _ _ _)) as Hrun3.
  do 6 eexists. exists (fresh (dom σ2)). eexists.
  split; [exact Hrun|].
  do 5 (split; [eassumption|]).
  do 5 (split; [unfold len, recovery_score_batch; len_solve|]).
  cbv zeta. split; [|split; [|split]].
  - unfold label_rows.
    rewrite (run_bind _ _ _ _ _ Hrun). rewrite (run_bind _ _ _ _ _ Hrun2).
    exact Hrun3.
  - assert (σ ⊆ σ2) as Hsub.
    { transitivity σ1; apply insert_fresh_subseteq. }
    destruct (σ !! fresh (dom σ2)) as [x|] eqn:E; [|reflexivity].
    exfalso. apply (lookup_weaken _ _ _ _ E) in Hsub.
    pose proof (is_fresh (dom σ2)) as Hf. apply Hf, elem_of_dom. eauto.
  - transitivity σ1; [apply insert_fresh_subseteq|].
    transitivity σ2; apply insert_fresh_subseteq.
  - now rewrite lookup_insert_eq.
Qed.

(** X8: the three calls never fail on a frame of telemetry.  They return a new
    frame with the rows of the argument, one risk score per row and, per row,
    the zone of its score; the frames that existed before are left as they
    were. *)
Theorem label_rows_total (σ : store) (df0 : loc) (d : DataFrame) :
  σ !! df0 = Some d ->
  exists l σ' d' score,
    label_rows df0 σ = (Ok l, σ') /\
    σ !! l = None /\ σ ⊆ σ' /\ σ' !! l = Some d' /\
    rows d' = rows d /\
    getitem d' "risk_score" = Ok score /\
    length score = len d /\
    derived d' !! "risk_zone" = Some (StrCol (List.map classify_risk score)) /\
    forall i, (i < len d)%nat ->
      exists s, cell d' "risk_score" i = Some s /\ zone d' i = Some (classify_risk s).
Proof.
  intros H0.
  destruct (label_rows_run σ df0 d H0)
    as (d1 & l7 & hd & tm & rs & hr & l & σ' & Hrun & _ & _ & _ & _ & _ &
        L1 & L2 & L3 & L4 & L5 & Hlabel & Hnew & Hsub & Hl).
  cbv zeta in Hlabel, Hl.
  match type of Hl with
  | _ = Some (setitem (setitem _ _ (FloatCol ?S)) _ _) => set (score := S) in *
  end.
  assert (length score = len d) as Hlen.
  { apply length_weighted_sum; rewrite ?length_map, ?length_minmax, ?length_map;
      assumption. }
  destruct (engineer_features_columns σ df0 d H0) as (d1' & Hrun' & Hrows & _).
  assert (d1' = d1) as ->.
  { rewrite Hrun in Hrun'. injection Hrun' as Hins.
    apply (f_equal (fun m : store => m !! fresh (dom σ))) in Hins.
    rewrite !lookup_insert_eq in Hins. congruence. }
  exists l, σ'. eexists. exists score.
  split; [exact Hlabel|]. split; [exact Hnew|]. split; [exact Hsub|].
  split; [exact Hl|]. split; [exact Hrows|].
  split; [now rewrite getitem_setitem_ne, getitem_setitem_eq by discriminate|].
  split; [exact Hlen|].
  split; [unfold setitem; simpl; now rewrite lookup_insert_eq|].
  intros i Hi.
  destruct (lookup_lt_is_Some_2 score i) as [s Hs]; [lia|].
  exists s. unfold cell, zone.
  rewrite getitem_setitem_ne, getitem_setitem_eq by discriminate.
  split; [exact Hs|].
  unfold setitem; simpl. rewrite lookup_insert_eq.
  now rewrite map_fmap, list_lookup_fmap, Hs.
Qed.

(** Rolling windows over rolling means. *)
Lemma length_dropna_firstn (k : nat) (xs : list float) :
  (length (F64.dropna (firstn k xs)) <= length (F64.dropna xs))%nat.
Proof.
  rewrite <- (firstn_skipn k xs) at 2. unfold F64.dropna.
  rewrite List.filter_app, length_app. lia.
Qed.

Lemma length_dropna_skipn (k : nat) (xs : list float) :
  (length (F64.dropna (skipn k xs)) <= length (F64.dropna xs))%nat.
Proof.
  rewrite <- (firstn_skipn k xs) at 2. unfold F64.dropna.
  rewrite List.filter_app, length_app. lia.
Qed.

Lemma length_dropna_window (w : nat) (xs : list float) (i : nat) :
  (length (F64.dropna (window w xs i)) <= length (F64.dropna xs))%nat.
Proof.
  unfold window. etransitivity; [apply length_dropna_skipn|apply length_dropna_firstn].
Qed.

(** With [min_periods=3] the first two cells of a rolling series are missing. *)
Lemma length_dropna_rolling (w : nat) (agg : list float -> float) (xs : list float) :
  (length (F64.dropna (rolling w 3 agg xs)) <= length xs - 2)%nat.
Proof.
  assert (forall i, (i < 2)%nat -> (i < length xs)%nat ->
            rolling w 3 agg xs !! i = Some F64.nan) as Hhead.
  { intros i Hi Hlen. rewrite rolling_lookup by assumption. cbv zeta.
    assert (length (F64.dropna (window w xs i)) <= S i)%nat as Hw.
    { etransitivity; [apply length_dropna|]. unfold window.
      rewrite length_skipn, length_firstn. lia. }
    destruct (Nat.ltb_spec (length (F64.dropna (window w xs i))) 3); [reflexivity|lia]. }
  pose proof (length_rolling w 3 agg xs) as Hlen.
  destruct (rolling w 3 agg xs) as [|y0 [|y1 r]] eqn:E.
  - simpl. lia.
  - simpl in Hlen. specialize (Hhead 0%nat ltac:(lia) ltac:(lia)).
    simpl in Hhead. injection Hhead as ->. simpl. lia.
  - simpl in Hlen. pose proof (Hhead 0%nat ltac:(lia) ltac:(lia)) as A.
    pose proof (Hhead 1%nat ltac:(lia) ltac:(lia)) as B.
    simpl in A, B. injection A as ->. injection B as ->.
    change (F64.dropna (F64.nan :: F64.nan :: r)) with (F64.dropna r).
    pose proof (length_dropna r). lia.
Qed.

(** A rolling standard deviation of a rolling mean, both with
    [min_periods=3], needs five days. *)
Lemma rolling_std_of_mean_short (xs : list float) :
  (length xs < 5)%nat ->
  Forall (fun v => F64.isna v = true) (rolling_std 7 3 (rolling_mean 7 3 xs)).
Proof.
  intros Hlen. apply List.Forall_forall. intros v Hv.
  apply list_elem_of_In, list_elem_of_lookup in Hv as [i Hi].
  pose proof (lookup_lt_Some _ _ _ Hi) as Hlt.
  unfold rolling_std in Hi, Hlt.
  rewrite rolling_lookup in Hi by (rewrite length_rolling in Hlt; exact Hlt).
  cbv zeta in Hi.
  pose proof (length_dropna_window 7 (rolling_mean 7 3 xs) i) as H1.
  pose proof (length_dropna_rolling 7 F64.mean xs) as H2.
  fold (rolling_mean 7 3) in H2.
  destruct (Nat.ltb_spec (length (F64.dropna (window 7 (rolling_mean 7 3 xs) i))) 3)
    as [_|Hge]; [|lia].
  injection Hi as <-. reflexivity.
Qed.

Lemma zip_div_missing_r (xs ys : list float) :
  Forall (fun v => F64.isna v = true) ys ->
  Forall (fun v => F64.isna v = true) (zip_with PrimFloat.div xs ys).
Proof.
  intros H. revert xs. induction H as [|y r Hy Hr IH]; intros [|x xs]; simpl;
    constructor; [now apply isna_div_r|apply IH].
Qed.

Lemma map_missing (f : float -> float) (xs : list float) :
  (forall x, F64.isna x = true -> F64.isna (f x) = true) ->
  Forall (fun v => F64.isna v = true) xs ->
  Forall (fun v => F64.isna v = true) (List.map f xs).
Proof.
  intros Hf H. induction H as [|x r Hx Hr IH]; simpl; constructor; auto.
Qed.

(** X9: an athlete with fewer than five rows in the frame gets no label.  The
    rolling standard deviation of [load_7d] needs three seven-row means, the
    first of which exists at the athlete's third row; with fewer than five rows
    the training monotony is missing in every row of the athlete, the fill
    inside the athlete's rows finds nothing to carry, the risk score is missing
    and the zone is "Unknown", whatever the other athletes of the frame.  The
    one assumption is that [log1p] of a missing value is missing, as numpy's
    is. *)
Theorem short_history_is_unknown (σ : store) (df0 : loc) (d : DataFrame) (a : Z) :
  (forall x, F64.isna x = true -> F64.isna (np_log1p x) = true) ->
  σ !! df0 = Some d ->
  (length (athlete_rows d a) < 5)%nat ->
  exists l σ' d',
    label_rows df0 σ = (Ok l, σ') /\ σ' !! l = Some d' /\
    forall i r, rows d !! i = Some r -> athlete_id r = a ->
      cell d' "risk_score" i = Some F64.nan /\ zone d' i = Some "Unknown".
Proof.
  intros Hlog H0 Hshort.
  destruct (label_rows_run σ df0 d H0)
    as (d1 & l7 & hd & tm & rs & hr & l & σ' & Hrun & _ & _ & G3 & _ & _ &
        L1 & L2 & L3 & L4 & L5 & Hlabel & _ & _ & Hl).
  cbv zeta in Hlabel, Hl.
  match type of Hl with
  | _ = Some (setitem (setitem _ _ (FloatCol ?S)) _ _) => set (score := S) in *
  end.
  destruct (engineer_features_columns σ df0 d H0)
    as (d1' & Hrun' & Hrows & _ & _ & _ & _ & _ & _ & _ & _ & _ & _ & Hm & _).
  assert (d1' = d1) as ->.
  { rewrite Hrun in Hrun'. injection Hrun' as Hins.
    apply (f_equal (fun m : store => m !! fresh (dom σ))) in Hins.
    rewrite !lookup_insert_eq in Hins. congruence. }
  rewrite G3 in Hm. injection Hm as Hm.
  exists l, σ'. eexists. split; [exact Hlabel|]. split; [exact Hl|].
  intros i r Hr Ha.
  assert (i < len d)%nat as Hi by (apply lookup_lt_Some in Hr; exact Hr).
  assert (exists x, tm !! i = Some x /\ F64.isna x = true) as (x3 & Hx3 & Hna).
  { rewrite Hm. eexists. split.
    - apply groupby_transform_lookup.
      rewrite map_fmap, list_lookup_fmap, Hr. simpl. now rewrite Ha.
    - apply nth_all_missing, bfill_ffill_all_missing.
      unfold zipf. group_solve.
      apply map_missing; [exact Hlog|].
      apply zip_div_missing_r.
      apply map_missing; [intros x Hx; now apply isna_add_l|].
      apply rolling_std_of_mean_short. rewrite !length_map. exact Hshort. }
  destruct (lookup_lt_is_Some_2 l7 i) as [x1 Hx1]; [lia|].
  destruct (lookup_lt_is_Some_2 hd i) as [x2 Hx2]; [lia|].
  destruct (lookup_lt_is_Some_2 rs i) as [x4 Hx4]; [lia|].
  destruct (lookup_lt_is_Some_2 hr i) as [x5 Hx5]; [lia|].
  assert (score !! i = Some F64.nan) as Hs.
  { apply (risk_score_cell_missing l7 hd tm rs hr i x1 x2 x3 x4 x5); try assumption.
    rewrite Hna. now rewrite !orb_true_r. }
  unfold cell, zone.
  rewrite getitem_setitem_ne, getitem_setitem_eq by discriminate.
  unfold setitem; simpl. rewrite lookup_insert_eq.
  rewrite map_fmap, list_lookup_fmap, Hs. simpl.
  split; reflexivity.
Qed.

End LabelRows.
(** ** The backward fill reaches into later days *)



Section BackFill.
Context {np : Numpy}.


End BackFill.
(** ** Which day the single-day transform answers for *)

Lemma insert_by_last {A : Type} (le : A -> A -> bool) (x t : A) (l : list A) :
  last l = Some t -> le x t = true -> last (insert_by le x l) = Some t.
Proof.
  intros Hl Hx. induction l as [|y r IH]; [discriminate Hl|]. simpl.
  destruct (le x y) eqn:E.
  - now rewrite last_cons, Hl.
  - destruct r as [|z r'].
    + simpl in Hl. congruence.
    + rewrite last_cons in Hl. rewrite last_cons, IH; [reflexivity|].
      destruct (last (z :: r')) eqn:El; [assumption|].
      apply last_None in El. discriminate El.
Qed.

(** A row appended last stays last under the stable sort when no other row
    comes after it. *)
Lemma sort_by_snoc_last {A : Type} (le : A -> A -> bool) (l : list A) (t : A) :
  (forall x, In x l -> le x t = true) -> last (sort_by le (l ++ [t])) = Some t.
Proof.
  intros H. unfold sort_by. rewrite foldr_app. simpl.
  induction l as [|x r IH]; [reflexivity|]. simpl.
  apply insert_by_last.
  - apply IH. intros y Hy. apply H. now right.
  - apply H. now left.
Qed.

Lemma strongly_sorted_last {A : Type} (R : A -> A -> Prop) (l : list A) (t : A) :
  StronglySorted R l -> last l = Some t ->
  forall x, In x l -> x = t \/ R x t.
Proof.
  induction 1 as [|y r Hr IH Hy]; intros Hl x Hx; [destruct Hx|].
  destruct r as [|z r'].
  - simpl in Hl. injection Hl as <-. destruct Hx as [<-|[]]. now left.
  - rewrite last_cons in Hl.
    destruct (last (z :: r')) as [u|] eqn:El;
      [injection Hl as ->|apply last_None in El; discriminate El].
    destruct Hx as [<-|Hx]; [|now apply IH].
    right. rewrite List.Forall_forall in Hy. apply Hy.
    rewrite last_lookup in El. apply list_elem_of_lookup_2 in El.
    now apply list_elem_of_In.
Qed.

Section LatestRow.
Context {np : Numpy}.

(** X11: when no stored row of the athlete is dated after the submitted row,
    the submitted row is the last of the sorted frame and the features that
    come back are those computed at it; its history risk is that of the
    submitted record. *)
Theorem build_features_answers_for_today
    (today_data : TelemetryRecord) (history_df : list TelemetryRecord) :
  let prior :=
    List.filter (fun r => Z.eqb (athlete_id r) (athlete_id today_data)) history_df in
  (length prior <? 60)%nat = false ->
  forallb (fun r => (date r <=? date today_data)%Z) prior = true ->
  exists df fv,
    prepare today_data history_df = Ok df /\
    last df = Some today_data /\
    build_features today_data history_df = Ok fv /\
    history_risk fv = history_risk_of today_data.
Proof.
  intros prior E Hdates.
  destruct (build_features_enough today_data history_df E) as [fv Hfv].
  pose proof (prepare_enough today_data history_df E) as Hprep. fold prior in Hprep.
  eexists. exists fv. split; [exact Hprep|].
  assert (last (sort_by (fun a b => key_le (row_key a) (row_key b))
                  (prior ++ [today_data])) = Some today_data) as Hlast.
  { apply sort_by_snoc_last. intros x Hx.
    rewrite forallb_forall in Hdates. specialize (Hdates x Hx).
    apply filter_In in Hx as [_ Hid]. apply Z.eqb_eq in Hid. apply Z.leb_le in Hdates.
    unfold key_le, row_key. simpl. rewrite Hid, Z.eqb_refl, Z.ltb_irrefl. simpl.
    now apply Z.leb_le. }
  split; [exact Hlast|]. split; [exact Hfv|].
  unfold build_features in Hfv. rewrite Hprep in Hfv.
  change (latest_features
            (sort_by (fun a b => key_le (row_key a) (row_key b)) (prior ++ [today_data]))
          = Ok fv) in Hfv.
  destruct (latest_features_history _ _ Hfv) as (r & Hr & Hh).
  rewrite Hlast in Hr. injection Hr as <-. exact Hh.
Qed.

(** X12: when the stored history of the athlete already holds a row dated
    after the submitted one, the answer is not for the submitted row: the last
    row of the sorted frame is a stored row of the latest date, and the
    features returned are the ones computed at that row. *)
Theorem build_features_answers_for_latest_stored
    (today_data : TelemetryRecord) (history_df : list TelemetryRecord) :
  let prior :=
    List.filter (fun r => Z.eqb (athlete_id r) (athlete_id today_data)) history_df in
  (length prior <? 60)%nat = false ->
  existsb (fun r => (date today_data <? date r)%Z) prior = true ->
  exists df latest fv,
    prepare today_data history_df = Ok df /\
    last df = Some latest /\
    In latest prior /\
    (date today_data < date latest)%Z /\
    (forall r, In r prior -> (date r <= date latest)%Z) /\
    build_features today_data history_df = Ok fv /\
    history_risk fv = history_risk_of latest.
Proof.
  intros prior E Hlater.
  destruct (build_features_enough today_data history_df E) as [fv Hfv].
  pose proof (prepare_enough today_data history_df E) as Hprep. fold prior in Hprep.
  set (le := fun a b => key_le (row_key a) (row_key b)) in *.
  set (df := sort_by le (prior ++ [today_data])) in *.
  assert (latest_features df = Ok fv) as Hfv'.
  { unfold build_features in Hfv. now rewrite Hprep in Hfv. }
  destruct (latest_features_history _ _ Hfv') as (latest & Hlast & Hh).
  assert (StronglySorted (fun a b => le a b = true) df) as Hs.
  { apply Sorted_StronglySorted.
    - intros a b c. apply key_le_trans.
    - apply sort_by_sorted. intros a b. apply key_le_total. }
  assert (forall x, In x df <-> In x (prior ++ [today_data])) as Hin.
  { intros x. split; apply Permutation_in;
      [apply sort_by_perm|symmetry; apply sort_by_perm]. }
  assert (forall x, In x (prior ++ [today_data]) -> athlete_id x = athlete_id today_data)
    as Hid.
  { intros x Hx. apply in_app_or in Hx as [Hx|[<-|[]]]; [|reflexivity].
    apply filter_In in Hx as [_ Hx]. now apply Z.eqb_eq in Hx. }
  assert (In latest df) as Hl.
  { rewrite last_lookup in Hlast. apply list_elem_of_lookup_2 in Hlast.
    now apply list_elem_of_In. }
  assert (forall x, In x (prior ++ [today_data]) -> (date x <= date latest)%Z) as Hmax.
  { intros x Hx.
    destruct (strongly_sorted_last _ _ _ Hs Hlast x (proj2 (Hin x) Hx)) as [->|Hle];
      [lia|].
    unfold le, key_le, row_key in Hle. simpl in Hle.
    rewrite (Hid x Hx), (Hid latest (proj1 (Hin latest) Hl)) in Hle.
    rewrite Z.eqb_refl, Z.ltb_irrefl in Hle. simpl in Hle. now apply Z.leb_le. }
  apply existsb_exists in Hlater as (r & Hr & Hlt). apply Z.ltb_lt in Hlt.
  assert (date today_data < date latest)%Z as Hafter.
  { specialize (Hmax r (in_or_app _ _ _ (or_introl Hr))). lia. }
  exists df, latest, fv.
  split; [exact Hprep|]. split; [exact Hlast|]. split.
  { apply Hin in Hl. apply in_app_or in Hl as [Hl|[<-|[]]]; [exact Hl|lia]. }
  split; [exact Hafter|]. split.
  { intros x Hx. apply Hmax, in_or_app. now left. }
  split; [exact Hfv|exact Hh].
Qed.

End LatestRow.
(** ** The temporal split of rows in any order *)

Lemma argsort_perm (keys : list Z) :
  Permutation (argsort Z.leb keys) (seq 0 (length keys)).
Proof.
  unfold argsort. rewrite <- (map_snd_combine_seq keys 0) at 2.
  apply Permutation_map, sort_by_perm.
Qed.

Lemma reindex_perm {A : Type} (perm : list nat) (xs : list A) :
  Permutation perm (seq 0 (length xs)) -> Permutation (reindex perm xs) xs.
Proof.
  intros H. rewrite <- (reindex_seq xs) at 2. unfold reindex. now rewrite H.
Qed.

Lemma combine_seq_lookup (pre suf : list TelemetryRecord) (p : Z * nat) :
  In p (combine (List.map date suf) (seq (length pre) (length suf))) ->
  exists r, (pre ++ suf) !! snd p = Some r /\ date r = fst p.
Proof.
  revert pre. induction suf as [|x r IH]; intros pre Hp; [destruct Hp|].
  simpl in Hp. destruct Hp as [<-|Hp].
  - exists x. simpl. now rewrite list_lookup_middle.
  - specialize (IH (pre ++ [x])). rewrite length_app, <- app_assoc in IH. simpl in IH.
    rewrite Nat.add_1_r in IH. now apply IH.
Qed.

Lemma reindex_sorted (rs : list TelemetryRecord) (ps : list (Z * nat)) :
  StronglySorted (fun a b : Z * nat => Z.leb (fst a) (fst b) = true) ps ->
  (forall p, In p ps -> exists r, rs !! snd p = Some r /\ date r = fst p) ->
  StronglySorted (fun a b => (date a <= date b)%Z) (reindex (List.map snd ps) rs).
Proof.
  unfold reindex. induction 1 as [|p ps Hps IH Hp]; intros Hinv; simpl; [constructor|].
  destruct (Hinv p (or_introl eq_refl)) as (r & Hr & Hd). rewrite Hr.
  constructor.
  - apply IH. intros q Hq. apply Hinv. now right.
  - apply List.Forall_forall. intros y Hy.
    apply list_elem_of_In, list_elem_of_omap in Hy as (i & Hi & Hy).
    apply list_elem_of_In, in_map_iff in Hi as (q & <- & Hq).
    destruct (Hinv q (or_intror Hq)) as (r' & Hr' & Hd').
    rewrite Hr' in Hy. injection Hy as <-.
    rewrite List.Forall_forall in Hp. specialize (Hp q Hq). apply Z.leb_le in Hp. lia.
Qed.

(** [sort_values("date")] puts the rows of any frame in ascending date order
    and loses none. *)
Lemma sort_values_date_spec (g : DataFrame) :
  Permutation (rows (sort_values_date g)) (rows g) /\
  StronglySorted (fun a b => (date a <= date b)%Z) (rows (sort_values_date g)).
Proof.
  unfold sort_values_date. cbn [rows]. split.
  - apply reindex_perm. rewrite <- (length_map date). apply argsort_perm.
  - unfold argsort. rewrite length_map.
    set (le := fun a b : Z * nat => Z.leb (fst a) (fst b)).
    apply reindex_sorted.
    + apply Sorted_StronglySorted.
      * intros a b c Hab Hbc. unfold le in *. apply Z.leb_le in Hab, Hbc.
        apply Z.leb_le. lia.
      * apply (sort_by_sorted le). intros a b. unfold le.
        destruct (Z.leb_spec (fst a) (fst b)); [now left|right]. apply Z.leb_le. lia.
    + intros p Hp. apply (Permutation_in _ (sort_by_perm le _)) in Hp.
      now apply (combine_seq_lookup [] (rows g)).
Qed.

(** X13: the split of one athlete's rows, whatever their order and whether or
    not dates repeat (fewer than [max_rows] rows): the two parts together are
    the athlete's rows, the train part has [floor(0.8 n)] of them and the test
    part the others, and every train date is at most every test date.  An
    athlete with at least one row always has a test row; the train part is
    empty exactly for an athlete with a single row (or none). *)
Theorem athlete_split_any_order (g : DataFrame) :
  (Z.of_nat (len g) < max_rows)%Z ->
  let n := len g in
  exists train test,
    athlete_split g = Some (train, test) /\
    Permutation (rows train ++ rows test) (rows g) /\
    len train = (8 * n / 10)%nat /\
    len test = (n - 8 * n / 10)%nat /\
    (forall a b, In a (rows train) -> In b (rows test) -> (date a <= date b)%Z) /\
    ((1 <= n)%nat -> (1 <= len test)%nat) /\
    (len train = 0%nat <-> (n <= 1)%nat).
Proof.
  intros Hn n.
  destruct (sort_values_date_spec g) as [Hperm Hsorted].
  assert (len (sort_values_date g) = n) as Hlen
    by (unfold len; now rewrite (Permutation_length Hperm)).
  unfold athlete_split. rewrite Hlen, (split_idx_floor n Hn).
  set (k := (8 * n / 10)%nat).
  exists (iloc_to k (sort_values_date g)), (iloc_from k (sort_values_date g)).
  assert (k <= n)%nat as Hk by (unfold k; apply Nat.Div0.div_le_upper_bound; lia).
  assert (n <= 1 \/ k < n /\ 1 <= k)%nat as Hcases.
  { destruct (Nat.le_gt_cases n 1) as [|Hgt]; [now left|right]. unfold k. split.
    - apply Nat.Div0.div_lt_upper_bound. lia.
    - apply Nat.div_le_lower_bound; lia. }
  assert (n <= 1 -> k = 0)%nat as Hsmall.
  { intros Hle. unfold k. destruct n as [|[|n']]; [reflexivity|reflexivity|lia]. }
  split; [reflexivity|].
  unfold len, iloc_to, iloc_from in *; cbn [rows derived] in *.
  rewrite firstn_skipn, length_firstn, length_skipn, Hlen.
  split; [exact Hperm|]. split; [lia|]. split; [reflexivity|]. split.
  { intros a b Ha Hb.
    exact (strongly_sorted_split _ _ k Hsorted a b Ha Hb). }
  split; [intros; destruct Hcases as [Hc|[Hc _]]; [rewrite Hsmall by assumption|]; lia|].
  split; intros; destruct Hcases as [Hc|[Hc1 Hc2]]; try rewrite Hsmall by assumption; lia.
Qed.
(** ** Scoring a frame whose features do not vary *)

Lemma dropna_replicate (n : nat) (x : float) :
  F64.isna x = false -> F64.dropna (replicate n x) = replicate n x.
Proof.
  intros Hx. unfold F64.dropna. induction n as [|n IH]; simpl; [reflexivity|].
  now rewrite Hx, IH.
Qed.

Lemma minmax_replicate (n : nat) (x : float) :
  PrimFloat.is_finite x = true -> minmax (replicate n x) = replicate n 0.
Proof.
  intros Hx. pose proof (is_finite_notna x Hx) as Hna.
  destruct n as [|n]; [reflexivity|].
  assert (F64.min (replicate (S n) x) = x /\ F64.max (replicate (S n) x) = x) as [Hmin Hmax].
  { unfold F64.min, F64.max. rewrite dropna_replicate by assumption. simpl.
    split; [apply fold_fmin_const|apply fold_fmax_const];
      intros y Hy; apply list_elem_of_In, elem_of_replicate in Hy as [-> _]; reflexivity. }
  unfold minmax. rewrite Hmin, Hmax, (float_sub_diag x Hx).
  generalize (S n) as k. intros k. induction k as [|k IH]; [reflexivity|].
  cbn [replicate List.map]. rewrite (float_sub_diag x Hx), IH. reflexivity.
Qed.

Lemma weighted_sum_flat (n : nat) (hist : list float) :
  length hist = n ->
  weighted_sum (replicate n 0) (replicate n 0) (replicate n 0)
    (List.map (fun x => 1 - x) (replicate n 0)) hist =
  List.map (fun h => 0.2 + 0.15 * h) hist.
Proof.
  revert n. induction hist as [|h r IH]; intros [|n] Hn; try discriminate Hn;
    [reflexivity|].
  injection Hn as Hn. specialize (IH n Hn).
  unfold weighted_sum, zipf in *. cbn [replicate List.map zip_with]. now rewrite IH.
Qed.

(** X14: when each of the four normalised features has one and the same finite
    value in every row of the frame (a frame of a single row, for one), every
    min-max range is zero, the epsilon takes over, and the score no longer sees
    load, fatigue, monotony or recovery: it is [0.2 + 0.15 * history_risk] in
    every row. *)
Theorem compute_risk_score_flat (σ : store) (df0 : loc) (d : DataFrame) (n : nat)
    (a b c e : float) (hr : list float) :
  σ !! df0 = Some d ->
  PrimFloat.is_finite a = true -> PrimFloat.is_finite b = true ->
  PrimFloat.is_finite c = true -> PrimFloat.is_finite e = true ->
  getitem d "load_7d" = Ok (replicate n a) ->
  getitem d "hrv_drop" = Ok (replicate n b) ->
  getitem d "training_monotony_log" = Ok (replicate n c) ->
  getitem d "recovery_score" = Ok (replicate n e) ->
  getitem d "history_risk" = Ok hr ->
  length hr = n ->
  exists d',
    compute_risk_score df0 σ = (Ok (fresh (dom σ)), <[fresh (dom σ) := d']> σ) /\
    getitem d' "risk_score" = Ok (List.map (fun h => 0.2 + 0.15 * h) hr).
Proof.
  intros H0 Fa Fb Fc Fe H1 H2 H3 H4 H5 Hn.
  eexists. split; [apply (compute_risk_score_run σ df0 d _ _ _ _ _ H0 H1 H2 H3 H4 H5)|].
  rewrite getitem_setitem_eq. f_equal.
  assert (List.map PrimFloat.opp (replicate n b) = replicate n (- b)) as ->
    by (rewrite map_fmap; apply fmap_replicate).
  rewrite !minmax_replicate by (try apply is_finite_opp; assumption).
  now apply weighted_sum_flat.
Qed.
(** ** The trailing window of the rolling load *)

Section TrailingWindow.
Context {np : Numpy}.


End TrailingWindow.

(** ** The endpoint *)

Section AppFacts.
Context {np : Numpy}.
Variable predict : FeatureVector -> result (string * float).
Variable round : float -> Z -> float.
Variable str : exn -> string.

(** X16: what [/predict-risk] answers.  With fewer than 60 stored rows of the
    athlete the classifier is not consulted and the request ends in an HTTP
    500 whose detail is the text of the "at least 60 days of history" error.
    Otherwise features are built; if the classifier answers, the body echoes
    the athlete, carries the predicted label, the confidence rounded to two
    places and the status "success"; if it raises, the request ends in an HTTP
    500 with the text of that error. *)
Theorem predict_risk_answers (data : TelemetryRecord) (history_df : list TelemetryRecord) :
  let prior :=
    List.filter (fun r => Z.eqb (athlete_id r) (athlete_id data)) history_df in
  if (length prior <? 60)%nat
  then predict_risk predict round str data history_df =
         HTTPException 500
           (str (ValueError "Athlete must have at least 60 days of history."))
  else exists features,
         build_features data history_df = Ok features /\
         predict_risk predict round str data history_df =
           match predict features with
           | Ok (label, conf) =>
               Success {| response_athlete_id := athlete_id data;
                          next_7_days_predicted_risk := label;
                          confidence := round conf 2;
                          status := "success" |}
           | Raise e => HTTPException 500 (str e)
           end.
Proof.
  intros prior. destruct (length prior <? 60)%nat eqn:E.
  - unfold predict_risk, build_features. now rewrite (prepare_short _ _ E).
  - destruct (build_features_enough data history_df E) as [fv Hfv].
    exists fv. split; [exact Hfv|].
    unfold predict_risk. rewrite Hfv. cbn [mbind result_bind].
    destruct (predict fv) as [[label conf]|e]; reflexivity.
Qed.

End AppFacts.
(** ** The load feature of the single-day transform *)



Section ServingLoad.
Context {np : Numpy}.



End ServingLoad.
(** ** The shape of the engineered frame *)

Section Shape.
Context {np : Numpy}.

Lemma engineer_features_other_columns (σ : store) (df0 : loc) (d : DataFrame) :
  σ !! df0 = Some d ->
  exists d',
    engineer_features df0 σ = (Ok (fresh (dom σ)), <[fresh (dom σ) := d']> σ) /\
    forall name, ~ In name engineered_columns -> derived d' !! name = derived d !! name.
Proof.
  intros H0. unfold engineer_features.
  rewrite (run_bind _ _ _ _ _ (run_copy _ _ _ H0)).
  repeat run_step.
  match goal with |- context [fill_rolling ?D] => set (D0 := D) end.
  destruct (fill_names_ok D0 rolling_features) as (d' & Hfill & _ & Hother).
  { intros name Hname. unfold rolling_features in Hname. simpl in Hname.
    repeat (destruct Hname as [<-|Hname];
            [eexists; unfold D0; getitem_solve; reflexivity|]).
    destruct Hname. }
  unfold fill_rolling. rewrite Hfill.
  erewrite run_bind; [|reflexivity].
  run_step.
  exists d'. split; [reflexivity|].
  intros name Hname. unfold engineered_columns in Hname. simpl in Hname.
  repeat (apply Decidable.not_or in Hname as [? Hname]).
  rewrite Hother by (unfold rolling_features; simpl; intuition congruence).
  unfold D0, setitem. cbn [derived set_date].
  rewrite !lookup_insert_ne by assumption. reflexivity.
Qed.

(** X18: [engineer_features] never fails on a frame of telemetry and never
    drops or adds a row: it returns a new frame with the rows of its argument
    and, for each of its twelve columns, one cell per row (a missing value
    where nothing can be computed); any other column of the argument is
    carried over as it is. *)
Theorem engineer_features_total (σ : store) (df0 : loc) (d : DataFrame) :
  σ !! df0 = Some d ->
  exists d',
    engineer_features df0 σ = (Ok (fresh (dom σ)), <[fresh (dom σ) := d']> σ) /\
    rows d' = rows d /\
    (forall name, In name engineered_columns ->
       exists xs, getitem d' name = Ok xs /\ length xs = len d) /\
    (forall name, ~ In name engineered_columns ->
       derived d' !! name = derived d !! name).
Proof.
  intros H0.
  destruct (engineer_features_columns σ df0 d H0)
    as (d' & Hrun & Hrows & C1 & C2 & C3 & C4 & C5 & C6 & C7 & C8 & C9 & C10 & C11 & C12).
  destruct (engineer_features_other_columns σ df0 d H0) as (d'' & Hrun' & Hother).
  assert (d'' = d') as ->.
  { rewrite Hrun in Hrun'. injection Hrun' as Hins.
    apply (f_equal (fun m : store => m !! fresh (dom σ))) in Hins.
    rewrite !lookup_insert_eq in Hins. congruence. }
  exists d'. split; [exact Hrun|]. split; [exact Hrows|]. split; [|exact Hother].
  intros name Hname. unfold engineered_columns in Hname. simpl in Hname.
  repeat (destruct Hname as [<-|Hname];
          [eexists; split; [eassumption|];
           unfold len, recovery_score_batch; len_solve|]).
  destruct Hname.
Qed.

End Shape.

(** ** Assigning the zones *)

(** X19: [assign_risk_zone] reads the [risk_score] column alone.  On a frame
    that has one it returns a new frame with the same rows, adds the column
    [risk_zone] with the zone of each score and leaves every other column as it
    is; on a frame without a [risk_score] column the call ends with the
    [KeyError] of that name. *)
Theorem assign_risk_zone_labels (σ : store) (df0 : loc) (d : DataFrame) :
  σ !! df0 = Some d ->
  (forall score, getitem d "risk_score" = Ok score ->
     exists d',
       assign_risk_zone df0 σ = (Ok (fresh (dom σ)), <[fresh (dom σ) := d']> σ) /\
       rows d' = rows d /\
       derived d' !! "risk_zone" = Some (StrCol (List.map classify_risk score)) /\
       (forall i s, score !! i = Some s -> zone d' i = Some (classify_risk s)) /\
       (forall name, name <> "risk_zone" -> derived d' !! name = derived d !! name)) /\
  (derived d !! "risk_score" = None ->
     (assign_risk_zone df0 σ).1 = Raise (KeyError "risk_score")).
Proof.
  intros H0. split.
  - intros score Hs. eexists.
    split; [apply (assign_risk_zone_run σ df0 d score H0 Hs)|].
    split; [reflexivity|]. unfold zone, setitem. cbn [derived].
    rewrite lookup_insert_eq. split; [reflexivity|]. split.
    + intros i s Hi. now rewrite map_fmap, list_lookup_fmap, Hi.
    + intros name Hname. now rewrite lookup_insert_ne by congruence.
  - intros Hmiss. unfold assign_risk_zone.
    rewrite (run_bind _ _ _ _ _ (run_copy _ _ _ H0)).
    erewrite run_raise; [reflexivity|]. now apply run_getitem_missing.
Qed.
(** ** Where the two transforms meet *)

Section HistoryRiskAgrees.
Context {np : Numpy}.

(** X20: the history risk is the one model feature on which the single-day
    transform and the batch transform always agree: run on the frame the
    single-day transform prepares, the batch transform writes in its last row
    the very history risk that [build_features] returns. *)
Theorem transforms_agree_on_history_risk
    (today_data : TelemetryRecord) (history_df : list TelemetryRecord) :
  let prior :=
    List.filter (fun r => Z.eqb (athlete_id r) (athlete_id today_data)) history_df in
  (length prior <? 60)%nat = false ->
  exists df fv d',
    prepare today_data history_df = Ok df /\
    build_features today_data history_df = Ok fv /\
    batch_on df = Ok d' /\
    cell d' "history_risk" (length df - 1) = Some (history_risk fv).
Proof.
  intros prior E.
  destruct (build_features_enough today_data history_df E) as [fv Hfv].
  pose proof (prepare_enough today_data history_df E) as Hprep. fold prior in Hprep.
  set (df := sort_by (fun a b => key_le (row_key a) (row_key b)) (prior ++ [today_data]))
    in *.
  assert (latest_features df = Ok fv) as Hfv'.
  { unfold build_features in Hfv. now rewrite Hprep in Hfv. }
  destruct (latest_features_history _ _ Hfv') as (r & Hr & Hh).
  set (σ := ({[ 1%positive := raw df ]} : store)).
  destruct (engineer_features_columns σ 1%positive (raw df) (lookup_singleton_eq _ _))
    as (d' & Hrun & _ & _ & _ & _ & Hhist & _).
  exists df, fv, d'. split; [exact Hprep|]. split; [exact Hfv|]. split.
  - unfold batch_on, call_on. fold σ. rewrite Hrun. now rewrite lookup_insert_eq.
  - unfold cell. rewrite Hhist. cbn [rows raw].
    rewrite map_fmap, list_lookup_fmap.
    rewrite last_lookup in Hr.
    replace (length df - 1)%nat with (Init.Nat.pred (length df)) by lia.
    rewrite Hr. simpl. now rewrite Hh.
Qed.

End HistoryRiskAgrees.

Lemma transforms_agree_on_history_risk_on_example :
  exists df fv d',
    @prepare today_same (steady 60) = Ok df /\
    @build_features Reference.numpy today_same (steady 60) = Ok fv /\
    @batch_on Reference.numpy df = Ok d' /\
    cell d' "history_risk" (length df - 1) = Some (history_risk fv).
Proof.
  apply (@transforms_agree_on_history_risk Reference.numpy today_same (steady 60)).
  vm_compute. reflexivity.
Defined.
(** ** The loop over the athletes *)

Lemma select_filter {A : Type} (p : A -> bool) (xs : list A) :
  select (List.map p xs) xs = List.filter p xs.
Proof.
  unfold select. induction xs as [|x r IH]; [reflexivity|].
  simpl. destruct (p x); simpl; now rewrite IH.
Qed.

Lemma filter_split_perm {A : Type} (p : A -> bool) (l : list A) :
  Permutation (List.filter p l ++ List.filter (fun x => negb (p x)) l) l.
Proof.
  induction l as [|x r IH]; [reflexivity|]. simpl.
  destruct (p x); simpl.
  - now constructor.
  - rewrite <- Permutation_middle. now constructor.
Qed.

Lemma filter_filter_other (k k' : Z) (l : list TelemetryRecord) :
  k' <> k ->
  List.filter (fun r => Z.eqb (athlete_id r) k')
    (List.filter (fun r => negb (Z.eqb (athlete_id r) k)) l) =
  List.filter (fun r => Z.eqb (athlete_id r) k') l.
Proof.
  intros Hne. induction l as [|x r IH]; [reflexivity|]. simpl.
  destruct (Z.eqb_spec (athlete_id x) k) as [Hk|Hk]; simpl.
  - destruct (Z.eqb_spec (athlete_id x) k'); [congruence|exact IH].
  - now rewrite IH.
Qed.

(** The groups are the rows: no row is left out and none is in two groups. *)
Lemma groups_partition (keys : list Z) (l : list TelemetryRecord) :
  List.NoDup keys ->
  (forall r, In r l -> In (athlete_id r) keys) ->
  Permutation
    (concat (List.map (fun k => List.filter (fun r => Z.eqb (athlete_id r) k) l) keys)) l.
Proof.
  intros Hnd. revert l. induction Hnd as [|k ks Hk Hks IH]; intros l Hall.
  - destruct l as [|r l]; [reflexivity|]. destruct (Hall r (or_introl eq_refl)).
  - simpl.
    etransitivity; [|apply (filter_split_perm (fun r => Z.eqb (athlete_id r) k) l)].
    apply Permutation_app_head.
    rewrite <- (IH (List.filter (fun r => negb (Z.eqb (athlete_id r) k)) l)).
    + apply Permutation_refl'. f_equal. apply List.map_ext_in. intros k' Hk'.
      symmetry. apply filter_filter_other. intros ->. contradiction.
    + intros r Hr. apply filter_In in Hr as [Hr Hne].
      destruct (Hall r Hr) as [Heq|Hin]; [|exact Hin].
      rewrite Heq, Z.eqb_refl in Hne. discriminate Hne.
Qed.

Lemma concat_app_perm {A B : Type} (f g : A -> list B) (l : list A) :
  Permutation (concat (List.map f l) ++ concat (List.map g l))
              (concat (List.map (fun x => f x ++ g x) l)).
Proof.
  induction l as [|x r IH]; [reflexivity|]. simpl.
  rewrite <- IH, <- !app_assoc. apply Permutation_app_head.
  rewrite !app_assoc. apply Permutation_app_tail. apply Permutation_app_comm.
Qed.

Lemma group_keys_spec (df : DataFrame) :
  List.NoDup (group_keys df) /\
  forall k, In k (group_keys df) <-> exists r, In r (rows df) /\ athlete_id r = k.
Proof.
  unfold group_keys. split.
  - apply (Permutation_NoDup (l := remove_dups (List.map athlete_id (rows df)))).
    + symmetry. apply sort_by_perm.
    + apply NoDup_ListNoDup, NoDup_remove_dups.
  - intros k. split.
    + intros Hk. apply (Permutation_in _ (sort_by_perm _ _)) in Hk.
      apply list_elem_of_In, elem_of_remove_dups, list_elem_of_In, in_map_iff in Hk
        as (r & Hr & Hin).
      now exists r.
    + intros (r & Hin & Hr). apply (Permutation_in _ (Permutation_sym (sort_by_perm _ _))).
      apply list_elem_of_In, elem_of_remove_dups, list_elem_of_In, in_map_iff.
      now exists r.
Qed.

Lemma rows_get_group (df : DataFrame) (k : Z) :
  rows (get_group df k) = athlete_rows df k.
Proof. unfold get_group, athlete_rows. cbn [rows]. apply select_filter. Qed.

(** One turn of the loop, run. *)
Lemma athlete_split_run (g : DataFrame) :
  (Z.of_nat (len g) < max_rows)%Z ->
  let k := (8 * len g / 10)%nat in
  athlete_split g =
    Some (iloc_to k (sort_values_date g), iloc_from k (sort_values_date g)).
Proof.
  intros Hn k. destruct (sort_values_date_spec g) as [Hperm _].
  unfold athlete_split.
  assert (len (sort_values_date g) = len g) as ->
    by (unfold len; now rewrite (Permutation_length Hperm)).
  now rewrite (split_idx_floor (len g) Hn).
Qed.

Lemma split_parts_run (df : DataFrame) (keys : list Z)
    (train_parts test_parts : list DataFrame) :
  (forall k, In k keys -> (Z.of_nat (len (get_group df k)) < max_rows)%Z) ->
  let cut := fun k => (8 * len (get_group df k) / 10)%nat in
  foldl (fun acc k =>
           '(train_parts, test_parts) ← acc;
           '(train, test) ← athlete_split (get_group df k);
           Some (train_parts ++ [train], test_parts ++ [test]))
        (Some (train_parts, test_parts)) keys =
    Some (train_parts ++
            List.map (fun k => iloc_to (cut k) (sort_values_date (get_group df k))) keys,
          test_parts ++
            List.map (fun k => iloc_from (cut k) (sort_values_date (get_group df k))) keys).
Proof.
  intros Hsmall cut. revert train_parts test_parts.
  induction keys as [|k ks IH]; intros train_parts test_parts.
  - simpl. now rewrite !app_nil_r.
  - cbn [foldl]. cbn [mbind option_bind].
    rewrite (athlete_split_run (get_group df k)) by (apply Hsmall; now left).
    cbn [mbind option_bind]. rewrite IH by (intros k' Hk'; apply Hsmall; now right).
    cbn [List.map]. now rewrite <- !app_assoc.
Qed.

(** X21: the loop of the temporal split, on a frame of fewer than [max_rows]
    rows.  It makes one train part and one test part per athlete, in ascending
    order of the athlete ids; the parts together hold every row of the frame
    once; inside an athlete every train date is at most every test date; and
    every athlete of the frame has at least one test row. *)
Theorem split_parts_partition (df : DataFrame) :
  (Z.of_nat (len df) < max_rows)%Z ->
  exists train_parts test_parts,
    split_parts df = Some (train_parts, test_parts) /\
    length train_parts = length (group_keys df) /\
    length test_parts = length (group_keys df) /\
    Permutation (concat (rows <$> train_parts) ++ concat (rows <$> test_parts)) (rows df) /\
    forall i k, group_keys df !! i = Some k ->
      exists train test,
        train_parts !! i = Some train /\ test_parts !! i = Some test /\
        Permutation (rows train ++ rows test) (athlete_rows df k) /\
        (forall a b, In a (rows train) -> In b (rows test) -> (date a <= date b)%Z) /\
        (1 <= len test)%nat.
Proof.
  intros Hn.
  destruct (group_keys_spec df) as [Hnd Hkeys].
  assert (forall k, (len (get_group df k) <= len df)%nat) as Hle.
  { intros k. unfold len. rewrite rows_get_group. apply List.filter_length_le. }
  assert (forall k, In k (group_keys df) ->
            (Z.of_nat (len (get_group df k)) < max_rows)%Z) as Hsmall.
  { intros k _. specialize (Hle k). lia. }
  pose proof (split_parts_run df (group_keys df) [] [] Hsmall) as Hrun.
  cbv zeta in Hrun. cbn [app] in Hrun.
  set (cut := fun k => (8 * len (get_group df k) / 10)%nat) in *.
  set (trf := fun k => iloc_to (cut k) (sort_values_date (get_group df k))) in *.
  set (tef := fun k => iloc_from (cut k) (sort_values_date (get_group df k))) in *.
  exists (List.map trf (group_keys df)), (List.map tef (group_keys df)).
  split; [exact Hrun|]. rewrite !length_map.
  split; [reflexivity|]. split; [reflexivity|].
  assert (forall k, Permutation (rows (trf k) ++ rows (tef k)) (athlete_rows df k)) as Hpart.
  { intros k. unfold trf, tef, iloc_to, iloc_from. cbn [rows].
    rewrite firstn_skipn, <- rows_get_group. apply sort_values_date_spec. }
  split.
  - rewrite <- !map_fmap, !List.map_map.
    rewrite (concat_app_perm (fun k => rows (trf k)) (fun k => rows (tef k))).
    etransitivity; [|apply (groups_partition (group_keys df) (rows df) Hnd);
                     intros r Hr; apply Hkeys; now exists r].
    generalize (group_keys df) as ks. intros ks.
    induction ks as [|k ks IH]; [reflexivity|]. cbn [List.map concat].
    rewrite IH. apply Permutation_app_tail. apply Hpart.
  - intros i k Hi. exists (trf k), (tef k).
    rewrite !map_fmap, !list_lookup_fmap, Hi. split; [reflexivity|]. split; [reflexivity|].
    split; [apply Hpart|].
    destruct (sort_values_date_spec (get_group df k)) as [Hperm Hsorted]. split.
    + intros a b Ha Hb. unfold trf, tef, iloc_to, iloc_from in Ha, Hb. cbn [rows] in Ha, Hb.
      exact (strongly_sorted_split _ _ (cut k) Hsorted a b Ha Hb).
    + unfold len, tef, iloc_from. cbn [rows]. rewrite length_skipn.
      rewrite (Permutation_length Hperm). fold (len (get_group df k)).
      assert (1 <= len (get_group df k))%nat as Hpos.
      { apply list_elem_of_lookup_2, list_elem_of_In, Hkeys in Hi as (r & Hr & Hid).
        unfold len. rewrite rows_get_group. unfold athlete_rows.
        assert (In r (List.filter (fun r => Z.eqb (athlete_id r) k) (rows df))) as Hin
          by (apply filter_In; split; [assumption|now apply Z.eqb_eq]).
        destruct (List.filter _ (rows df)); [destruct Hin|simpl; lia]. }
      unfold cut.
      assert (8 * len (get_group df k) / 10 < len (get_group df k))%nat
        by (apply Nat.Div0.div_lt_upper_bound; lia).
      lia.
Qed.
(** ** Concrete instances of the further properties *)

Lemma reference_log1p_missing (x : float) :
  F64.isna x = true -> F64.isna (@np_log1p Reference.numpy x) = true.
Proof.
  intros H. unfold np_log1p, Reference.numpy, Reference.log1p.
  unfold F64.isna in H. now rewrite H.
Qed.

Lemma engineer_features_per_athlete_on_example :
  let σ : store := {[ 1%positive := raw (two_athletes 50) ]} in
  exists d',
    @engineer_features Reference.numpy 1%positive σ =
      (Ok (fresh (dom σ)), <[fresh (dom σ) := d']> σ) /\
    athlete_cells d' "hrv_z" 2 = Ok (zscore_eps [70; 70]).
Proof.
  intros σ.
  destruct (@engineer_features_per_athlete Reference.numpy σ 1%positive
              (raw (two_athletes 50)) 2 eq_refl)
    as (d' & Hrun & _ & Hz & _).
  exists d'. split; [exact Hrun|exact Hz].
Defined.

Lemma risk_score_needs_every_feature_on_example :
  let σ : store := {[ 1%positive := gappy_example ]} in
  exists d',
    compute_risk_score 1%positive σ = (Ok (fresh (dom σ)), <[fresh (dom σ) := d']> σ) /\
    cell d' "risk_score" 1 = Some F64.nan.
Proof.
  intros σ.
  apply (risk_score_needs_every_feature σ 1%positive gappy_example
           [5.5; 5.75] [0; -0.5] [2; F64.nan] [0.25; 0.5] [0; 0] 1
           5.75 (-0.5) F64.nan 0.5 0); reflexivity.
Defined.

Lemma label_rows_total_on_example :
  let σ : store := {[ 1%positive := raw (two_athletes 50) ]} in
  exists l σ' d' score,
    @label_rows Reference.numpy 1%positive σ = (Ok l, σ') /\
    σ' !! l = Some d' /\
    getitem d' "risk_score" = Ok score /\
    length score = 4%nat.
Proof.
  intros σ.
  destruct (@label_rows_total Reference.numpy σ 1%positive (raw (two_athletes 50)) eq_refl)
    as (l & σ' & d' & score & Hrun & _ & _ & Hl & _ & Hs & Hlen & _).
  exists l, σ', d', score. repeat split; assumption.
Defined.

Lemma short_history_is_unknown_on_example :
  let σ : store := {[ 1%positive := raw (two_athletes 50) ]} in
  exists l σ' d',
    @label_rows Reference.numpy 1%positive σ = (Ok l, σ') /\
    σ' !! l = Some d' /\
    zone d' 0 = Some "Unknown".
Proof.
  intros σ.
  assert (length (athlete_rows (raw (two_athletes 50)) 1) < 5)%nat as Hshort
    by (vm_compute; lia).
  destruct (@short_history_is_unknown Reference.numpy σ 1%positive
              (raw (two_athletes 50)) 1 reference_log1p_missing eq_refl Hshort)
    as (l & σ' & d' & Hrun & Hl & Hrows).
  exists l, σ', d'. split; [exact Hrun|]. split; [exact Hl|].
  apply (Hrows 0%nat (day 1 0 300 50 70 0.5)); reflexivity.
Defined.



Lemma build_features_answers_for_today_on_example :
  exists df fv,
    @prepare today_same (steady 60) = Ok df /\
    last df = Some today_same /\
    @build_features Reference.numpy today_same (steady 60) = Ok fv /\
    history_risk fv = @history_risk_of Reference.numpy today_same.
Proof.
  apply (@build_features_answers_for_today Reference.numpy today_same (steady 60));
    vm_compute; reflexivity.
Defined.

Lemma build_features_answers_for_latest_stored_on_example :
  exists df latest fv,
    @prepare today_backdated (steady 60) = Ok df /\
    last df = Some latest /\
    (date today_backdated < date latest)%Z /\
    @build_features Reference.numpy today_backdated (steady 60) = Ok fv /\
    history_risk fv = @history_risk_of Reference.numpy latest.
Proof.
  destruct (@build_features_answers_for_latest_stored Reference.numpy today_backdated
              (steady 60))
    as (df & latest & fv & Hp & Hl & _ & Hd & _ & Hb & Hh);
    [vm_compute; reflexivity|vm_compute; reflexivity|].
  exists df, latest, fv. repeat split; assumption.
Defined.


Lemma athlete_split_any_order_on_example :
  exists train test,
    athlete_split shuffled = Some (train, test) /\
    Permutation (rows train ++ rows test) (rows shuffled) /\
    len train = 3%nat /\ len test = 1%nat.
Proof.
  destruct (athlete_split_any_order shuffled) as (train & test & Hs & Hp & Htr & Hte & _);
    [reflexivity|].
  exists train, test. repeat split; assumption.
Defined.

Lemma compute_risk_score_flat_on_example :
  let σ : store := {[ 1%positive := flat_example ]} in
  exists d',
    compute_risk_score 1%positive σ = (Ok (fresh (dom σ)), <[fresh (dom σ) := d']> σ) /\
    getitem d' "risk_score" = Ok [0.2 + 0.15 * 0; 0.2 + 0.15 * 1].
Proof.
  intros σ.
  apply (compute_risk_score_flat σ 1%positive flat_example 2 5.5 0.25 2 0.5 [0; 1]);
    reflexivity.
Defined.

Lemma assign_risk_zone_labels_on_example :
  let σ : store := {[ 1%positive := scored_example ]} in
  exists d',
    assign_risk_zone 1%positive σ = (Ok (fresh (dom σ)), <[fresh (dom σ) := d']> σ) /\
    zone d' 0 = Some "Safe" /\ zone d' 1 = Some "High".
Proof.
  intros σ.
  destruct (assign_risk_zone_labels σ 1%positive scored_example eq_refl) as [Hok _].
  destruct (Hok [0.25; 0.95] eq_refl) as (d' & Hrun & _ & _ & Hz & _).
  exists d'. split; [exact Hrun|].
  split; [apply (Hz 0%nat 0.25)|apply (Hz 1%nat 0.95)]; reflexivity.
Defined.

Lemma engineer_features_total_on_example :
  let σ : store := {[ 1%positive := raw (two_athletes 50) ]} in
  exists d' xs,
    @engineer_features Reference.numpy 1%positive σ =
      (Ok (fresh (dom σ)), <[fresh (dom σ) := d']> σ) /\
    rows d' = two_athletes 50 /\
    getitem d' "training_strain_log" = Ok xs /\ length xs = 4%nat.
Proof.
  intros σ.
  destruct (@engineer_features_total Reference.numpy σ 1%positive (raw (two_athletes 50))
              eq_refl)
    as (d' & Hrun & Hrows & Hcols & _).
  destruct (Hcols "training_strain_log") as (xs & Hxs & Hlen);
    [unfold engineered_columns; simpl; tauto|].
  exists d', xs. repeat split; assumption.
Defined.

Lemma split_parts_partition_on_example :
  exists train_parts test_parts,
    split_parts (raw (two_athletes 50)) = Some (train_parts, test_parts) /\
    length train_parts = 2%nat /\ length test_parts = 2%nat /\
    Permutation (concat (rows <$> train_parts) ++ concat (rows <$> test_parts))
      (two_athletes 50).
Proof.
  destruct (split_parts_partition (raw (two_athletes 50)))
    as (train_parts & test_parts & Hrun & Htr & Hte & Hperm & _); [reflexivity|].
  exists train_parts, test_parts. repeat split; assumption.
Defined.
